(** * The B2G build script (scripts/b2g_build.py): a shallow embedding

    The script drives an operating-system image build as an ordered list
    of stages.  Each stage is a method of [B2GBuild]; it reads the locked
    configuration, talks to collaborators of the harness (the command
    executor, the rsync transfer, file helpers, the logger) and may abort
    the run through [fatal].

    The embedding keeps that shape.  A stage is a function in a small
    state-and-error monad over a [World]: the file system the script sees,
    the process environment, the mutable attributes of the script object
    and the trace of every collaborator invocation together with the value
    the collaborator returned.  What a collaborator answers is left to an
    arbitrary [Collaborators] record, so every theorem holds whatever the
    executor, the transfer or the clock do. *)

From Stdlib Require Import ZArith QArith String Ascii List Lia.
From Stdlib Require Import DecimalString DecimalZ DecimalPos DecimalFacts.
From stdpp Require Import base option list gmap strings.

Local Open Scope Z_scope.
Local Open Scope string_scope.
Local Open Scope list_scope.

(** ** Python values and strings *)

Module Py.

(** The scalars found in the configuration and in the scheduler's JSON
    properties: [None] (also JSON [null]), a boolean, an integer or a
    string. *)
Inductive pyval : Type :=
| PyNone
| PyBool (b : bool)
| PyInt (n : Z)
| PyStr (s : string).

#[global] Instance pyval_eq_dec : EqDecision pyval.
Proof. solve_decision. Defined.

(** [str(n)] for an integer: decimal digits, ["-"] in front of a
    negative number. *)
Definition str_int (n : Z) : string :=
  NilZero.string_of_int (Z.to_int n).

(** [str(v)], as the ["%s"] conversion applies it. *)
Definition str (v : pyval) : string :=
  match v with
  | PyNone => "None"
  | PyBool true => "True"
  | PyBool false => "False"
  | PyInt n => str_int n
  | PyStr s => s
  end.

(** Truth value of [v] in an [if]. *)
Definition truthy (v : pyval) : bool :=
  match v with
  | PyNone => false
  | PyBool b => b
  | PyInt n => negb (Z.eqb n 0)
  | PyStr s => negb (String.eqb s "")
  end.

(** Exceptions the modelled code can raise. *)
Inductive exn : Type :=
| KeyError
| IndexError
| TypeError
| ValueError
| IOError
| OSError.

#[global] Instance exn_eq_dec : EqDecision exn.
Proof. solve_decision. Defined.

(** The white space [int()] skips on both sides of a literal:
    space, [\t], [\n], [\v], [\f], [\r]. *)
Definition is_space (c : ascii) : bool :=
  let n := nat_of_ascii c in
  (Nat.eqb n 32 || (Nat.leb 9 n && Nat.leb n 13))%bool.

Definition is_digit (c : ascii) : bool :=
  let n := nat_of_ascii c in
  (Nat.leb 48 n && Nat.leb n 57)%bool.

Fixpoint lstrip (s : string) : string :=
  match s with
  | String c r => if is_space c then lstrip r else s
  | EmptyString => EmptyString
  end.

Fixpoint rstrip (s : string) : string :=
  match s with
  | String c r =>
      match rstrip r with
      | EmptyString => if is_space c then EmptyString else String c EmptyString
      | r' => String c r'
      end
  | EmptyString => EmptyString
  end.

Definition strip (s : string) : string := rstrip (lstrip s).

(** No white space anywhere in [s]. *)
Fixpoint no_space (s : string) : bool :=
  match s with
  | String c r => negb (is_space c) && no_space r
  | EmptyString => true
  end.

(** One or more decimal digits, read as a natural number. *)
Definition digits (s : string) : option Z :=
  Z.of_uint <$> NilZero.uint_of_string s.

(** [int(s)] on a string, base 10: surrounding white space is dropped,
    one sign is allowed, at least one digit is required.  [None] stands
    for [ValueError]. *)
Definition int_of_str (s : string) : option Z :=
  match strip s with
  | String "-" r => Z.opp <$> digits r
  | String "+" r => digits r
  | t => digits t
  end.

(** [int(x)] on a float truncates towards zero.  The float is carried as
    the rational it denotes. *)
Definition int_of_float (x : Q) : Z := Z.quot (Qnum x) (Zpos (Qden x)).

Fixpoint all_digits (s : string) : bool :=
  match s with
  | String c r => is_digit c && all_digits r
  | EmptyString => true
  end.

(** [s.endswith(suffix)] *)
Definition endswith (s suffix : string) : bool :=
  let n := String.length s in
  let k := String.length suffix in
  (Nat.leb k n && String.eqb (String.substring (n - k) k s) suffix)%bool.

(** [s.startswith(p)], giving back what follows the prefix. *)
Fixpoint strip_prefix (p s : string) : option string :=
  match p, s with
  | EmptyString, _ => Some s
  | String a p', String b s' => if Ascii.eqb a b then strip_prefix p' s' else None
  | String _ _, EmptyString => None
  end.

(** [s.split(sep)] for a one-character separator. *)
Fixpoint split (sep : ascii) (s : string) : list string :=
  match s with
  | EmptyString => [EmptyString]
  | String c r =>
      if Ascii.eqb c sep then EmptyString :: split sep r
      else match split sep r with
           | piece :: pieces => String c piece :: pieces
           | [] => [String c EmptyString]
           end
  end.

Definition newline : ascii := ascii_of_nat 10.

(** [re.search("^" + key + "(\d+)$", data, re.M)]: neither the key nor
    the digits can hold a line break, so a match is a whole line; the
    leftmost one is returned. *)
Definition match_digits_line (key line : string) : option string :=
  match strip_prefix key line with
  | Some rest =>
      match rest with
      | EmptyString => None
      | _ => if all_digits rest then Some rest else None
      end
  | None => None
  end.

(** [re.search("^" + key + "(.+)$", data, re.M)]: [.] matches anything
    but a line break. *)
Definition match_any_line (key line : string) : option string :=
  match strip_prefix key line with
  | Some EmptyString => None
  | other => other
  end.

Fixpoint first_match {A} (f : string -> option A) (ls : list string) : option A :=
  match ls with
  | [] => None
  | l :: rest => match f l with Some a => Some a | None => first_match f rest end
  end.

Definition search_line {A} (f : string -> option A) (data : string) : option A :=
  first_match f (split newline data).

End Py.

(** ** Paths ([os.path], POSIX flavour) *)

Module Path.

Definition sep : ascii := "/"%char.

Definition ends_with_sep (a : string) : bool := Py.endswith a "/".

Definition is_abs (b : string) : bool :=
  match b with
  | String c _ => Ascii.eqb c sep
  | EmptyString => false
  end.

(** [os.path.join(a, b)] *)
Definition join (a b : string) : string :=
  if is_abs b then b
  else match a with
       | EmptyString => b
       | _ => if ends_with_sep a then a +:+ b else a +:+ "/" +:+ b
       end.

(** [os.path.join(a, *ps)] *)
Definition joins (a : string) (ps : list string) : string := fold_left join ps a.

(** [os.path.basename(p)]: what follows the last separator. *)
Definition basename (p : string) : string :=
  List.last (Py.split sep p) EmptyString.

End Path.


(** ** The harness: world, collaborators, the script monad *)

Module Harness.
Import Py.

Inductive level : Type := DEBUG | INFO | WARNING | ERROR | FATAL.

#[global] Instance level_eq_dec : EqDecision level.
Proof. solve_decision. Defined.

(** One entry of an error list handed to the executor. *)
Record rule : Type := { substr : string; rule_level : level }.

(** A file as the script observes it: what [read_from_file] returns and
    what [os.path.getmtime] reports. *)
Record file : Type := { data : string; mtime : Q }.

Record FileSystem : Type := {
  files : gmap string file;
  clock : Q;
}.

(** An executor invocation.  [mock_target = Some t] is
    [run_mock_command(t, cmd, ...)], [None] is [run_command(cmd, ...)]. *)
Record command : Type := {
  mock_target : option string;
  argv : list string;
  cwd : option string;
  env : option (gmap string string);
  error_list : option (list rule);
}.

(** An [rsync_upload_directory] invocation. *)
Record transfer : Type := {
  local_path : string;
  ssh_key : pyval;
  ssh_user : pyval;
  remote_host : pyval;
  remote_path : pyval;
  rsync_options : option (list string);
}.

(** What the run leaves behind: every log line and every collaborator
    invocation, with the value the collaborator handed back. *)
Inductive event : Type :=
| Log (l : level) (message : string)
| Exec (c : command) (status : Z)
| Rsync (t : transfer) (failure : option Z)
| CreateUpdateXml (marfile : string) (version buildid : pyval)
                  (url upload_dir : string) (ok : bool)
| VcsCheckout (repo : string) (dest : string) (vcs : string) (rev : pyval)
| SetupMock (target : string) (packages : list string)
            (mock_files : option (list (string * string)))
| SetBuildbotProperty (name : string) (value : pyval)
| WriteToFile (path contents : string)
| Rmtree (path : string)
| MkdirP (path : string)
| CopyFile (src' dst : string)
| CopyToUploadDir (target : string) (dest : option string)
| CopyLogsToUploadDir
| Mkdtemp (path : string).

(** The product descriptor ([b2g/config/<target>/config.json]), with the
    keys the modelled stages read.  [None] is an absent key. *)
Record GeckoConfig : Type := {
  gc_env : option (gmap string string);
  zip_files : option (list string);
  upload_files : option (list string);
  gc_mock_target : option string;
  mock_packages : option (list string);
  gc_mock_files : option (list (string * string));
}.

(** Everything a stage can read or change. *)
Record World : Type := {
  fs : FileSystem;
  environ : gmap string string;
  trace : list event;
  return_code : Z;
  buildbot_properties : gmap string pyval;
  gecko_config : option GeckoConfig;
}.

(** The collaborators of the harness.  None of them is under [src/]; each
    is an arbitrary function of the world at the time of the call (which
    holds the whole history) and of the call's arguments.  A collaborator
    call returns; an abort raised inside a collaborator is outside this
    model. *)
Record Collaborators : Type := {
  (** exit status of [run_command] / [run_mock_command] *)
  exit_status : World -> command -> Z;
  (** [rsync_upload_directory]: [None] on success *)
  rsync_failure : World -> transfer -> option Z;
  (** truth value of what [create_update_xml] returns *)
  update_xml_ok : World -> string -> pyval -> pyval -> string -> string -> bool;
  (** revision [vcs_checkout] resolves *)
  checkout_rev : World -> string -> string -> string -> pyval;
  (** [tempfile.mkdtemp()] *)
  mkdtemp : World -> string;
  (** the file system once the call recorded as this event has returned *)
  fs_after : World -> event -> FileSystem;
  (** [glob.glob(pattern)] *)
  glob : FileSystem -> string -> list string;
  (** [pattern.format(objdir=.., workdir=.., srcdir=..)] *)
  format_pattern : string -> string -> string -> string -> exn + string;
  (** [json.load] of the product descriptor *)
  parse_gecko_config : string -> option GeckoConfig;
  query_exe : string -> string;
  query_env : gmap string string;
  abspath : string -> string;
  MakefileErrorList : list rule;
}.

(** *** The script monad *)

Inductive result (A : Type) : Type :=
| Ok (a : A)
| Fatal (exit_code : Z)
| Raise (e : exn).
Arguments Ok {A} a.
Arguments Fatal {A} exit_code.
Arguments Raise {A} e.

Definition script (A : Type) : Type := World -> result A * World.

Definition ret {A} (a : A) : script A := fun w => (Ok a, w).

Definition bind {A B} (m : script A) (k : A -> script B) : script B :=
  fun w =>
    match m w with
    | (Ok a, w') => k a w'
    | (Fatal c, w') => (Fatal c, w')
    | (Raise e, w') => (Raise e, w')
    end.

Definition raise {A} (e : exn) : script A := fun w => (Raise e, w).

(** A lookup or conversion that touches nothing but may raise. *)
Definition lift {A} (r : result A) : script A := fun w => (r, w).

Definition get : script World := fun w => (Ok w, w).

Declare Scope script_scope.
Delimit Scope script_scope with script.
Notation "x <- m ;; k" := (bind m (fun x => k))
  (at level 100, m at next level, right associativity) : script_scope.
Notation "m ;; k" := (bind m (fun _ => k))
  (at level 100, right associativity) : script_scope.
Local Open Scope script_scope.

(** [try: body / except: handler] with a bare [except], which also
    catches the [SystemExit] of [fatal]. *)
Definition try_except_all {A} (body handler : script A) : script A :=
  fun w =>
    match body w with
    | (Ok a, w') => (Ok a, w')
    | (_, w') => handler w'
    end.

(** [try: body / except E: handler] *)
Definition try_except {A} (body : script A) (E : exn) (handler : script A) : script A :=
  fun w =>
    match body w with
    | (Raise e, w') => if decide (e = E) then handler w' else (Raise e, w')
    | other => other
    end.

(** [try: body / finally: cleanup] *)
Definition try_finally {A} (body : script A) (cleanup : script unit) : script A :=
  fun w =>
    match body w with
    | (r, w') =>
        match cleanup w' with
        | (Ok _, w'') => (r, w'')
        | (Fatal c, w'') => (Fatal c, w'')
        | (Raise e, w'') => (Raise e, w'')
        end
    end.

(** [for x in xs: body(x)] *)
Fixpoint for_each {A} (xs : list A) (body : A -> script unit) : script unit :=
  match xs with
  | [] => ret tt
  | x :: rest => body x ;; for_each rest body
  end.

(** [d[k]] on a dictionary *)
Definition getitem {V} (d : gmap string V) (k : string) : result V :=
  match d !! k with
  | Some v => Ok v
  | None => Raise KeyError
  end.

(** [d[k]] where the key is a field of a typed dictionary *)
Definition field {V} (v : option V) : result V :=
  match v with
  | Some v => Ok v
  | None => Raise KeyError
  end.

Definition record_event (e : event) (w : World) : World :=
  {| fs := fs w; environ := environ w; trace := trace w ++ [e];
     return_code := return_code w;
     buildbot_properties := buildbot_properties w;
     gecko_config := gecko_config w |}.

Definition with_fs (f : FileSystem) (w : World) : World :=
  {| fs := f; environ := environ w; trace := trace w;
     return_code := return_code w;
     buildbot_properties := buildbot_properties w;
     gecko_config := gecko_config w |}.

(** *** Logging *)

Definition log (l : level) (message : string) : script unit :=
  fun w => (Ok tt, record_event (Log l message) w).

Definition debug := log DEBUG.
Definition info := log INFO.
Definition error := log ERROR.

(** [fatal(message, exitCode=-1)] (Config.py): the message is logged,
    then [sys.exit(exitCode)] ends the run. *)
Definition default_exit_code : Z := -1.

Definition fatal {A} (message : string) (exit_code : Z) : script A :=
  fun w => (Fatal exit_code, record_event (Log FATAL message) w).

(** [self.return_code = n] *)
Definition set_return_code (n : Z) : script unit :=
  fun w => (Ok tt,
    {| fs := fs w; environ := environ w; trace := trace w;
       return_code := n;
       buildbot_properties := buildbot_properties w;
       gecko_config := gecko_config w |}).

Section Calls.
Variable ext : Collaborators.

(** A collaborator call: the event is recorded with its answer and the
    file system moves to wherever the collaborator left it. *)
Definition called (e : event) : script unit :=
  fun w => (Ok tt, with_fs (fs_after ext w e) (record_event e w)).

Definition execute (c : command) : script Z :=
  fun w =>
    let status := exit_status ext w c in
    (Ok status, with_fs (fs_after ext w (Exec c status))
                        (record_event (Exec c status) w)).

Definition run_command (cmd : list string) (cwd : option string)
    (env : option (gmap string string)) (errs : option (list rule)) : script Z :=
  execute {| mock_target := None; argv := cmd; cwd := cwd; env := env;
             error_list := errs |}.

Definition run_mock_command (target : string) (cmd : list string)
    (cwd : option string) (env : option (gmap string string))
    (errs : option (list rule)) : script Z :=
  execute {| mock_target := Some target; argv := cmd; cwd := cwd; env := env;
             error_list := errs |}.

Definition rsync_upload_directory (t : transfer) : script (option Z) :=
  fun w =>
    let failure := rsync_failure ext w t in
    (Ok failure, with_fs (fs_after ext w (Rsync t failure))
                         (record_event (Rsync t failure) w)).

Definition create_update_xml (marfile : string) (version buildid : pyval)
    (url upload_dir : string) : script bool :=
  fun w =>
    let ok := update_xml_ok ext w marfile version buildid url upload_dir in
    let e := CreateUpdateXml marfile version buildid url upload_dir ok in
    (Ok ok, with_fs (fs_after ext w e) (record_event e w)).

Definition vcs_checkout (repo dest vcs : string) : script pyval :=
  fun w =>
    let rev := checkout_rev ext w repo dest vcs in
    let e := VcsCheckout repo dest vcs rev in
    (Ok rev, with_fs (fs_after ext w e) (record_event e w)).

Definition tempfile_mkdtemp : script string :=
  fun w =>
    let d := mkdtemp ext w in
    (Ok d, with_fs (fs_after ext w (Mkdtemp d)) (record_event (Mkdtemp d) w)).

Definition setup_mock target packages mock_files : script unit :=
  called (SetupMock target packages mock_files).
Definition rmtree (path : string) : script unit := called (Rmtree path).
Definition mkdir_p (path : string) : script unit := called (MkdirP path).
Definition copyfile (src dst : string) : script unit := called (CopyFile src dst).
Definition copy_to_upload_dir (target : string) (dest : option string) : script unit :=
  called (CopyToUploadDir target dest).
Definition copy_logs_to_upload_dir : script unit := called CopyLogsToUploadDir.

(** [set_buildbot_property(name, value, write_to_file=True)] *)
Definition set_buildbot_property (name : string) (value : pyval) : script unit :=
  fun w =>
    let e := SetBuildbotProperty name value in
    (Ok tt,
     {| fs := fs_after ext w e; environ := environ w; trace := trace w ++ [e];
        return_code := return_code w;
        buildbot_properties := <[name := value]> (buildbot_properties w);
        gecko_config := gecko_config w |}).
End Calls.

(** [read_from_file(path)]: the contents, or [None] when the file is not
    there. *)
Definition read_from_file (path : string) : script (option string) :=
  fun w => (Ok (data <$> files (fs w) !! path), w).

(** [write_to_file(path, contents)] *)
Definition write_to_file (path contents : string) : script unit :=
  fun w =>
    let f := fs w in
    (Ok tt,
     with_fs {| files := <[path := {| data := contents; mtime := clock f |}]> (files f);
                clock := clock f |}
             (record_event (WriteToFile path contents) w)).

(** [os.path.getmtime(path)]; a missing file raises [OSError]. *)
Definition getmtime (path : string) : script Q :=
  fun w =>
    match files (fs w) !! path with
    | Some f => (Ok (mtime f), w)
    | None => (Raise OSError, w)
    end.

End Harness.

(** ** The build script *)

Module B2G.
Import Py Harness.
Local Open Scope script_scope.

(** *** Data *)

(** The scheduler's build properties ([buildbot_config], read from the
    JSON file named by [PROPERTIES_FILE]).  An absent key is [None]. *)
Record SourceStamp : Type := {
  revision : option pyval;
  changes : option (list (gmap string pyval));
}.

Record BuildbotConfig : Type := {
  properties : option (gmap string pyval);
  sourcestamp : option SourceStamp;
}.

(** The locked configuration.  The keys read with [self.config[...]]
    have a default in [__init__] or are checked by [_pre_config_lock]
    ([target]); [update] is read with [.get]. *)
Record Config : Type := {
  target : string;
  cfg_work_dir : string;
  repo : string;
  cfg_gecko_config : option string;
  enable_try_uploads : bool;
  upload_remote_basepath : pyval;
  upload_remote_host : pyval;
  cfg_ssh_key : pyval;
  cfg_ssh_user : pyval;
  tools_repo : string;
  update : option (gmap string pyval);
}.

(** The directory map of [BaseScript.query_abs_dirs]. *)
Record BaseDirs : Type := {
  super_abs_work_dir : string;
  super_base_work_dir : string;
  super_abs_upload_dir : string;
}.

Record Dirs : Type := {
  abs_work_dir : string;
  base_work_dir : string;
  abs_upload_dir : string;
  src : string;
  work_dir : string;
  gaia_l10n_base_dir : string;
}.

(** The script object, as [__init__] leaves it.  The attributes that
    change during a run ([gecko_config], [return_code], the buildbot
    properties) live in the [World]. *)
Record B2GBuild : Type := {
  config : Config;
  buildbot_config : option BuildbotConfig;
  abs_dirs : Dirs;
  objdir : string;
  marfile : string;
  application_ini : string;
  (** Modelled from the spec: [query_is_nightly] belongs to BuildbotMixin,
      which is not under src/; it reports the run's nightly-build flag. *)
  nightly_build : bool;
}.

Definition all_actions : list string :=
  [ "clobber"; "checkout-gecko"; "download-gonk"; "unpack-gonk";
    "checkout-gaia"; "checkout-gaia-l10n"; "build"; "build-symbols";
    "make-updates"; "prep-upload"; "upload"; "make-update-xml";
    "upload-updates" ].

Definition default_actions : list string :=
  [ "checkout-gecko"; "download-gonk"; "unpack-gonk"; "build" ].

Section Script.
Variable ext : Collaborators.

Definition B2GMakefileErrorList : list rule :=
  {| substr := "/bin/bash: java: command not found"; rule_level := WARNING |}
  :: MakefileErrorList ext
  ++ [ {| substr := "NS_ERROR_FILE_ALREADY_EXISTS: Component returned failure code";
          rule_level := ERROR |} ].

(** [query_abs_dirs], first call: the base map updated with the three
    entries of the script. *)
Definition compute_abs_dirs (c : Config) (super : BaseDirs) : Dirs :=
  {| abs_work_dir := super_abs_work_dir super;
     base_work_dir := super_base_work_dir super;
     abs_upload_dir := super_abs_upload_dir super;
     src := Path.join (cfg_work_dir c) "gecko";
     work_dir := abspath ext (cfg_work_dir c);
     gaia_l10n_base_dir := Path.join (abspath ext (cfg_work_dir c)) "gaia-l10n" |}.

(** [__init__] *)
Definition init (c : Config) (bc : option BuildbotConfig) (super : BaseDirs)
    (nightly : bool) : B2GBuild :=
  let dirs := compute_abs_dirs c super in
  let objdir := Path.join (work_dir dirs) "objdir-gecko" in
  {| config := c;
     buildbot_config := bc;
     abs_dirs := dirs;
     objdir := objdir;
     marfile := objdir +:+ "/dist/b2g-update/b2g-gecko-update.mar";
     application_ini :=
       Path.joins (work_dir dirs)
         ["out"; "target"; "product"; target c; "system"; "b2g"; "application.ini"];
     nightly_build := nightly |}.

Variable self : B2GBuild.

(** [query_abs_dirs] once [__init__] has filled [self.abs_dirs]. *)
Definition query_abs_dirs : Dirs := abs_dirs self.

Definition query_is_nightly : bool := nightly_build self.

Definition set_gecko_config (gc : GeckoConfig) : script unit :=
  fun w => (Ok tt,
    {| fs := fs w; environ := environ w; trace := trace w;
       return_code := return_code w;
       buildbot_properties := buildbot_properties w;
       gecko_config := Some gc |}).

Definition load_gecko_config : script GeckoConfig :=
  w <- get ;;
  match gecko_config w with
  | Some gc => ret gc
  | None =>
      let dirs := query_abs_dirs in
      let conf_file :=
        match cfg_gecko_config (config self) with
        | Some f => f
        | None => Path.joins (src dirs)
                    ["b2g"; "config"; target (config self); "config.json"]
        end in
      match files (fs w) !! conf_file with
      | None => raise IOError
      | Some f =>
          match parse_gecko_config ext (data f) with
          | None => raise ValueError
          | Some gc => set_gecko_config gc ;; ret gc
          end
      end
  end.

Definition query_repo : result string :=
  match buildbot_config self with
  | Some {| properties := Some props |} =>
      match getitem props "repo_path" with
      | Ok v => Ok ("http://hg.mozilla.org/" +:+ str v)
      | Fatal c => Fatal c
      | Raise e => Raise e
      end
  | _ => Ok (repo (config self))
  end.

Definition query_branch : result pyval :=
  match buildbot_config self with
  | Some {| properties := Some props |} => getitem props "branch"
  | _ =>
      match query_repo with
      | Ok r => Ok (PyStr (Path.basename r))
      | Fatal c => Fatal c
      | Raise e => Raise e
      end
  end.

Definition platform_ini : string :=
  Path.joins (work_dir query_abs_dirs)
    ["out"; "target"; "product"; target (config self); "system"; "b2g";
     "platform.ini"].

(** [re.search] on [None] raises [TypeError]. *)
Definition search_in (f : string -> option string) (data : option string)
    : script pyval :=
  match data with
  | None => raise TypeError
  | Some d =>
      ret (match search_line f d with
           | Some found => PyStr found
           | None => PyNone
           end)
  end.

Definition query_buildid : script pyval :=
  data <- read_from_file platform_ini ;;
  search_in (match_digits_line "BuildID=") data.

Definition query_version : script pyval :=
  data <- read_from_file (application_ini self) ;;
  search_in (match_any_line "Version=") data.

Definition query_revision : script pyval :=
  w <- get ;;
  match buildbot_properties w !! "revision" with
  | Some v => ret v
  | None =>
      match buildbot_config self with
      | Some {| sourcestamp := Some ss |} => lift (field (revision ss))
      | _ => ret PyNone
      end
  end.

(** *** unpack-gonk *)

Definition snapshot_path : string :=
  Path.join (abs_work_dir query_abs_dirs) "gonk.tar.xz".

Definition mtime_file : string :=
  Path.join (abs_work_dir query_abs_dirs) ".gonk_mtime".

(** [int(x)] where [x] is what [read_from_file] returned. *)
Definition int_of_read (x : option string) : result Z :=
  match x with
  | None => Raise TypeError
  | Some s =>
      match int_of_str s with
      | Some n => Ok n
      | None => Raise ValueError
      end
  end.

(** The [try] block at the head of [unpack_gonk]; the value tells
    whether its [return] was taken. *)
Definition already_unpacked (mtime : Z) : script bool :=
  try_except_all
    (contents <- read_from_file mtime_file ;;
     prev_mtime <- lift (int_of_read contents) ;;
     if Z.eqb mtime prev_mtime then
       info "We already have this gonk unpacked; skipping" ;;
       ret true
     else ret false)
    (ret false).

Definition unpack_gonk : script unit :=
  let dirs := query_abs_dirs in
  stamp <- getmtime snapshot_path ;;
  let mtime := int_of_float stamp in
  skip <- already_unpacked mtime ;;
  if skip then ret tt
  else
    retval <- run_command ext ["tar"; "xf"; "gonk.tar.xz"; "--strip-components"; "1"]
                (Some (work_dir dirs)) None None ;;
    (if negb (Z.eqb retval 0) then fatal "failed to unpack gonk" 2 else ret tt) ;;
    run_command ext ["cat"; "sources.xml"] (Some (work_dir dirs)) None None ;;
    info ("Writing " +:+ str_int mtime +:+ " to " +:+ mtime_file) ;;
    write_to_file mtime_file (str_int mtime).

(** *** make-updates and signing *)

Definition userconfig_contents : string :=
  "GECKO_OBJDIR=" +:+ objdir self +:+ String newline "".

(** [env = self.query_env(); env.update(gecko_config.get('env', {}))] *)
Definition build_env (gc : GeckoConfig) : gmap string string :=
  default ∅ (gc_env gc) ∪ query_env ext.

Definition sign_updates : script unit :=
  w <- get ;;
  match environ w !! "MOZ_SIGNING_SERVERS" with
  | None => info "Skipping signing since no MOZ_SIGNING_SERVERS set"
  | Some _ =>
      let dirs := query_abs_dirs in
      info "Checking out tools" ;;
      rev <- vcs_checkout ext (tools_repo (config self))
               (Path.join (abs_work_dir dirs) "tools") "hgtool" ;;
      set_buildbot_property ext "tools_revision" rev ;;
      let signing_dir :=
        Path.joins (abs_work_dir dirs) ["tools"; "release"; "signing"] in
      let cache_dir := Path.join (abs_work_dir dirs) "signing_cache" in
      let token := Path.join (base_work_dir dirs) "token" in
      let nonce := Path.join (base_work_dir dirs) "nonce" in
      let host_cert := Path.join signing_dir "host.cert" in
      let python := query_exe ext "python" in
      let cmd :=
        [ python; Path.join signing_dir "signtool.py";
          "--cachedir"; cache_dir;
          "-t"; token;
          "-n"; nonce;
          "-c"; host_cert;
          "-f"; "b2gmar" ] in
      w' <- get ;;
      servers <- lift (getitem (environ w') "MOZ_SIGNING_SERVERS") ;;
      let cmd := cmd ++ flat_map (fun h => ["-H"; h]) (split "," servers) in
      let cmd := cmd ++ [marfile self] in
      retval <- run_command ext cmd None None None ;;
      if negb (Z.eqb retval 0) then fatal "failed to sign complete update" 2
      else ret tt
  end.

Definition make_updates : script unit :=
  if negb query_is_nightly then info "Not a nightly build. Skipping..."
  else
    let dirs := query_abs_dirs in
    gecko_config <- load_gecko_config ;;
    let cmd := ["./build.sh"; "gecko-update-full"] in
    let env := build_env gecko_config in
    write_to_file (Path.join (work_dir dirs) ".userconfig") userconfig_contents ;;
    retval <-
      match gc_mock_target gecko_config with
      | Some mock =>
          packages <- lift (field (mock_packages gecko_config)) ;;
          setup_mock ext mock packages (gc_mock_files gecko_config) ;;
          run_mock_command ext mock cmd (Some (work_dir dirs)) (Some env)
            (Some B2GMakefileErrorList)
      | None =>
          run_command ext cmd (Some (work_dir dirs)) (Some env)
            (Some B2GMakefileErrorList)
      end ;;
    (if negb (Z.eqb retval 0) then fatal "failed to create complete update" 2
     else ret tt) ;;
    sign_updates.

(** *** prep-upload *)

(** [for pattern in patterns: ... for f in glob.glob(pattern):
    files.append(f)] *)
Fixpoint collect_files (patterns : list string) : script (list string) :=
  match patterns with
  | [] => ret []
  | pattern :: rest =>
      let dirs := query_abs_dirs in
      match format_pattern ext pattern (objdir self) (work_dir dirs) (src dirs) with
      | inl e => raise e
      | inr pattern =>
          w <- get ;;
          found <- collect_files rest ;;
          ret (glob ext (fs w) pattern ++ found)
      end
  end.

Definition build_prop (output_dir : string) : string :=
  Path.joins output_dir ["system"; "build.prop"].

(** The body of [for f in files] at the end of [prep_upload]. *)
Definition stage_file (f : string) : script unit :=
  if endswith f ".img" then
    if query_is_nightly then
      info ("compressing " +:+ f) ;;
      run_command ext ["bzip2"; f] None None None ;;
      let f := f +:+ ".bz2" in
      info ("copying " +:+ f +:+ " to upload directory") ;;
      copy_to_upload_dir ext f None
    else
      info ("not uploading " +:+ f +:+ " for non-nightly build")
  else
    info ("copying " +:+ f +:+ " to upload directory") ;;
    copy_to_upload_dir ext f None.

Definition zip_name : string :=
  Path.join (work_dir query_abs_dirs) (target (config self) +:+ ".zip").

(** The [if files:] block that bundles the [zip_files] matches. *)
Definition zip_up (files : list string) : script unit :=
  match files with
  | [] => ret tt
  | _ =>
      info ("creating " +:+ zip_name) ;;
      tmpdir <- tempfile_mkdtemp ext ;;
      try_finally
        (let zip_dir := Path.join tmpdir "b2g-distro" in
         mkdir_p ext zip_dir ;;
         for_each files
           (fun f => copyfile ext f (Path.join zip_dir (Path.basename f))) ;;
         status <- run_command ext ["zip"; "-r"; "-9"; "-u"; zip_name; "b2g-distro"]
                     (Some tmpdir) None None ;;
         (if negb (Z.eqb status 0)
          then fatal "problem zipping up files" default_exit_code
          else ret tt) ;;
         copy_to_upload_dir ext zip_name None)
        (debug ("removing " +:+ tmpdir) ;;
         rmtree ext tmpdir)
  end.

Definition output_dir : string :=
  Path.joins (work_dir query_abs_dirs)
    ["out"; "target"; "product"; target (config self)].

(** The individual-upload file list: [build.prop] first, then what the
    [upload_files] patterns match. *)
Definition upload_file_list (gecko_config : GeckoConfig) : script (list string) :=
  matched <- collect_files (default [] (upload_files gecko_config)) ;;
  ret ([build_prop output_dir] ++ matched).

Definition prep_upload : script unit :=
  let dirs := query_abs_dirs in
  rmtree ext (abs_upload_dir dirs) ;;
  gecko_config <- load_gecko_config ;;
  files <- collect_files (default [] (zip_files gecko_config)) ;;
  zip_up files ;;
  info "copying files to upload directory" ;;
  files <- upload_file_list gecko_config ;;
  for_each files stage_file ;;
  copy_logs_to_upload_dir ext.

(** *** upload *)

(** [self.buildbot_config['sourcestamp']['changes'][0]['who']] *)
Definition changes_who : result pyval :=
  match buildbot_config self with
  | None => Raise TypeError
  | Some bc =>
      match sourcestamp bc with
      | None => Raise KeyError
      | Some ss =>
          match changes ss with
          | None => Raise KeyError
          | Some [] => Raise IndexError
          | Some (change :: _) => getitem change "who"
          end
      end
  end.

Definition try_upload_path (basepath user rev branch : pyval) : string :=
  str basepath +:+ "/" +:+ str user +:+ "-" +:+ str rev +:+ "/"
    +:+ str branch +:+ "-" +:+ target (config self).

Definition build_upload_path (basepath branch buildid : pyval) : string :=
  str basepath +:+ "/" +:+ str branch +:+ "-" +:+ target (config self)
    +:+ "/" +:+ str buildid.

(** The first half of [upload]: the destination path. *)
Definition upload_path : script string :=
  let c := config self in
  if enable_try_uploads c then
    user <- try_except (lift changes_who) KeyError (ret (PyStr "unknown")) ;;
    branch <- lift query_branch ;;
    rev <- query_revision ;;
    ret (try_upload_path (upload_remote_basepath c) user rev branch)
  else
    branch <- lift query_branch ;;
    buildid <- query_buildid ;;
    ret (build_upload_path (upload_remote_basepath c) branch buildid).

Definition upload_transfer (path : string) : transfer :=
  {| local_path := abs_upload_dir query_abs_dirs;
     ssh_key := cfg_ssh_key (config self);
     ssh_user := cfg_ssh_user (config self);
     remote_host := upload_remote_host (config self);
     remote_path := PyStr path;
     rsync_options := None |}.

Definition upload : script unit :=
  upload_path <- upload_path ;;
  retval <- rsync_upload_directory ext (upload_transfer upload_path) ;;
  match retval with
  | Some _ =>
      error "failed to upload" ;;
      set_return_code 2
  | None =>
      let upload_url :=
        "http://" +:+ str (upload_remote_host (config self)) +:+ "/" +:+ upload_path in
      info ("Upload successful: " +:+ upload_url)
  end.

(** *** make-update-xml and upload-updates *)

(** [self.config.get('update')] as a condition: absent and empty are
    both false. *)
Definition update_config : option (gmap string pyval) :=
  match update (config self) with
  | Some u => if decide (u = ∅) then None else Some u
  | None => None
  end.

(** [a + b] where [b] is a string. *)
Definition add_str (a : pyval) (b : string) : result string :=
  match a with
  | PyStr s => Ok (s +:+ b)
  | _ => Raise TypeError
  end.

Definition make_update_xml : script unit :=
  if negb query_is_nightly then info "Not a nightly build. Skipping..."
  else
    match update_config with
    | None => info "No updates. Skipping..."
    | Some update =>
        let dirs := query_abs_dirs in
        let upload_dir := abs_upload_dir dirs +:+ "-updates" in
        rmtree ext upload_dir ;;
        suffix <- query_buildid ;;
        let dated_mar := "b2g_update_" +:+ str suffix +:+ ".mar" in
        let dated_update_xml := "update_" +:+ str suffix +:+ ".xml" in
        let dated_application_ini := "application_" +:+ str suffix +:+ ".ini" in
        base_url <- lift (getitem update "base_url") ;;
        mar_url <- lift (add_str base_url dated_mar) ;;
        info ("Generating update.xml for " +:+ mar_url) ;;
        version <- query_version ;;
        buildid <- query_buildid ;;
        ok <- create_update_xml ext (marfile self) version buildid mar_url upload_dir ;;
        (if negb ok then fatal "Failed to generate update.xml" default_exit_code
         else ret tt) ;;
        copy_to_upload_dir ext (marfile self)
          (Some (Path.join upload_dir dated_mar)) ;;
        copy_to_upload_dir ext (application_ini self)
          (Some (Path.join upload_dir dated_application_ini)) ;;
        copy_to_upload_dir ext (Path.join upload_dir "update.xml")
          (Some (Path.join upload_dir dated_update_xml))
    end.

Definition updates_transfer (update : gmap string pyval) (upload_dir : string)
    (options : option (list string)) : script (option Z) :=
  key <- lift (getitem update "ssh_key") ;;
  user <- lift (getitem update "ssh_user") ;;
  host <- lift (getitem update "upload_remote_host") ;;
  basepath <- lift (getitem update "upload_remote_basepath") ;;
  rsync_upload_directory ext
    {| local_path := upload_dir; ssh_key := key; ssh_user := user;
       remote_host := host; remote_path := basepath;
       rsync_options := options |}.

Definition report_transfer (retval : option Z) : script unit :=
  match retval with
  | Some _ =>
      error "failed to upload" ;;
      set_return_code 2
  | None => info "Upload successful"
  end.

Definition upload_updates : script unit :=
  if negb query_is_nightly then info "Not a nightly build. Skipping..."
  else
    match update_config with
    | None => info "No updates. Skipping..."
    | Some update =>
        let dirs := query_abs_dirs in
        let upload_dir := abs_upload_dir dirs +:+ "-updates" in
        retval <- updates_transfer update upload_dir
                    (Some ["-azv"; "--exclude=update.xml"]) ;;
        report_transfer retval ;;
        if match update !! "autopublish" with
           | Some v => truthy v
           | None => false
           end
        then
          retval <- updates_transfer update upload_dir None ;;
          report_transfer retval
        else ret tt
    end.

End Script.

(** *** The stage pipeline *)

(** Modelled from the spec: the Stage Pipeline Engine ([BaseScript.run])
    is not under src/.  Given the ordered catalogue and the selected
    subset it walks the catalogue, runs the selected stages in that
    order and stops at the first one that does not complete.  The first
    component of the result lists the stages that were started. *)
Fixpoint run (catalogue : list (string * script unit)) (selected : list string)
    (w : World) : list string * (result unit * World) :=
  match catalogue with
  | [] => ([], (Ok tt, w))
  | (name, action) :: rest =>
      if bool_decide (name ∈ selected) then
        match action w with
        | (Ok _, w') =>
            let '(started, outcome) := run rest selected w' in
            (name :: started, outcome)
        | (Fatal c, w') => ([name], (Fatal c, w'))
        | (Raise e, w') => ([name], (Raise e, w'))
        end
      else run rest selected w
  end.

End B2G.

(** ** What a run is observed to do *)

Module Observe.
Import Py Harness B2G.

(** The extraction command of [unpack_gonk]. *)
Definition extraction (self : B2GBuild) : command :=
  {| mock_target := None;
     argv := ["tar"; "xf"; "gonk.tar.xz"; "--strip-components"; "1"];
     cwd := Some (work_dir (query_abs_dirs self));
     env := None; error_list := None |}.

(** The snapshot's modification time as [unpack_gonk] reads it. *)
Definition snapshot_mtime (self : B2GBuild) (w : World) : option Z :=
  (fun f => int_of_float (mtime f)) <$> files (fs w) !! snapshot_path self.

(** The persisted fingerprint, when the file is there and parses. *)
Definition fingerprint (self : B2GBuild) (w : World) : option Z :=
  match files (fs w) !! mtime_file self with
  | Some f => int_of_str (data f)
  | None => None
  end.

Definition is_extraction (self : B2GBuild) (e : event) : bool :=
  match e with
  | Exec c _ => bool_decide (argv c = argv (extraction self))
  | _ => false
  end.

(** How many times the snapshot was extracted during a run. *)
Definition extractions (self : B2GBuild) (t : list event) : nat :=
  length (filter (fun e => is_extraction self e = true) t).

(** The world a skipped unpack leaves. *)
Definition skipped (w : World) : World :=
  record_event (Log INFO "We already have this gonk unpacked; skipping") w.

(** The world right after the extraction command has returned. *)
Definition extracted (ext : Collaborators) (self : B2GBuild) (w : World) : World :=
  let e := Exec (extraction self) (exit_status ext w (extraction self)) in
  with_fs (fs_after ext w e) (record_event e w).

(** A collaborator invocation that reported failure: a non-zero exit
    status, a non-success transfer, an update manifest that could not be
    generated. *)
Definition failed (e : event) : bool :=
  match e with
  | Exec _ status => negb (Z.eqb status 0)
  | Rsync _ (Some _) => true
  | CreateUpdateXml _ _ _ _ _ ok => negb ok
  | _ => false
  end.

Definition is_log (e : event) : bool :=
  match e with
  | Log _ _ => true
  | _ => false
  end.

(** Executor and transfer invocations. *)
Definition is_invocation (e : event) : bool :=
  match e with
  | Exec _ _ | Rsync _ _ => true
  | _ => false
  end.

Definition invocations (t : list event) : nat :=
  length (filter (fun e => is_invocation e = true) t).

(** The events a stage appends to the trace when started in [w]. *)
Definition added_by {A} (stage : script A) (w : World) : list event :=
  drop (length (trace w)) (trace (snd (stage w))).

(** After the first failed invocation nothing but log lines follows. *)
Fixpoint stops_at_failure (t : list event) : bool :=
  match t with
  | [] => true
  | e :: rest => if failed e then forallb is_log rest else stops_at_failure rest
  end.

(** What fail-fast asks of the events a stage added and of its result:
    if one of the invocations failed, the stage ended in [fatal] with a
    non-zero exit code and no further collaborator was invoked. *)
Definition fail_fast {A} (added : list event) (r : result A) : Prop :=
  existsb failed added = true ->
  (exists c, c <> 0 /\ r = Fatal c) /\ stops_at_failure added = true.

(** A stage is fail-fast when started in [w]. *)
Definition fatal_on_failure (stage : script unit) (w : World) : Prop :=
  fail_fast (added_by stage w) (fst (stage w)).

(** From any world, [m] only appends to the trace, and what it appends
    satisfies [P] together with the result. *)
Definition emits {A} (m : script A) (P : list event -> result A -> Prop) : Prop :=
  forall w, exists added,
    trace (snd (m w)) = trace w ++ added /\ P added (fst (m w)).

(** The transfer [upload_updates] starts: first the dated files
    ([options] excludes [update.xml]), then, with [autopublish],
    everything ([options] is [None]). *)
Definition dated_transfer (self : B2GBuild) (options : option (list string))
    (key user host basepath : pyval) : transfer :=
  {| local_path := abs_upload_dir (query_abs_dirs self) +:+ "-updates";
     ssh_key := key; ssh_user := user; remote_host := host;
     remote_path := basepath; rsync_options := options |}.

Definition autopublish (u : gmap string pyval) : bool :=
  match u !! "autopublish" with
  | Some v => truthy v
  | None => false
  end.

(** The files handed to [copy_to_upload_dir] under their own name. *)
Definition staged (t : list event) : list string :=
  flat_map (fun e => match e with
                     | CopyToUploadDir f None => [f]
                     | _ => []
                     end) t.

(** What [prep_upload] is to stage for a list of individually uploaded
    files. *)
Definition to_stage (nightly : bool) (files : list string) : list string :=
  flat_map (fun f => if endswith f ".img"
                     then if nightly then [f +:+ ".bz2"] else []
                     else [f]) files.
End Observe.


(** ** A concrete run, used to exercise the statements *)

Module Example.
Import Py Harness B2G.

Definition descriptor : GeckoConfig :=
  {| gc_env := None;
     zip_files := None;
     upload_files := Some ["{workdir}/out/target/product/device-x/system.img";
                           "{workdir}/sources.xml"];
     gc_mock_target := None;
     mock_packages := None;
     gc_mock_files := None |}.

(** Collaborators that succeed and leave the file system alone. *)
Definition quiet : Collaborators :=
  {| exit_status := fun _ _ => 0;
     rsync_failure := fun _ _ => None;
     update_xml_ok := fun _ _ _ _ _ _ => true;
     checkout_rev := fun _ _ _ _ => PyStr "0123abcd";
     mkdtemp := fun _ => "/tmp/tmpXYZ";
     fs_after := fun w _ => fs w;
     glob := fun _ pattern => [pattern];
     format_pattern := fun pattern _ _ _ => inr pattern;
     parse_gecko_config := fun _ => Some descriptor;
     query_exe := fun name => name;
     query_env := ∅;
     abspath := fun p => "/builds/" +:+ p;
     MakefileErrorList := [] |}.

(** The same, except that every command and every transfer fails. *)
Definition failing : Collaborators :=
  {| exit_status := fun _ _ => 1;
     rsync_failure := fun _ _ => Some 1;
     update_xml_ok := update_xml_ok quiet;
     checkout_rev := checkout_rev quiet;
     mkdtemp := mkdtemp quiet;
     fs_after := fs_after quiet;
     glob := glob quiet;
     format_pattern := format_pattern quiet;
     parse_gecko_config := parse_gecko_config quiet;
     query_exe := query_exe quiet;
     query_env := query_env quiet;
     abspath := abspath quiet;
     MakefileErrorList := MakefileErrorList quiet |}.

Definition update_section : gmap string pyval :=
  {[ "base_url" := PyStr "http://update.example.org/nightly/";
     "ssh_key" := PyStr "~/.ssh/b2g";
     "ssh_user" := PyStr "b2gbld";
     "upload_remote_host" := PyStr "update.example.org";
     "upload_remote_basepath" := PyStr "/data/update";
     "autopublish" := PyBool true ]}.

Definition device_x (try_uploads : bool) : Config :=
  {| target := "device-x";
     cfg_work_dir := "build";
     repo := "http://hg.mozilla.org/main";
     cfg_gecko_config := None;
     enable_try_uploads := try_uploads;
     upload_remote_basepath := PyStr "/pub/b2g";
     upload_remote_host := PyStr "stage.example.org";
     cfg_ssh_key := PyStr "~/.ssh/b2g";
     cfg_ssh_user := PyStr "b2gbld";
     tools_repo := "http://hg.mozilla.org/build/tools";
     update := Some update_section |}.

Definition base_dirs : BaseDirs :=
  {| super_abs_work_dir := "/builds/build";
     super_base_work_dir := "/builds";
     super_abs_upload_dir := "/builds/build/upload" |}.

(** Scheduler properties of a try push. *)
Definition try_push (changes : option (list (gmap string pyval))) : BuildbotConfig :=
  {| properties := Some {[ "branch" := PyStr "try"; "repo_path" := PyStr "try" ]};
     sourcestamp := Some {| revision := Some (PyStr "abc123"); changes := changes |} |}.

Definition nightly_script : B2GBuild := init quiet (device_x false) None base_dirs true.
Definition dep_script : B2GBuild := init quiet (device_x false) None base_dirs false.
Definition try_script : B2GBuild :=
  init quiet (device_x true)
    (Some (try_push (Some [ {[ "who" := PyStr "dev@example.org" ]} ])))
    base_dirs false.
(** A try push whose source stamp carries no change list. *)
Definition anonymous_try_script : B2GBuild :=
  init quiet (device_x true) (Some (try_push None)) base_dirs false.

Definition ini_text : string :=
  "[Build]" +:+ String newline "BuildID=20240101010101" +:+ String newline "Milestone=18.0".

Definition disk : FileSystem :=
  {| files :=
       {[ "/builds/build/gonk.tar.xz" := {| data := "xz"; mtime := 13516089325 # 10 |};
          "/builds/build/out/target/product/device-x/system/b2g/platform.ini" :=
            {| data := ini_text; mtime := 1351608950 # 1 |};
          "/builds/build/out/target/product/device-x/system/b2g/application.ini" :=
            {| data := "Version=18.0"; mtime := 1351608950 # 1 |};
          "build/gecko/b2g/config/device-x/config.json" :=
            {| data := "{}"; mtime := 1351600000 # 1 |} ]};
     clock := 1351609000 # 1 |}.

Definition fresh : World :=
  {| fs := disk;
     environ := ∅;
     trace := [];
     return_code := 0;
     buildbot_properties := ∅;
     gecko_config := None |}.

(** A catalogue of three of the modelled stages, in the order the
    script lists them. *)
Definition short_catalogue : list (string * script unit) :=
  [ ("unpack-gonk", unpack_gonk quiet dep_script);
    ("upload", upload quiet dep_script);
    ("upload-updates", upload_updates quiet dep_script) ].

End Example.

(** ** Config.py: option parser and configuration objects *)

Module PyConfig.
Import Py.
Import Harness (result, Ok, Fatal, Raise).

(** *** MozOptionParser *)






(** *** Processes: an object, what it printed, how a call ends *)

Inductive stream : Type := stdout | stderr.

Inductive output : Type :=
| Print (to : stream) (text : string)
  (** [self.logObj.log(message, level=level, exitCode=exitCode)]; what
      the logger object then does is outside this file. *)
| LogObjLog (message level : string) (exitCode : Z).

Record process (Self : Type) : Type := {
  self : Self;
  printed : list output;
}.
Arguments self {Self} p.
Arguments printed {Self} p.
Arguments Build_process {Self} self printed.

Definition method (Self A : Type) : Type := process Self -> result A * process Self.

Definition mret {Self A} (a : A) : method Self A := fun p => (Ok a, p).

Definition mbind {Self A B} (m : method Self A) (k : A -> method Self B) : method Self B :=
  fun p =>
    match m p with
    | (Ok a, p') => k a p'
    | (Fatal c, p') => (Fatal c, p')
    | (Raise e, p') => (Raise e, p')
    end.

Declare Scope method_scope.
Delimit Scope method_scope with method.
Notation "x <- m ;; k" := (mbind m (fun x => k))
  (at level 100, m at next level, right associativity) : method_scope.
Notation "m ;; k" := (mbind m (fun _ => k))
  (at level 100, right associativity) : method_scope.
Local Open Scope method_scope.

Definition print {Self} (to : stream) (text : string) : method Self unit :=
  fun p => (Ok tt, {| self := self p; printed := printed p ++ [Print to text] |}).

(** [sys.exit(code)] *)
Definition sys_exit {Self A} (code : Z) : method Self A := fun p => (Fatal code, p).

Definition get_self {Self} : method Self Self := fun p => (Ok (self p), p).

Definition set_self {Self} (s : Self) : method Self unit :=
  fun p => (Ok tt, {| self := s; printed := printed p |}).

(** *** BaseConfig *)

(** What [queryConfig] returns: the whole dictionary when no name is
    given, else the value stored under the name ([None] when there is
    none). *)
Inductive answer : Type :=
| Whole (d : gmap string pyval)
| Item (v : pyval).

(** [s.upper()] on ASCII text *)
Definition upper_char (c : ascii) : ascii :=
  let n := nat_of_ascii c in
  if (Nat.leb 97 n && Nat.leb n 122)%bool then ascii_of_nat (n - 32) else c.

Fixpoint upper (s : string) : string :=
  match s with
  | String c r => String (upper_char c) (upper r)
  | EmptyString => EmptyString
  end.

(** [mapConfig(config1, config2)]: a copy of [config1] on which every
    pair of [config2] is stored. *)
Definition mapConfig (config1 config2 : gmap string pyval) : gmap string pyval :=
  map_fold (fun key value config => <[key := value]> config) config1 config2.

(** A dictionary as a condition: empty is false. *)
Definition nonempty (d : gmap string pyval) : bool := negb (bool_decide (d = ∅)).

(** [queryConfig] on a given dictionary ([varName] is [None] when the
    argument is left out). *)
Definition query (d : gmap string pyval) (varName : option string) : answer :=
  match varName with
  | None => Whole d
  | Some name =>
      if String.eqb name "" then Whole d
      else match d !! name with
           | Some v => Item v
           | None => Item PyNone
           end
  end.

(** The methods a configuration class provides and the ones
    [BaseConfig] defines on top of them, whatever the class: the subclass
    overrides [queryConfig] and the inherited methods reach it through
    [self]. *)
Class ConfigObject (Self : Type) : Type := {
  queryConfig : Self -> option string -> answer;
  logObj : Self -> option (gmap string pyval);
}.

Section Inherited.
Context {Self : Type} `{ConfigObject Self}.

Definition queryVar (varName : string) : method Self answer :=
  s <- get_self ;;
  mret (queryConfig s (Some varName)).

(** [log(message, level='info', exitCode=-1)] *)
Definition log (message level : string) (exitCode : Z) : method Self unit :=
  s <- get_self ;;
  match logObj s with
  | Some _ =>
      fun p => (Ok tt, {| self := self p;
                          printed := printed p ++ [LogObjLog message level exitCode] |})
  | None =>
      if String.eqb level "info" then print stdout message
      else if String.eqb level "debug" then print stdout ("DEBUG: " +:+ message)
      else if (String.eqb level "warning" || String.eqb level "error"
               || String.eqb level "critical")%bool
      then print stderr (upper level +:+ ": " +:+ message)
      else if String.eqb level "fatal" then
        print stderr ("FATAL: " +:+ message) ;;
        sys_exit exitCode
      else mret tt
  end.

(** [debug(message)] *)
Definition debug (message : string) : method Self unit :=
  level <- queryVar "logLevel" ;;
  level <- match level with
           | Item v => if truthy v then mret level else queryVar "logLevel"
           | Whole d => if nonempty d then mret level else queryVar "logLevel"
           end ;;
  match level with
  | Item (PyStr "debug") => log message "debug" (-1)
  | _ => mret tt
  end.

Definition info (message : string) : method Self unit := log message "info" (-1).
Definition warning (message : string) : method Self unit := log message "warning" (-1).
Definition warn (message : string) : method Self unit := log message "warning" (-1).
Definition error (message : string) : method Self unit := log message "error" (-1).
Definition critical (message : string) : method Self unit := log message "critical" (-1).
Definition fatal (message : string) (exitCode : Z) : method Self unit :=
  log message "fatal" exitCode.

End Inherited.

Record BaseConfig : Type := {
  config : gmap string pyval;
  base_logObj : option (gmap string pyval);
}.

#[global] Instance BaseConfig_object : ConfigObject BaseConfig :=
  {| queryConfig := fun s varName => query (config s) varName;
     logObj := base_logObj |}.

Definition with_config (s : BaseConfig) (d : gmap string pyval) : BaseConfig :=
  {| config := d; base_logObj := base_logObj s |}.

(** [BaseConfig.setConfig(config, overwrite=False)] *)
Definition setConfig (new : gmap string pyval) (overwrite : bool) : method BaseConfig unit :=
  s <- get_self ;;
  if (nonempty (config s) && negb overwrite)%bool
  then set_self (with_config s (mapConfig (config s) new))
  else set_self (with_config s new).

(** [BaseConfig.setVar(varName, value)] *)
Definition setVar (varName : string) (value : pyval) : method BaseConfig unit :=
  debug ("Setting " +:+ varName +:+ " to " +:+ str value) ;;
  s <- get_self ;;
  set_self (with_config s (<[varName := value]> (config s))).






(** A [BaseConfig] before [__init__] has stored anything. *)
Definition blank : BaseConfig := {| config := ∅; base_logObj := None |}.

(** *** SimpleConfig *)

Definition log_defaults : gmap string pyval :=
  {[ "loggerName" := PyStr "Simple";
     "logName" := PyStr "simple.log";
     "logDir" := PyStr ".";
     "logLevel" := PyStr "info";
     "logFormat" := PyStr "%(asctime)s - %(levelname)s - %(message)s" ]}.

(** The body of [for key in logConfig.keys()].  The keys of the
    defaults are never empty, so [queryVar] always looks a name up. *)
Definition override_setting (s : BaseConfig) (key : string) (logConfig : gmap string pyval)
    : gmap string pyval :=
  match queryConfig s (Some key) with
  | Item value => if truthy value then <[key := value]> logConfig else logConfig
  | Whole _ => logConfig
  end.

(** [newLogObj]: the logger is made from the defaults, each replaced by
    the variable of the same name when that one is set and true. *)
Definition newLogObj : method BaseConfig unit :=
  s <- get_self ;;
  let logConfig :=
    foldr (override_setting s) log_defaults (map fst (map_to_list log_defaults)) in
  set_self {| config := config s; base_logObj := Some logConfig |}.

(** *** ParanoidConfig *)

Record ParanoidConfig : Type := {
  _config : gmap string pyval;
  _configLock : bool;
  paranoid_logObj : option (gmap string pyval);
}.

#[global] Instance ParanoidConfig_object : ConfigObject ParanoidConfig :=
  {| queryConfig := fun s varName => query (_config s) varName;
     logObj := paranoid_logObj |}.

Definition lockConfig : method ParanoidConfig unit :=
  s <- get_self ;;
  set_self {| _config := _config s; _configLock := true;
              paranoid_logObj := paranoid_logObj s |}.

Definition _checkConfigLock : method ParanoidConfig unit :=
  s <- get_self ;;
  if _configLock s then
    print stdout "FATAL: ParanoidConfig is locked! Exiting..." ;;
    sys_exit (-1)
  else mret tt.

Definition with__config (s : ParanoidConfig) (d : gmap string pyval) : ParanoidConfig :=
  {| _config := d; _configLock := _configLock s; paranoid_logObj := paranoid_logObj s |}.

(** [ParanoidConfig.setConfig(config, overwrite=False)] *)
Definition paranoid_setConfig (new : gmap string pyval) (overwrite : bool)
    : method ParanoidConfig unit :=
  _checkConfigLock ;;
  s <- get_self ;;
  if (nonempty (_config s) && negb overwrite)%bool
  then set_self (with__config s (mapConfig (_config s) new))
  else set_self (with__config s new).

(** [ParanoidConfig.setVar(varName, value)] *)
Definition paranoid_setVar (varName : string) (value : pyval) : method ParanoidConfig unit :=
  _checkConfigLock ;;
  s <- get_self ;;
  set_self (with__config s (<[varName := value]> (_config s))).

(** *** Observations *)

(** The levels [log] knows. *)
Definition known_level (level : string) : bool :=
  bool_decide (level ∈ ["info"; "debug"; "warning"; "error"; "critical"; "fatal"]).


(** The line a locked [ParanoidConfig] prints before it exits. *)
Definition locked_line : output := Print stdout "FATAL: ParanoidConfig is locked! Exiting...".

(** A [ParanoidConfig] before [__init__] has stored anything. *)
Definition paranoid_blank : ParanoidConfig :=
  {| _config := ∅; _configLock := false; paranoid_logObj := None |}.

End PyConfig.


(** ** Configuration objects used to exercise the statements *)

Module PyConfigExample.
Import Py PyConfig.

Definition test_json : gmap string pyval :=
  {[ "key1" := PyStr "value1"; "key2" := PyStr "value2" ]}.

Definition overrides : gmap string pyval :=
  {[ "key2" := PyStr "value2override"; "additionalkey" := PyStr "additionalvalue" ]}.

Definition quiet_object : BaseConfig := {| config := test_json; base_logObj := None |}.

Definition debugging_object : BaseConfig :=
  {| config := <["logLevel" := PyStr "debug"]> test_json; base_logObj := None |}.

Definition started {Self} (s : Self) : process Self := {| self := s; printed := [] |}.

Definition paranoid_object : ParanoidConfig :=
  {| _config := test_json; _configLock := false; paranoid_logObj := None |}.


End PyConfigExample.


(** ** Further observations on the build script *)

Module Behaviour.
Import Py Harness B2G.

(** How often the character [c] occurs in [s]. *)
Fixpoint count_char (c : ascii) (s : string) : nat :=
  match s with
  | String a r => (if Ascii.eqb a c then 1 else 0) + count_char c r
  | EmptyString => 0
  end.

(** The files handed to [copy_to_upload_dir] with a destination of their
    own, each with that destination. *)
Definition staged_as (t : list event) : list (string * string) :=
  flat_map (fun e => match e with
                     | CopyToUploadDir f (Some dest) => [(f, dest)]
                     | _ => []
                     end) t.

(** Formatting a list of patterns: the patterns formatted, or the error
    of the first one that does not format. *)
Fixpoint format_all (ext : Collaborators) (self : B2GBuild) (patterns : list string)
    : exn + list string :=
  match patterns with
  | [] => inr []
  | pattern :: rest =>
      match format_pattern ext pattern (objdir self)
              (work_dir (query_abs_dirs self)) (src (query_abs_dirs self)) with
      | inl e => inl e
      | inr formatted =>
          match format_all ext self rest with
          | inl e => inl e
          | inr others => inr (formatted :: others)
          end
      end
  end.

(** The part of the signing command that does not depend on the
    servers. *)
Definition signtool (ext : Collaborators) (self : B2GBuild) : list string :=
  let dirs := query_abs_dirs self in
  let signing_dir := Path.joins (abs_work_dir dirs) ["tools"; "release"; "signing"] in
  [ query_exe ext "python"; Path.join signing_dir "signtool.py";
    "--cachedir"; Path.join (abs_work_dir dirs) "signing_cache";
    "-t"; Path.join (base_work_dir dirs) "token";
    "-n"; Path.join (base_work_dir dirs) "nonce";
    "-c"; Path.join signing_dir "host.cert";
    "-f"; "b2gmar" ].

(** The directory the update files are staged in. *)
Definition updates_dir (self : B2GBuild) : string :=
  abs_upload_dir (query_abs_dirs self) +:+ "-updates".

End Behaviour.


(** ** More concrete runs *)

Module Example2.
Import Py Harness B2G Example.

(** The process environment names two signing servers. *)
Definition signing_world : World :=
  {| fs := disk;
     environ := {[ "MOZ_SIGNING_SERVERS" := "sign1:9100,sign2:9100" ]};
     trace := [];
     return_code := 0;
     buildbot_properties := ∅;
     gecko_config := None |}.

(** A build tree whose [platform.ini] carries no build identifier. *)
Definition no_buildid_world : World :=
  {| fs := {| files :=
                <["/builds/build/out/target/product/device-x/system/b2g/platform.ini" :=
                    {| data := "[Build]" +:+ String newline "Milestone=18.0";
                       mtime := 1351608950 # 1 |}]> (files disk);
              clock := clock disk |};
     environ := ∅;
     trace := [];
     return_code := 0;
     buildbot_properties := ∅;
     gecko_config := None |}.

(** A descriptor that asks for a mock environment and forgets its
    packages. *)
Definition mock_descriptor : GeckoConfig :=
  {| gc_env := None;
     zip_files := None;
     upload_files := None;
     gc_mock_target := Some "mozilla-centos6-i386";
     mock_packages := None;
     gc_mock_files := None |}.

Definition mock_collaborators : Collaborators :=
  {| exit_status := exit_status quiet;
     rsync_failure := rsync_failure quiet;
     update_xml_ok := update_xml_ok quiet;
     checkout_rev := checkout_rev quiet;
     mkdtemp := mkdtemp quiet;
     fs_after := fs_after quiet;
     glob := glob quiet;
     format_pattern := format_pattern quiet;
     parse_gecko_config := fun _ => Some mock_descriptor;
     query_exe := query_exe quiet;
     query_env := query_env quiet;
     abspath := abspath quiet;
     MakefileErrorList := MakefileErrorList quiet |}.

(** A nightly configuration without an [update] section. *)
Definition no_update_script : B2GBuild :=
  init quiet
    {| target := "device-x";
       cfg_work_dir := "build";
       repo := "http://hg.mozilla.org/main";
       cfg_gecko_config := None;
       enable_try_uploads := false;
       upload_remote_basepath := PyStr "/pub/b2g";
       upload_remote_host := PyStr "stage.example.org";
       cfg_ssh_key := PyNone;
       cfg_ssh_user := PyNone;
       tools_repo := "http://hg.mozilla.org/build/tools";
       update := None |}
    None base_dirs true.

(** A try push whose change list is empty. *)
Definition empty_changes_script : B2GBuild :=
  init quiet (device_x true) (Some (try_push (Some []))) base_dirs false.

End Example2.

(** * Verification *)
(** ** Printing and reading back an integer *)

Section IntRoundTrip.
Import Py.

Lemma digit_not_space (c : ascii) : is_digit c = true -> is_space c = false.
Proof.
  destruct c as [[] [] [] [] [] [] [] []]; vm_compute; congruence.
Qed.

Lemma digit_not_sign (c : ascii) :
  is_digit c = true -> c <> "-"%char /\ c <> "+"%char.
Proof.
  destruct c as [[] [] [] [] [] [] [] []]; vm_compute; split; congruence.
Qed.

Lemma all_digits_no_space (s : string) : all_digits s = true -> no_space s = true.
Proof.
  induction s as [|c r IH]; simpl; [reflexivity|].
  intros [Hc Hr]%andb_prop.
  rewrite (digit_not_space c Hc), (IH Hr). reflexivity.
Qed.

Lemma rstrip_no_space (s : string) : no_space s = true -> rstrip s = s.
Proof.
  induction s as [|c r IH]; simpl; [reflexivity|].
  intros [Hc Hr]%andb_prop. rewrite (IH Hr).
  apply negb_true_iff in Hc. rewrite Hc. destruct r; reflexivity.
Qed.

Lemma strip_no_space (s : string) : no_space s = true -> strip s = s.
Proof.
  intros H. unfold strip.
  assert (lstrip s = s) as ->.
  { destruct s as [|c r]; [reflexivity|]. simpl in *.
    apply andb_prop in H as [Hc _]. apply negb_true_iff in Hc.
    rewrite Hc. reflexivity. }
  apply rstrip_no_space, H.
Qed.

Lemma all_digits_string_of_uint (d : Decimal.uint) :
  all_digits (NilEmpty.string_of_uint d) = true.
Proof. induction d; simpl; auto. Qed.

Lemma all_digits_NilZero (d : Decimal.uint) :
  all_digits (NilZero.string_of_uint d) = true.
Proof. destruct d; try reflexivity; apply (all_digits_string_of_uint (_ _)). Qed.

Lemma digits_string_of_uint (d : Decimal.uint) :
  d <> Decimal.Nil -> digits (NilZero.string_of_uint d) = Some (Z.of_uint d).
Proof. intros Hd. unfold digits. rewrite (NilZero.usu d Hd). reflexivity. Qed.

(** An unsigned literal is read as its digits. *)
Lemma int_of_str_unsigned (s : string) :
  all_digits s = true -> int_of_str s = digits s.
Proof.
  intros H. unfold int_of_str.
  rewrite (strip_no_space s (all_digits_no_space s H)).
  destruct s as [|c r]; [reflexivity|].
  simpl in H. apply andb_prop in H as [Hc _].
  destruct c as [[] [] [] [] [] [] [] []]; try reflexivity; vm_compute in Hc; congruence.
Qed.

Lemma int_of_str_negative (r : string) :
  all_digits r = true -> int_of_str (String "-" r) = Z.opp <$> digits r.
Proof.
  intros H. unfold int_of_str.
  rewrite strip_no_space; [reflexivity|].
  simpl. apply all_digits_no_space, H.
Qed.

(** [int(str(n)) == n] *)
Lemma int_of_str_str_int (n : Z) : int_of_str (str_int n) = Some n.
Proof.
  unfold str_int.
  rewrite <- (DecimalZ.of_to n) at 2.
  destruct n as [|p|p]; [reflexivity| |]; simpl Z.to_int; simpl NilZero.string_of_int.
  - rewrite int_of_str_unsigned by apply all_digits_NilZero.
    apply digits_string_of_uint, DecimalPos.Unsigned.to_uint_nonnil.
  - rewrite int_of_str_negative by apply all_digits_NilZero.
    rewrite digits_string_of_uint by apply DecimalPos.Unsigned.to_uint_nonnil.
    reflexivity.
Qed.
End IntRoundTrip.

Section UnpackGonk.
Import Py Harness B2G Observe.
Variable ext : Collaborators.
Variable self : B2GBuild.

Lemma already_unpacked_spec (m : Z) (w : World) :
  already_unpacked self m w =
    if decide (fingerprint self w = Some m)
    then (Ok true, record_event (Log INFO "We already have this gonk unpacked; skipping") w)
    else (Ok false, w).
Proof.
  unfold already_unpacked, try_except_all, bind, read_from_file, lift, fingerprint, int_of_read.
  destruct (files (fs w) !! mtime_file self) as [f|]; cbn [fmap option_fmap option_map];
    [destruct (int_of_str (data f)) as [n|]|]; case_decide as H; try congruence; try reflexivity.
  - injection H as ->. rewrite Z.eqb_refl. reflexivity.
  - destruct (Z.eqb_spec m n) as [->|Hne]; [congruence|reflexivity].
Qed.
End UnpackGonk.

Section UnpackGonkProofs.
Import Py Harness B2G Observe.
Variable ext : Collaborators.
Variable self : B2GBuild.

Let extracted := extracted ext self.

Lemma unpack_gonk_skip (w : World) (m : Z) :
  snapshot_mtime self w = Some m ->
  fingerprint self w = Some m ->
  unpack_gonk ext self w = (Ok tt, skipped w).
Proof.
  unfold snapshot_mtime. intros Hs Hf.
  unfold unpack_gonk, bind, getmtime.
  destruct (files (fs w) !! snapshot_path self) as [f|]; [|discriminate].
  injection Hs as Hs. rewrite Hs, already_unpacked_spec.
  rewrite decide_True by assumption. reflexivity.
Qed.

Lemma unpack_gonk_proceed (w : World) (m : Z) :
  snapshot_mtime self w = Some m ->
  fingerprint self w <> Some m ->
  unpack_gonk ext self w =
    if negb (Z.eqb (exit_status ext w (extraction self)) 0)
    then (Fatal 2, record_event (Log FATAL "failed to unpack gonk") (extracted w))
    else
      ((run_command ext ["cat"; "sources.xml"]
          (Some (work_dir (query_abs_dirs self))) None None ;;
        info ("Writing " +:+ str_int m +:+ " to " +:+ mtime_file self) ;;
        write_to_file (mtime_file self) (str_int m))%script (extracted w)).
Proof.
  unfold snapshot_mtime. intros Hs Hf.
  unfold unpack_gonk, getmtime.
  unfold bind at 1.
  destruct (files (fs w) !! snapshot_path self) as [f|]; [|discriminate].
  injection Hs as Hs. rewrite Hs.
  unfold bind at 1. rewrite already_unpacked_spec.
  rewrite decide_False by assumption.
  unfold bind at 1. unfold run_command at 1, execute.
  fold (extraction self).
  destruct (negb (exit_status ext w (extraction self) =? 0)%Z); reflexivity.
Qed.
End UnpackGonkProofs.

Section UnpackGonkClaims.
Import Py Harness B2G Observe.
Variable ext : Collaborators.
Variable self : B2GBuild.

Lemma unpack_gonk_success (w : World) (m : Z) :
  snapshot_mtime self w = Some m ->
  fingerprint self w <> Some m ->
  exit_status ext w (extraction self) = 0 ->
  exists w' cat status,
    unpack_gonk ext self w = (Ok tt, w')
    /\ trace w' = trace w ++
         [ Exec (extraction self) 0; Exec cat status;
           Log INFO ("Writing " +:+ str_int m +:+ " to " +:+ mtime_file self);
           WriteToFile (mtime_file self) (str_int m) ]
    /\ argv cat = ["cat"; "sources.xml"]
    /\ data <$> files (fs w') !! mtime_file self = Some (str_int m).
Proof.
  intros Hs Hf H0.
  rewrite (unpack_gonk_proceed ext self w m Hs Hf). unfold extracted. rewrite H0. simpl negb. cbv iota.
  eexists _, _, _. split; [reflexivity|].
  split; [|split]; [| |].
  - simpl. rewrite <- !app_assoc. reflexivity.
  - reflexivity.
  - simpl. rewrite lookup_insert_eq. reflexivity.
Qed.
End UnpackGonkClaims.

Section UnpackGonkTheorems.
Import Py Harness B2G Observe.
Variable ext : Collaborators.
Variable self : B2GBuild.

Lemma extractions_skipped (w : World) :
  extractions self (trace (skipped w)) = extractions self (trace w).
Proof.
  unfold extractions, skipped, record_event. cbn [trace].
  rewrite filter_app, length_app.
  rewrite filter_cons_False by (simpl; congruence).
  rewrite filter_nil. simpl. lia.
Qed.

(** C1.  [unpack_gonk] skips the unpack exactly when the fingerprint file
    holds an integer equal to the snapshot's modification time.  With a
    missing or unreadable fingerprint the extraction command is run, and
    the only abort the stage can end in is a failed extraction. *)
Theorem unpack_gonk_skips_iff_fingerprint_matches (w : World) (m : Z) :
  snapshot_mtime self w = Some m ->
  (unpack_gonk ext self w = (Ok tt, skipped w) <-> fingerprint self w = Some m)
  /\ (fingerprint self w <> Some m ->
      exists rest,
        trace (snd (unpack_gonk ext self w)) =
          trace w ++ Exec (extraction self) (exit_status ext w (extraction self)) :: rest)
  /\ (forall c, fst (unpack_gonk ext self w) = Fatal c ->
        c = 2 /\ exit_status ext w (extraction self) <> 0)
  /\ (forall e, fst (unpack_gonk ext self w) <> Raise e).
Proof.
  intros Hs.
  assert (Hrun : fingerprint self w <> Some m ->
            exists rest,
              trace (snd (unpack_gonk ext self w)) =
                trace w ++ Exec (extraction self) (exit_status ext w (extraction self)) :: rest).
  { intros Hf. rewrite (unpack_gonk_proceed ext self w m Hs Hf).
    destruct (Z.eqb_spec (exit_status ext w (extraction self)) 0) as [H0|H0]; simpl negb; cbv iota.
    - eexists. cbn. rewrite <- !app_assoc. reflexivity.
    - eexists. cbn. rewrite <- !app_assoc. reflexivity. }
  split; [split|split; [exact Hrun|split]].
  - intros Hskip. destruct (decide (fingerprint self w = Some m)) as [|Hf]; [assumption|].
    destruct (Hrun Hf) as [rest Hrest]. rewrite Hskip in Hrest.
    cbn in Hrest. apply app_inv_head in Hrest. discriminate.
  - apply unpack_gonk_skip, Hs.
  - intros c Hc. destruct (decide (fingerprint self w = Some m)) as [Hf|Hf].
    + rewrite (unpack_gonk_skip ext self w m Hs Hf) in Hc. discriminate.
    + rewrite (unpack_gonk_proceed ext self w m Hs Hf) in Hc.
      destruct (Z.eqb_spec (exit_status ext w (extraction self)) 0) as [H0|H0];
        simpl negb in Hc; cbv iota in Hc.
      * discriminate.
      * cbn in Hc. split; congruence.
  - intros e He. destruct (decide (fingerprint self w = Some m)) as [Hf|Hf].
    + rewrite (unpack_gonk_skip ext self w m Hs Hf) in He. discriminate.
    + rewrite (unpack_gonk_proceed ext self w m Hs Hf) in He.
      destruct (Z.eqb_spec (exit_status ext w (extraction self)) 0) as [H0|H0];
        simpl negb in He; cbv iota in He; discriminate.
Qed.

(** C4.  Once [unpack_gonk] has completed, the fingerprint file holds the
    snapshot's modification time (also when there was no fingerprint
    before), so a second run over an unchanged snapshot returns at the
    skip check and extracts nothing. *)
Theorem unpack_gonk_idempotent (w w1 : World) (m : Z) :
  snapshot_mtime self w = Some m ->
  unpack_gonk ext self w = (Ok tt, w1) ->
  fingerprint self w1 = Some m
  /\ (fingerprint self w <> Some m ->
      data <$> files (fs w1) !! mtime_file self = Some (str_int m)
      /\ extractions self (trace w1) = S (extractions self (trace w)))
  /\ forall w2,
       files (fs w2) !! mtime_file self = files (fs w1) !! mtime_file self ->
       snapshot_mtime self w2 = Some m ->
       unpack_gonk ext self w2 = (Ok tt, skipped w2)
       /\ extractions self (trace (skipped w2)) = extractions self (trace w2).
Proof.
  intros Hs Hrun.
  assert (Hreal : fingerprint self w <> Some m ->
            data <$> files (fs w1) !! mtime_file self = Some (str_int m)
            /\ extractions self (trace w1) = S (extractions self (trace w))).
  { intros Hf.
    destruct (Z.eqb_spec (exit_status ext w (extraction self)) 0) as [H0|H0].
    - destruct (unpack_gonk_success ext self w m Hs Hf H0)
        as (w' & cat & status & Hrun' & Htrace & Hcat & Hfile).
      rewrite Hrun in Hrun'. injection Hrun' as <-. split; [exact Hfile|].
      rewrite Htrace. unfold extractions.
      rewrite filter_app, length_app.
      rewrite filter_cons_True
        by (cbn [is_extraction]; apply bool_decide_eq_true; reflexivity).
      rewrite filter_cons_False
        by (cbn [is_extraction]; rewrite Hcat; intros H%bool_decide_eq_true; discriminate).
      rewrite !filter_cons_False by (simpl; congruence).
      simpl. lia.
    - rewrite (unpack_gonk_proceed ext self w m Hs Hf) in Hrun.
      apply Z.eqb_neq in H0. rewrite H0 in Hrun. discriminate. }
  assert (Hfp : fingerprint self w1 = Some m).
  { destruct (decide (fingerprint self w = Some m)) as [Hf|Hf].
    - rewrite (unpack_gonk_skip ext self w m Hs Hf) in Hrun.
      injection Hrun as <-. exact Hf.
    - destruct (Hreal Hf) as [Hfile _]. unfold fingerprint.
      destruct (files (fs w1) !! mtime_file self) as [f|]; [|discriminate].
      injection Hfile as ->. apply int_of_str_str_int. }
  split; [exact Hfp|split; [exact Hreal|]].
  intros w2 Hsame Hs2. split; [|apply extractions_skipped].
  apply (unpack_gonk_skip ext self w2 m Hs2).
  unfold fingerprint in *. rewrite Hsame. exact Hfp.
Qed.
End UnpackGonkTheorems.

Section UnpackWitness.
Import Py Harness B2G Observe Example.

Lemma unpack_gonk_skips_iff_fingerprint_matches_witness :
  snapshot_mtime nightly_script fresh = Some 1351608932
  /\ (unpack_gonk quiet nightly_script fresh = (Ok tt, skipped fresh)
      <-> fingerprint nightly_script fresh = Some 1351608932).
Proof.
  split; [vm_compute; reflexivity|].
  apply (unpack_gonk_skips_iff_fingerprint_matches quiet nightly_script fresh 1351608932).
  vm_compute; reflexivity.
Defined.

Lemma unpack_gonk_idempotent_witness :
  let w1 := snd (unpack_gonk quiet nightly_script fresh) in
  snapshot_mtime nightly_script fresh = Some 1351608932
  /\ unpack_gonk quiet nightly_script fresh = (Ok tt, w1)
  /\ fingerprint nightly_script w1 = Some 1351608932
  /\ unpack_gonk quiet nightly_script w1 = (Ok tt, skipped w1).
Proof.
  intros w1.
  assert (Hs : snapshot_mtime nightly_script fresh = Some 1351608932)
    by (vm_compute; reflexivity).
  assert (Hrun : unpack_gonk quiet nightly_script fresh = (Ok tt, w1))
    by (vm_compute; reflexivity).
  destruct (unpack_gonk_idempotent quiet nightly_script fresh w1 1351608932 Hs Hrun)
    as (Hfp & _ & Hagain).
  split; [exact Hs|split; [exact Hrun|split; [exact Hfp|]]].
  apply (Hagain w1); [reflexivity|vm_compute; reflexivity].
Defined.
End UnpackWitness.

(** ** Stages gated on the nightly flag *)

Section NightlyGate.
Import Py Harness B2G Observe.
Variable ext : Collaborators.
Variable self : B2GBuild.

Let skip_note (w : World) : World :=
  record_event (Log INFO "Not a nightly build. Skipping...") w.

Lemma invocations_log (t : list event) (l : level) (msg : string) :
  invocations (t ++ [Log l msg]) = invocations t.
Proof.
  unfold invocations. rewrite filter_app, length_app.
  rewrite filter_cons_False by (simpl; congruence).
  rewrite filter_nil. simpl. lia.
Qed.

(** C6.  Outside a nightly build each stage of the update workflow logs
    that it is skipping and returns: no command is executed and no
    transfer is started. *)
Theorem update_stages_skip_unless_nightly (w : World) :
  nightly_build self = false ->
  (make_updates ext self w = (Ok tt, skip_note w)
   /\ make_update_xml ext self w = (Ok tt, skip_note w)
   /\ upload_updates ext self w = (Ok tt, skip_note w))
  /\ trace (skip_note w) = trace w ++ [Log INFO "Not a nightly build. Skipping..."]
  /\ invocations (trace (skip_note w)) = invocations (trace w).
Proof.
  intros Hn. split; [|split].
  - unfold make_updates, make_update_xml, upload_updates, query_is_nightly.
    rewrite Hn. simpl. auto.
  - reflexivity.
  - apply invocations_log.
Qed.
End NightlyGate.

Section NightlyGateWitness.
Import Py Harness B2G Observe Example.

Lemma update_stages_skip_unless_nightly_witness :
  nightly_build dep_script = false
  /\ invocations (trace (snd (make_updates failing dep_script fresh))) = 0%nat
  /\ invocations (trace (snd (make_update_xml failing dep_script fresh))) = 0%nat
  /\ invocations (trace (snd (upload_updates failing dep_script fresh))) = 0%nat.
Proof.
  assert (Hn : nightly_build dep_script = false) by reflexivity.
  destruct (update_stages_skip_unless_nightly failing dep_script fresh Hn)
    as ((H1 & H2 & H3) & _ & Hcount).
  rewrite H1, H2, H3. cbn [snd]. rewrite Hcount.
  split; [exact Hn|]. split; [|split]; reflexivity.
Defined.
End NightlyGateWitness.

(** ** The upload stage *)

Section Upload.
Import Py Harness B2G Observe.
Variable ext : Collaborators.
Variable self : B2GBuild.

Lemma query_revision_reads (w : World) : snd (query_revision self w) = w.
Proof.
  unfold query_revision, bind, get, ret, lift.
  destruct (buildbot_properties w !! "revision"); [reflexivity|].
  destruct (buildbot_config self) as [[props [ss|]]|]; reflexivity.
Qed.

Lemma query_buildid_reads (w : World) : snd (query_buildid self w) = w.
Proof.
  unfold query_buildid, bind, read_from_file, search_in.
  destruct (data <$> files (fs w) !! platform_ini self); reflexivity.
Qed.

Lemma query_buildid_found (w : World) (f : file) (buildid : string) :
  files (fs w) !! platform_ini self = Some f ->
  search_line (match_digits_line "BuildID=") (data f) = Some buildid ->
  query_buildid self w = (Ok (PyStr buildid), w).
Proof.
  intros Hf Hb. unfold query_buildid, bind, read_from_file, search_in.
  rewrite Hf. cbn [fmap option_fmap option_map]. unfold ret. rewrite Hb. reflexivity.
Qed.

Lemma upload_path_reads (w : World) : snd (upload_path self w) = w.
Proof.
  unfold upload_path, bind, try_except, lift, ret.
  destruct (enable_try_uploads (config self)).
  - destruct (changes_who self) as [user|c|e]; [| reflexivity |].
    + destruct (query_branch self); [|reflexivity..].
      pose proof (query_revision_reads w) as Hr.
      destruct (query_revision self w) as [[rev|c|e] w']; simpl in Hr; subst; reflexivity.
    + destruct (decide (e = KeyError)); [|reflexivity].
      destruct (query_branch self); [|reflexivity..].
      pose proof (query_revision_reads w) as Hr.
      destruct (query_revision self w) as [[rev|c|e'] w']; simpl in Hr; subst; reflexivity.
  - destruct (query_branch self); [|reflexivity..].
    pose proof (query_buildid_reads w) as Hr.
    destruct (query_buildid self w) as [[b|c|e] w']; simpl in Hr; subst; reflexivity.
Qed.

Lemma upload_path_try (w : World) (who user branch rev : pyval) :
  enable_try_uploads (config self) = true ->
  (changes_who self = Ok who /\ user = who
   \/ changes_who self = Raise KeyError /\ user = PyStr "unknown") ->
  query_branch self = Ok branch ->
  fst (query_revision self w) = Ok rev ->
  upload_path self w =
    (Ok (try_upload_path self (upload_remote_basepath (config self)) user rev branch), w).
Proof.
  intros Ht Hu Hb Hr.
  pose proof (query_revision_reads w) as Hw.
  destruct (query_revision self w) as [r w'] eqn:Hq. simpl in Hr, Hw. subst.
  unfold upload_path, bind, try_except, lift, ret. rewrite Ht.
  destruct Hu as [[-> ->] | [-> ->]].
  - rewrite Hb, Hq. reflexivity.
  - rewrite decide_True by reflexivity. rewrite Hb, Hq. reflexivity.
Qed.

Lemma upload_path_build (w : World) (branch : pyval) (f : file) (buildid : string) :
  enable_try_uploads (config self) = false ->
  query_branch self = Ok branch ->
  files (fs w) !! platform_ini self = Some f ->
  search_line (match_digits_line "BuildID=") (data f) = Some buildid ->
  upload_path self w =
    (Ok (build_upload_path self (upload_remote_basepath (config self)) branch
           (PyStr buildid)), w).
Proof.
  intros Ht Hb Hf Hs.
  unfold upload_path, bind, lift, ret. rewrite Ht, Hb.
  rewrite (query_buildid_found w f buildid Hf Hs). reflexivity.
Qed.

(** The world once the transfer to [path] has returned. *)
Let sent (w : World) (path : string) : World :=
  let e := Rsync (upload_transfer self path)
             (rsync_failure ext w (upload_transfer self path)) in
  with_fs (fs_after ext w e) (record_event e w).

Lemma upload_runs_transfer (w : World) (path : string) :
  fst (upload_path self w) = Ok path ->
  upload ext self w =
    match rsync_failure ext w (upload_transfer self path) with
    | Some _ => ((error "failed to upload" ;; set_return_code 2)%script (sent w path))
    | None =>
        info ("Upload successful: http://"
              +:+ str (upload_remote_host (config self)) +:+ "/" +:+ path)
          (sent w path)
    end.
Proof.
  intros Hp. pose proof (upload_path_reads w) as Hw.
  destruct (upload_path self w) as [r w'] eqn:Hq. simpl in Hp, Hw. subst.
  unfold upload. unfold bind at 1. rewrite Hq.
  unfold bind at 1. unfold rsync_upload_directory. fold (sent w path).
  destruct (rsync_failure ext w (upload_transfer self path)); reflexivity.
Qed.

Lemma upload_completes (w : World) (path : string) :
  fst (upload_path self w) = Ok path ->
  exists w' rest,
    upload ext self w = (Ok tt, w')
    /\ trace w' =
         trace w ++ Rsync (upload_transfer self path)
                      (rsync_failure ext w (upload_transfer self path)) :: rest.
Proof.
  intros Hp. rewrite (upload_runs_transfer w path Hp). unfold sent.
  destruct (rsync_failure ext w (upload_transfer self path)).
  - eexists _, _. split; [reflexivity|]. cbn. rewrite <- !app_assoc. reflexivity.
  - eexists _, _. split; [reflexivity|]. cbn. rewrite <- !app_assoc. reflexivity.
Qed.

(** C3.  The destination of the upload follows one of two templates,
    chosen by [enable_try_uploads]: [basepath/user-rev/branch-target] for
    a try upload, [basepath/branch-target/buildid] otherwise, where the
    build identifier is the [BuildID=] line of the generated
    [platform.ini].  The transfer is started towards that path. *)
Theorem upload_path_selection (w : World) :
  (enable_try_uploads (config self) = true ->
   forall user branch rev,
     changes_who self = Ok user ->
     query_branch self = Ok branch ->
     fst (query_revision self w) = Ok rev ->
     upload_path self w =
       (Ok (str (upload_remote_basepath (config self)) +:+ "/"
            +:+ str user +:+ "-" +:+ str rev +:+ "/"
            +:+ str branch +:+ "-" +:+ target (config self)), w))
  /\ (enable_try_uploads (config self) = false ->
      forall branch f buildid,
        query_branch self = Ok branch ->
        files (fs w) !! platform_ini self = Some f ->
        search_line (match_digits_line "BuildID=") (data f) = Some buildid ->
        upload_path self w =
          (Ok (str (upload_remote_basepath (config self)) +:+ "/"
               +:+ str branch +:+ "-" +:+ target (config self) +:+ "/"
               +:+ buildid), w))
  /\ (forall path,
        fst (upload_path self w) = Ok path ->
        exists failure rest,
          trace (snd (upload ext self w)) =
            trace w ++ Rsync (upload_transfer self path) failure :: rest
          /\ remote_path (upload_transfer self path) = PyStr path).
Proof.
  split; [|split].
  - intros Ht user branch rev Hu Hb Hr.
    apply (upload_path_try w user user branch rev); auto.
  - intros Ht branch f buildid Hb Hf Hs.
    apply (upload_path_build w branch f buildid); auto.
  - intros path Hp.
    destruct (upload_completes w path Hp) as (w' & rest & Hrun & Htrace).
    rewrite Hrun. eexists _, rest. split; [exact Htrace|reflexivity].
Qed.

(** C10.  In try-upload mode, when reading the submitter from the
    scheduler's properties raises [KeyError], the stage carries on with
    ["unknown"] in its place: the path is [basepath/unknown-rev/...], the
    transfer towards it is started and the stage returns. *)
Theorem upload_unknown_submitter (w : World) (branch rev : pyval) :
  enable_try_uploads (config self) = true ->
  changes_who self = Raise KeyError ->
  query_branch self = Ok branch ->
  fst (query_revision self w) = Ok rev ->
  let path := str (upload_remote_basepath (config self)) +:+ "/"
              +:+ "unknown" +:+ "-" +:+ str rev +:+ "/"
              +:+ str branch +:+ "-" +:+ target (config self) in
  upload_path self w = (Ok path, w)
  /\ exists w' failure rest,
       upload ext self w = (Ok tt, w')
       /\ trace w' = trace w ++ Rsync (upload_transfer self path) failure :: rest.
Proof.
  intros Ht Hu Hb Hr path.
  assert (Hp : upload_path self w = (Ok path, w)).
  { apply (upload_path_try w PyNone (PyStr "unknown") branch rev); auto. }
  split; [exact Hp|].
  destruct (upload_completes w path) as (w' & rest & Hrun & Htrace).
  { rewrite Hp. reflexivity. }
  eexists w', _, rest. split; [exact Hrun|exact Htrace].
Qed.

(** C5.  When the transfer of the upload stage reports failure, the
    stage logs an error, sets the return code of the run to 2 and
    returns normally; the pipeline goes on with the stages that follow. *)
Theorem upload_transfer_failure_degrades (w : World) (path : string) (code : Z) :
  fst (upload_path self w) = Ok path ->
  rsync_failure ext w (upload_transfer self path) = Some code ->
  exists w',
    upload ext self w = (Ok tt, w')
    /\ trace w' = trace w ++ [ Rsync (upload_transfer self path) (Some code);
                               Log ERROR "failed to upload" ]
    /\ return_code w' = 2
    /\ forall name rest selected,
         name ∈ selected ->
         run ((name, upload ext self) :: rest) selected w =
           (name :: fst (run rest selected w'), snd (run rest selected w')).
Proof.
  intros Hp Hf. rewrite (upload_runs_transfer w path Hp). unfold sent. rewrite Hf.
  eexists. split; [reflexivity|]. split; [|split].
  - cbn. rewrite <- !app_assoc. reflexivity.
  - reflexivity.
  - intros name rest selected Hsel. cbn [run].
    rewrite bool_decide_eq_true_2 by assumption.
    rewrite (upload_runs_transfer w path Hp). unfold sent. rewrite Hf.
    cbn. destruct (run rest selected _) as [started outcome]. reflexivity.
Qed.
End Upload.

Section UploadWitness.
Import Py Harness B2G Observe Example.

Lemma upload_path_selection_witness :
  upload_path dep_script fresh = (Ok "/pub/b2g/main-device-x/20240101010101", fresh)
  /\ upload_path try_script fresh =
       (Ok "/pub/b2g/dev@example.org-abc123/try-device-x", fresh).
Proof.
  split.
  - destruct (upload_path_selection quiet dep_script fresh) as (_ & Hbuild & _).
    apply (Hbuild eq_refl (PyStr "main")
             {| data := ini_text; mtime := 1351608950 # 1 |} "20240101010101");
      vm_compute; reflexivity.
  - destruct (upload_path_selection quiet try_script fresh) as (Htry & _ & _).
    apply (Htry eq_refl (PyStr "dev@example.org") (PyStr "try") (PyStr "abc123"));
      vm_compute; reflexivity.
Defined.

Lemma upload_unknown_submitter_witness :
  enable_try_uploads (config anonymous_try_script) = true
  /\ changes_who anonymous_try_script = Raise KeyError
  /\ upload_path anonymous_try_script fresh =
       (Ok "/pub/b2g/unknown-abc123/try-device-x", fresh)
  /\ fst (upload quiet anonymous_try_script fresh) = Ok tt.
Proof.
  assert (Ht : enable_try_uploads (config anonymous_try_script) = true) by reflexivity.
  assert (Hu : changes_who anonymous_try_script = Raise KeyError) by reflexivity.
  assert (Hb : query_branch anonymous_try_script = Ok (PyStr "try"))
    by (vm_compute; reflexivity).
  assert (Hr : fst (query_revision anonymous_try_script fresh) = Ok (PyStr "abc123"))
    by (vm_compute; reflexivity).
  destruct (upload_unknown_submitter quiet anonymous_try_script fresh
              (PyStr "try") (PyStr "abc123") Ht Hu Hb Hr)
    as (Hpath & w' & failure & rest & Hrun & _).
  split; [exact Ht|split; [exact Hu|split; [exact Hpath|]]].
  rewrite Hrun. reflexivity.
Defined.

Lemma upload_transfer_failure_degrades_witness :
  fst (upload_path dep_script fresh) = Ok "/pub/b2g/main-device-x/20240101010101"
  /\ rsync_failure failing fresh
       (upload_transfer dep_script "/pub/b2g/main-device-x/20240101010101") = Some 1
  /\ exists w', upload failing dep_script fresh = (Ok tt, w') /\ return_code w' = 2.
Proof.
  assert (Hp : fst (upload_path dep_script fresh)
               = Ok "/pub/b2g/main-device-x/20240101010101")
    by (vm_compute; reflexivity).
  assert (Hf : rsync_failure failing fresh
                 (upload_transfer dep_script "/pub/b2g/main-device-x/20240101010101")
               = Some 1) by reflexivity.
  destruct (upload_transfer_failure_degrades failing dep_script fresh _ 1 Hp Hf)
    as (w' & Hrun & _ & Hcode & _).
  split; [exact Hp|split; [exact Hf|]].
  exists w'. split; [exact Hrun|exact Hcode].
Defined.
End UploadWitness.

(** ** The artifact staging stage *)

Section Strings.
Import Py.

Lemma length_append (a s : string) :
  String.length (a +:+ s) = (String.length a + String.length s)%nat.
Proof. induction a as [|c a IH]; simpl; [reflexivity|]. rewrite IH. reflexivity. Qed.

Lemma substring_append_skip (a s : string) (j k : nat) :
  String.substring (String.length a + j) k (a +:+ s) = String.substring j k s.
Proof. induction a as [|c a IH]; simpl; auto. Qed.

(** Whether [a + s] ends with [suffix] is decided by [s] once [s] is at
    least as long as the suffix. *)
Lemma endswith_append (a s suffix : string) :
  (String.length suffix <= String.length s)%nat ->
  endswith (a +:+ s) suffix = endswith s suffix.
Proof.
  intros Hlen. unfold endswith. rewrite length_append.
  replace (String.length a + String.length s - String.length suffix)%nat
    with (String.length a + (String.length s - String.length suffix))%nat by lia.
  rewrite substring_append_skip.
  rewrite !(proj2 (Nat.leb_le _ _)) by lia. reflexivity.
Qed.

Lemma join_build_prop_not_img (a : string) :
  endswith (Path.join a "build.prop") ".img" = false.
Proof.
  unfold Path.join. cbn [Path.is_abs Ascii.eqb Path.sep Bool.eqb].
  destruct a as [|c a]; [reflexivity|].
  destruct (Path.ends_with_sep (String c a)).
  - rewrite endswith_append by (simpl; lia). reflexivity.
  - rewrite endswith_append by (simpl; lia). reflexivity.
Qed.
End Strings.

Section ScriptMonad.
Import Harness.

Lemma bind_ok_inv {A B} (m : script A) (k : A -> script B) (w w' : World) (b : B) :
  bind m k w = (Ok b, w') ->
  exists a w1, m w = (Ok a, w1) /\ k a w1 = (Ok b, w').
Proof.
  unfold bind. destruct (m w) as [[a|c|e] w1]; intros H; try discriminate.
  exists a, w1. split; [reflexivity|exact H].
Qed.
End ScriptMonad.

Section PrepUpload.
Import Py Harness B2G Observe.
Variable ext : Collaborators.
Variable self : B2GBuild.

Let compress (f : string) : command :=
  {| mock_target := None; argv := ["bzip2"; f]; cwd := None; env := None;
     error_list := None |}.

Lemma stage_file_img_nightly (f : string) (w : World) :
  endswith f ".img" = true -> nightly_build self = true ->
  exists status w',
    stage_file ext self f w = (Ok tt, w')
    /\ trace w' = trace w ++
         [ Log INFO ("compressing " +:+ f);
           Exec (compress f) status;
           Log INFO ("copying " +:+ (f +:+ ".bz2") +:+ " to upload directory");
           CopyToUploadDir (f +:+ ".bz2") None ].
Proof.
  intros Himg Hn. unfold stage_file, query_is_nightly. rewrite Himg, Hn.
  eexists _, _. split; [reflexivity|].
  cbn. rewrite <- !app_assoc. reflexivity.
Qed.

Lemma stage_file_img_skipped (f : string) (w : World) :
  endswith f ".img" = true -> nightly_build self = false ->
  stage_file ext self f w =
    (Ok tt, record_event (Log INFO ("not uploading " +:+ f +:+ " for non-nightly build")) w).
Proof.
  intros Himg Hn. unfold stage_file, query_is_nightly. rewrite Himg, Hn. reflexivity.
Qed.

Lemma stage_file_plain (f : string) (w : World) :
  endswith f ".img" = false ->
  exists w',
    stage_file ext self f w = (Ok tt, w')
    /\ trace w' = trace w ++
         [ Log INFO ("copying " +:+ f +:+ " to upload directory");
           CopyToUploadDir f None ].
Proof.
  intros Himg. unfold stage_file. rewrite Himg.
  eexists. split; [reflexivity|].
  cbn. rewrite <- !app_assoc. reflexivity.
Qed.

Lemma staged_app (t u : list event) : staged (t ++ u) = staged t ++ staged u.
Proof. unfold staged. apply flat_map_app. Qed.

(** One turn of the loop stages what [to_stage] says for that file. *)
Lemma stage_file_staged (f : string) (w : World) :
  exists w' added,
    stage_file ext self f w = (Ok tt, w')
    /\ trace w' = trace w ++ added
    /\ staged added = to_stage (nightly_build self) [f].
Proof.
  unfold to_stage. cbn [flat_map]. rewrite app_nil_r.
  destruct (endswith f ".img") eqn:Himg.
  - destruct (nightly_build self) eqn:Hn.
    + destruct (stage_file_img_nightly f w Himg Hn) as (status & w' & Hrun & Ht).
      eexists w', _. split; [exact Hrun|]. split; [exact Ht|reflexivity].
    + rewrite (stage_file_img_skipped f w Himg Hn).
      eexists _, _. split; [reflexivity|]. split; reflexivity.
  - destruct (stage_file_plain f w Himg) as (w' & Hrun & Ht).
    eexists w', _. split; [exact Hrun|]. split; [exact Ht|reflexivity].
Qed.

Lemma for_each_stage_file (files : list string) (w : World) :
  exists w' added,
    for_each files (stage_file ext self) w = (Ok tt, w')
    /\ trace w' = trace w ++ added
    /\ staged added = to_stage (nightly_build self) files.
Proof.
  revert w. induction files as [|f files IH]; intros w.
  - exists w, []. cbn. rewrite app_nil_r. auto.
  - destruct (stage_file_staged f w) as (w1 & added1 & Hrun1 & Ht1 & Hs1).
    destruct (IH w1) as (w2 & added2 & Hrun2 & Ht2 & Hs2).
    exists w2, (added1 ++ added2).
    split; [|split].
    + cbn [for_each]. unfold bind. rewrite Hrun1. exact Hrun2.
    + rewrite Ht2, Ht1, app_assoc. reflexivity.
    + rewrite staged_app, Hs1, Hs2. unfold to_stage. cbn [flat_map].
      rewrite app_nil_r. reflexivity.
Qed.

End PrepUpload.

Section PrepUploadFileList.
Import Py Harness B2G Observe.
Variable ext : Collaborators.
Variable self : B2GBuild.

Lemma collect_files_reads (patterns : list string) (w : World) :
  snd (collect_files ext self patterns w) = w.
Proof.
  induction patterns as [|p ps IH]; [reflexivity|].
  cbn [collect_files].
  destruct (format_pattern ext p _ _ _) as [e|p']; [reflexivity|].
  unfold bind, get, ret.
  destruct (collect_files ext self ps w) as [[found|c|e] w']; simpl in IH; subst; reflexivity.
Qed.

Lemma upload_file_list_inv (gc : GeckoConfig) (w w' : World) (files : list string) :
  upload_file_list ext self gc w = (Ok files, w') ->
  exists matched,
    files = build_prop (output_dir self) :: matched
    /\ collect_files ext self (default [] (upload_files gc)) w = (Ok matched, w').
Proof.
  unfold upload_file_list. intros (matched & w1 & Hc & Hret)%bind_ok_inv.
  unfold ret in Hret. injection Hret as <- <-.
  exists matched. split; [reflexivity|exact Hc].
Qed.

Lemma build_prop_not_img : endswith (build_prop (output_dir self)) ".img" = false.
Proof. unfold build_prop. cbn [Path.joins fold_left]. apply join_build_prop_not_img. Qed.

(** C9.  The list of individually uploaded files always starts with
    [out/target/product/<target>/system/build.prop], whatever the
    [upload_files] patterns match; a staging stage that completes has
    handed that file to [copy_to_upload_dir]. *)
Theorem build_prop_always_staged (w : World) :
  let build_prop :=
    Path.joins (work_dir (query_abs_dirs self))
      ["out"; "target"; "product"; target (config self); "system"; "build.prop"] in
  (forall gc w0 files w1,
     upload_file_list ext self gc w0 = (Ok files, w1) ->
     exists matched,
       files = build_prop :: matched
       /\ collect_files ext self (default [] (upload_files gc)) w0 = (Ok matched, w1))
  /\ (forall w', prep_upload ext self w = (Ok tt, w') ->
                 CopyToUploadDir build_prop None ∈ trace w').
Proof.
  intros bp. split.
  - intros gc w0 files w1 H. apply (upload_file_list_inv gc w0 w1 files H).
  - intros w' Hrun. unfold prep_upload in Hrun.
    apply bind_ok_inv in Hrun as (_ & w1 & _ & Hrun).
    apply bind_ok_inv in Hrun as (gc & w2 & _ & Hrun).
    apply bind_ok_inv in Hrun as (zfiles & w3 & _ & Hrun).
    apply bind_ok_inv in Hrun as (_ & w4 & _ & Hrun).
    apply bind_ok_inv in Hrun as (_ & w5 & _ & Hrun).
    apply bind_ok_inv in Hrun as (files & w6 & Hlist & Hrun).
    apply bind_ok_inv in Hrun as ([] & w7 & Hloop & Hlogs).
    apply upload_file_list_inv in Hlist as (matched & Hfiles & _). subst files.
    cbn [for_each] in Hloop.
    apply bind_ok_inv in Hloop as ([] & w6' & Hfirst & Hrest).
    destruct (stage_file_plain ext self _ w6 build_prop_not_img) as (w6'' & Hfirst' & Ht1).
    rewrite Hfirst in Hfirst'. injection Hfirst' as <-.
    destruct (for_each_stage_file ext self matched w6') as (w7' & added & Hrest' & Ht2).
    rewrite Hrest in Hrest'. injection Hrest' as <-. destruct Ht2 as [Ht2 _].
    unfold copy_logs_to_upload_dir, called in Hlogs. injection Hlogs as <-.
    cbn [trace with_fs record_event]. rewrite Ht2, Ht1.
    rewrite !elem_of_app. left. left. right.
    apply elem_of_cons. right. apply elem_of_cons. left. reflexivity.
Qed.
End PrepUploadFileList.

Section PrepUploadStage.
Import Py Harness B2G Observe.
Variable ext : Collaborators.
Variable self : B2GBuild.

Lemma load_gecko_config_trace (w : World) :
  trace (snd (load_gecko_config ext self w)) = trace w.
Proof.
  unfold load_gecko_config, bind, get, ret, raise.
  destruct (gecko_config w); [reflexivity|].
  destruct (files (fs w) !! _) as [f|]; [|reflexivity].
  destruct (parse_gecko_config ext (data f)); reflexivity.
Qed.

Lemma for_each_copyfile (files : list string) (dst : string -> string) (w : World) :
  exists w' added,
    for_each files (fun f => copyfile ext f (dst f)) w = (Ok tt, w')
    /\ trace w' = trace w ++ added
    /\ staged added = [].
Proof.
  revert w. induction files as [|f files IH]; intros w.
  - exists w, []. cbn. rewrite app_nil_r. auto.
  - cbn [for_each]. unfold bind at 1. unfold copyfile at 1, called.
    destruct (IH (with_fs (fs_after ext w (CopyFile f (dst f)))
                    (record_event (CopyFile f (dst f)) w)))
      as (w' & added & Hrun & Ht & Hs).
    exists w', (CopyFile f (dst f) :: added).
    split; [exact Hrun|]. split; [|exact Hs].
    rewrite Ht. cbn. rewrite <- app_assoc. reflexivity.
Qed.

(** A bundle that was zipped has handed the archive, and nothing else, to
    [copy_to_upload_dir]. *)
Lemma zip_up_ok (files : list string) (w w' : World) :
  zip_up ext self files w = (Ok tt, w') ->
  exists added,
    trace w' = trace w ++ added
    /\ staged added = match files with
                      | [] => []
                      | _ => [zip_name self]
                      end.
Proof.
  unfold zip_up. destruct files as [|f files].
  - intros [= <-]. exists []. rewrite app_nil_r. auto.
  - set (fs' := f :: files).
    intros ([] & wa & Hinfo & Hrun)%bind_ok_inv.
    apply bind_ok_inv in Hrun as (tmpdir & wb & Htmp & Hrun).
    unfold try_finally in Hrun.
    match type of Hrun with context [bind (mkdir_p ext ?d) ?k wb] =>
      destruct (bind (mkdir_p ext d) k wb) as [r wc] eqn:Hbody end.
    cbn in Hrun. injection Hrun as -> <-.
    apply bind_ok_inv in Hbody as ([] & w1 & Hmk & Hbody).
    apply bind_ok_inv in Hbody as ([] & w2 & Hcopy & Hbody).
    apply bind_ok_inv in Hbody as (status & w3 & Hzip & Hbody).
    apply bind_ok_inv in Hbody as ([] & w4 & Hcheck & Hstage).
    destruct (for_each_copyfile fs' (fun f => Path.join (Path.join tmpdir "b2g-distro")
                                                (Path.basename f)) w1)
      as (w2' & copies & Hcopy' & Ht2 & Hs2).
    rewrite Hcopy in Hcopy'. injection Hcopy' as <-.
    destruct (negb (status =? 0)%Z); [discriminate|].
    injection Hcheck as <-.
    injection Hinfo as <-. injection Htmp as <- <-.
    injection Hmk as <-. injection Hzip as _ <-. injection Hstage as <-.
    eexists. split.
    + cbn [trace with_fs record_event] in *. rewrite Ht2.
      cbn [trace with_fs record_event]. rewrite <- !app_assoc. reflexivity.
    + rewrite !staged_app, Hs2. reflexivity.
Qed.

Lemma upload_file_list_reads (gc : GeckoConfig) (w : World) :
  snd (upload_file_list ext self gc w) = w.
Proof.
  unfold upload_file_list, bind, ret.
  pose proof (collect_files_reads ext self (default [] (upload_files gc)) w) as H.
  destruct (collect_files ext self _ w) as [[m|c|e] w1]; simpl in H; subst; reflexivity.
Qed.

(** What a staging stage that completes has handed to
    [copy_to_upload_dir]: the archive of the bundled files, when there
    are any, then the individually uploaded files as [to_stage] says. *)
Lemma prep_upload_staged (w w' : World) :
  prep_upload ext self w = (Ok tt, w') ->
  exists gc w0 files bundle,
    upload_file_list ext self gc w0 = (Ok files, w0)
    /\ (bundle = [] \/ bundle = [zip_name self])
    /\ staged (added_by (prep_upload ext self) w)
       = bundle ++ to_stage (nightly_build self) files.
Proof.
  intros Hrun. unfold added_by. rewrite Hrun. cbn [snd].
  unfold prep_upload in Hrun.
  apply bind_ok_inv in Hrun as ([] & w1 & Hrm & Hrun).
  apply bind_ok_inv in Hrun as (gc & w2 & Hload & Hrun).
  apply bind_ok_inv in Hrun as (zfiles & w3 & Hz & Hrun).
  apply bind_ok_inv in Hrun as ([] & w4 & Hzip & Hrun).
  apply bind_ok_inv in Hrun as ([] & w5 & Hinfo & Hrun).
  apply bind_ok_inv in Hrun as (files & w6 & Hlist & Hrun).
  apply bind_ok_inv in Hrun as ([] & w7 & Hloop & Hlogs).
  pose proof (load_gecko_config_trace w1) as Ht2. rewrite Hload in Ht2. cbn [snd] in Ht2.
  pose proof (collect_files_reads ext self (default [] (zip_files gc)) w2) as Hw3.
  rewrite Hz in Hw3. cbn [snd] in Hw3. subst w3.
  destruct (zip_up_ok zfiles w2 w4 Hzip) as (zipped & Ht4 & Hs4).
  pose proof (upload_file_list_reads gc w5) as Hw6.
  rewrite Hlist in Hw6. cbn [snd] in Hw6. subst w6.
  destruct (for_each_stage_file ext self files w5) as (w7' & added & Hloop' & Ht7 & Hs7).
  rewrite Hloop in Hloop'. injection Hloop' as <-.
  injection Hrm as <-. injection Hinfo as <-. injection Hlogs as <-.
  exists gc, (record_event (Log INFO "copying files to upload directory") w4), files,
    (staged zipped).
  split; [exact Hlist|]. split.
  - rewrite Hs4. destruct zfiles; auto.
  - cbn [trace with_fs record_event] in *.
    rewrite Ht7. cbn [trace with_fs record_event]. rewrite Ht4, Ht2.
    cbn [trace with_fs record_event].
    rewrite <- !app_assoc, drop_app_length, !staged_app, Hs7. cbn [staged flat_map app].
    rewrite app_nil_r. reflexivity.
Qed.
(** C7.  In the staging loop a file ending in [.img] is compressed with
    [bzip2] and then staged as [<file>.bz2] in a nightly build, and is
    neither compressed nor staged otherwise; any other file is staged
    under its own name in both modes.  So a staging stage that completes
    has staged, besides the archive of the bundle, exactly [to_stage] of
    its individual-upload list. *)
Theorem img_files_compressed_or_skipped (f : string) (w : World) :
  (endswith f ".img" = true -> nightly_build self = true ->
   exists status w',
     stage_file ext self f w = (Ok tt, w')
     /\ trace w' = trace w ++
          [ Log INFO ("compressing " +:+ f);
            Exec {| mock_target := None; argv := ["bzip2"; f]; cwd := None;
                    env := None; error_list := None |} status;
            Log INFO ("copying " +:+ (f +:+ ".bz2") +:+ " to upload directory");
            CopyToUploadDir (f +:+ ".bz2") None ])
  /\ (endswith f ".img" = true -> nightly_build self = false ->
      stage_file ext self f w =
        (Ok tt,
         record_event (Log INFO ("not uploading " +:+ f +:+ " for non-nightly build")) w))
  /\ (endswith f ".img" = false ->
      exists w',
        stage_file ext self f w = (Ok tt, w')
        /\ trace w' = trace w ++
             [ Log INFO ("copying " +:+ f +:+ " to upload directory");
               CopyToUploadDir f None ])
  /\ (forall files,
        exists w' added,
          for_each files (stage_file ext self) w = (Ok tt, w')
          /\ trace w' = trace w ++ added
          /\ staged added = to_stage (nightly_build self) files)
  /\ (forall w',
        prep_upload ext self w = (Ok tt, w') ->
        exists gc w0 files bundle,
          upload_file_list ext self gc w0 = (Ok files, w0)
          /\ (bundle = [] \/ bundle = [zip_name self])
          /\ staged (added_by (prep_upload ext self) w)
             = bundle ++ to_stage (nightly_build self) files).
Proof.
  split; [|split; [|split; [|split]]].
  - apply stage_file_img_nightly.
  - apply stage_file_img_skipped.
  - apply stage_file_plain.
  - intros files. apply for_each_stage_file.
  - apply prep_upload_staged.
Qed.
End PrepUploadStage.

Section PrepUploadWitness.
Import Py Harness B2G Observe Example.

Lemma img_files_compressed_or_skipped_witness :
  let img := "/builds/build/out/target/product/device-x/system.img" in
  endswith img ".img" = true
  /\ nightly_build nightly_script = true
  /\ nightly_build dep_script = false
  /\ endswith "/builds/build/sources.xml" ".img" = false
  /\ staged (trace (snd (stage_file quiet nightly_script img fresh))) = [img +:+ ".bz2"]
  /\ staged (trace (snd (stage_file quiet dep_script img fresh))) = []
  /\ staged (trace (snd (stage_file quiet dep_script "/builds/build/sources.xml" fresh)))
     = ["/builds/build/sources.xml"].
Proof.
  intros img.
  assert (Himg : endswith img ".img" = true) by reflexivity.
  assert (Hn : nightly_build nightly_script = true) by reflexivity.
  assert (Hd : nightly_build dep_script = false) by reflexivity.
  assert (Hx : endswith "/builds/build/sources.xml" ".img" = false) by reflexivity.
  destruct (img_files_compressed_or_skipped quiet nightly_script img fresh)
    as (Hnightly & _).
  destruct (Hnightly Himg Hn) as (status & w1 & Hrun1 & Ht1).
  destruct (img_files_compressed_or_skipped quiet dep_script img fresh)
    as (_ & Hskip & _).
  destruct (img_files_compressed_or_skipped quiet dep_script
              "/builds/build/sources.xml" fresh) as (_ & _ & Hplain & _).
  destruct (Hplain Hx) as (w3 & Hrun3 & Ht3).
  rewrite Hrun1, (Hskip Himg Hd), Hrun3. cbn [snd]. rewrite Ht1, Ht3.
  repeat (split; [assumption|]). split; [|split]; reflexivity.
Defined.

Lemma build_prop_always_staged_witness :
  exists w',
    prep_upload quiet nightly_script fresh = (Ok tt, w')
    /\ CopyToUploadDir "/builds/build/out/target/product/device-x/system/build.prop" None
         ∈ trace w'.
Proof.
  exists (snd (prep_upload quiet nightly_script fresh)).
  assert (Hrun : prep_upload quiet nightly_script fresh
                 = (Ok tt, snd (prep_upload quiet nightly_script fresh)))
    by (vm_compute; reflexivity).
  split; [exact Hrun|].
  destruct (build_prop_always_staged quiet nightly_script fresh) as (_ & Hstaged).
  apply (Hstaged _ Hrun).
Defined.
End PrepUploadWitness.

(** ** Fail-fast stages of the update workflow *)

Section FailFast.
Import Py Harness B2G Observe.

Lemma fail_fast_clean {A} (added : list event) (r : result A) :
  existsb failed added = false -> fail_fast added r.
Proof. unfold fail_fast. intros ->. discriminate. Qed.

Lemma stops_at_failure_app (a b : list event) :
  existsb failed a = false -> stops_at_failure (a ++ b) = stops_at_failure b.
Proof.
  induction a as [|e a IH]; [reflexivity|].
  cbn [existsb app stops_at_failure].
  intros [He Ha]%orb_false_elim. rewrite He. auto.
Qed.

Lemma fail_fast_app {A} (a b : list event) (r : result A) :
  existsb failed a = false -> fail_fast b r -> fail_fast (a ++ b) r.
Proof.
  unfold fail_fast. intros Ha Hb.
  rewrite existsb_app, Ha, (stops_at_failure_app a b Ha). exact Hb.
Qed.

Lemma fail_fast_ok_clean {A} (added : list event) (a : A) :
  fail_fast added (Ok a) -> existsb failed added = false.
Proof.
  unfold fail_fast. destruct (existsb failed added); [|reflexivity].
  intros H. destruct (H eq_refl) as [(c & _ & Hc) _]. discriminate.
Qed.

Lemma fail_fast_not_ok {A B} (added : list event) (r : result A) (r' : result B) :
  match r, r' with
  | Fatal c, Fatal c' => c = c'
  | Raise _, Raise _ => True
  | _, _ => False
  end ->
  fail_fast added r -> fail_fast added r'.
Proof.
  unfold fail_fast. intros Hr H Hf. destruct (H Hf) as [(c & Hc & ->) Hs].
  destruct r' as [b|c'|e]; try contradiction. subst c'.
  split; [exists c; auto|exact Hs].
Qed.

(** [emits] is closed under sequencing when the property is fail-fast. *)
Lemma emits_bind {A B} (m : script A) (k : A -> script B) :
  emits m fail_fast -> (forall a, emits (k a) fail_fast) ->
  emits (bind m k) fail_fast.
Proof.
  intros Hm Hk w. destruct (Hm w) as (a1 & Ht1 & Hg1).
  unfold bind. destruct (m w) as [[a|c|e] w1]; cbn [fst snd] in *.
  - destruct (Hk a w1) as (a2 & Ht2 & Hg2).
    exists (a1 ++ a2). split.
    + rewrite Ht2, Ht1, app_assoc. reflexivity.
    + apply fail_fast_app; [apply (fail_fast_ok_clean a1 a Hg1)|exact Hg2].
  - exists a1. split; [exact Ht1|]. revert Hg1. apply fail_fast_not_ok. reflexivity.
  - exists a1. split; [exact Ht1|]. revert Hg1. apply fail_fast_not_ok. exact I.
Qed.

Lemma emits_bind_assoc {A B C} (m : script A) (k1 : A -> script B) (k2 : B -> script C)
    (P : list event -> result C -> Prop) :
  emits (bind m (fun x => bind (k1 x) k2)) P -> emits (bind (bind m k1) k2) P.
Proof.
  intros H w. destruct (H w) as (added & Ht & HP). exists added.
  assert (Heq : bind (bind m k1) k2 w = bind m (fun x => bind (k1 x) k2) w).
  { unfold bind. destruct (m w) as [[a|c|e] w1]; reflexivity. }
  rewrite Heq. auto.
Qed.

(** A step that leaves the trace alone. *)
Lemma emits_silent {A} (m : script A) :
  (forall w, trace (snd (m w)) = trace w) -> emits m fail_fast.
Proof.
  intros H w. exists []. rewrite app_nil_r. split; [apply H|].
  apply fail_fast_clean. reflexivity.
Qed.

(** A step that appends one event which is not a failure. *)
Lemma emits_one {A} (m : script A) (e : World -> event) :
  (forall w, trace (snd (m w)) = trace w ++ [e w]) ->
  (forall w, failed (e w) = false) ->
  emits m fail_fast.
Proof.
  intros H He w. exists [e w]. split; [apply H|].
  apply fail_fast_clean. cbn. rewrite He. reflexivity.
Qed.

Lemma emits_log (l : level) (msg : string) : emits (log l msg) fail_fast.
Proof. apply (emits_one _ (fun _ => Log l msg)); reflexivity. Qed.

Lemma emits_ret {A} (a : A) : emits (ret a) fail_fast.
Proof. apply emits_silent. reflexivity. Qed.

Lemma emits_lift {A} (r : result A) : emits (lift r) fail_fast.
Proof. apply emits_silent. reflexivity. Qed.

Lemma emits_get : emits get fail_fast.
Proof. apply emits_silent. reflexivity. Qed.

Lemma emits_fatal {A} (msg : string) (c : Z) : emits (fatal (A := A) msg c) fail_fast.
Proof. apply (emits_one _ (fun _ => Log FATAL msg)); reflexivity. Qed.

Variable ext : Collaborators.

Lemma emits_called (e : event) : failed e = false -> emits (called ext e) fail_fast.
Proof. intros He. apply (emits_one _ (fun _ => e)); [reflexivity|auto]. Qed.

Lemma emits_write_to_file (path contents : string) :
  emits (write_to_file path contents) fail_fast.
Proof. apply (emits_one _ (fun _ => WriteToFile path contents)); reflexivity. Qed.

Lemma emits_vcs_checkout (repo dest vcs : string) :
  emits (vcs_checkout ext repo dest vcs) fail_fast.
Proof.
  apply (emits_one _ (fun w => VcsCheckout repo dest vcs (checkout_rev ext w repo dest vcs)));
    reflexivity.
Qed.

Lemma emits_set_buildbot_property (name : string) (value : pyval) :
  emits (set_buildbot_property ext name value) fail_fast.
Proof. apply (emits_one _ (fun _ => SetBuildbotProperty name value)); reflexivity. Qed.

(** An executor invocation whose status is checked at once: a zero
    status lets the continuation run, any other status is fatal. *)
Lemma emits_execute_checked {A} (c : command) (k : Z -> script A) :
  emits (k 0) fail_fast ->
  (forall s w, s <> 0 ->
     exists code msg, code <> 0 /\ k s w = (Fatal code, record_event (Log FATAL msg) w)) ->
  emits (bind (execute ext c) k) fail_fast.
Proof.
  intros Hok Hfail w. unfold bind, execute.
  set (s := exit_status ext w c).
  set (w1 := with_fs _ _).
  destruct (Z.eq_dec s 0) as [H0|H0].
  - rewrite H0. destruct (Hok w1) as (added & Ht & Hg).
    exists ([Exec c 0] ++ added). split.
    + rewrite Ht. subst w1. cbn [trace with_fs record_event].
      rewrite H0, <- app_assoc. reflexivity.
    + apply fail_fast_app; [reflexivity|exact Hg].
  - destruct (Hfail s w1 H0) as (code & msg & Hcode & ->).
    exists [Exec c s; Log FATAL msg]. split.
    + subst w1. cbn. rewrite <- app_assoc. reflexivity.
    + intros _. split; [exists code; auto|].
      cbn. apply Z.eqb_neq in H0. rewrite H0. reflexivity.
Qed.

(** The same for the update manifest. *)
Lemma emits_create_update_xml_checked {A} marfile version buildid url upload_dir
    (k : bool -> script A) :
  emits (k true) fail_fast ->
  (forall w, exists code msg,
     code <> 0 /\ k false w = (Fatal code, record_event (Log FATAL msg) w)) ->
  emits (bind (create_update_xml ext marfile version buildid url upload_dir) k) fail_fast.
Proof.
  intros Hok Hfail w. unfold bind, create_update_xml.
  destruct (update_xml_ok ext w marfile version buildid url upload_dir).
  - set (w1 := with_fs _ _).
    destruct (Hok w1) as (added & Ht & Hg).
    exists ([CreateUpdateXml marfile version buildid url upload_dir true] ++ added). split.
    + rewrite Ht. subst w1. cbn [trace with_fs record_event].
      rewrite <- app_assoc. reflexivity.
    + apply fail_fast_app; [reflexivity|exact Hg].
  - set (w1 := with_fs _ _).
    destruct (Hfail w1) as (code & msg & Hcode & ->).
    exists [CreateUpdateXml marfile version buildid url upload_dir false; Log FATAL msg]. split.
    + subst w1. cbn. rewrite <- app_assoc. reflexivity.
    + intros _. split; [exists code; auto|reflexivity].
Qed.

Variable self : B2GBuild.

Lemma emits_load_gecko_config : emits (load_gecko_config ext self) fail_fast.
Proof.
  apply emits_silent. intros w. unfold load_gecko_config, bind, get, ret, raise.
  destruct (gecko_config w); [reflexivity|].
  destruct (files (fs w) !! _) as [f|]; [|reflexivity].
  destruct (parse_gecko_config ext (data f)); reflexivity.
Qed.

Lemma emits_query_buildid : emits (query_buildid self) fail_fast.
Proof.
  apply emits_silent. intros w. rewrite query_buildid_reads. reflexivity.
Qed.

Lemma emits_query_version : emits (query_version self) fail_fast.
Proof.
  apply emits_silent. intros w. unfold query_version, bind, read_from_file, search_in.
  destruct (data <$> files (fs w) !! application_ini self); reflexivity.
Qed.

Lemma check_status_fatal {A} (msg : string) (code : Z) (rest : script A) (s : Z) (w : World) :
  s <> 0 -> code <> 0 ->
  exists code' msg',
    code' <> 0
    /\ bind (if negb (Z.eqb s 0) then fatal msg code else ret tt) (fun _ => rest) w
       = (Fatal code', record_event (Log FATAL msg') w).
Proof.
  intros Hs Hc. exists code, msg. split; [exact Hc|].
  apply Z.eqb_neq in Hs. rewrite Hs. reflexivity.
Qed.

Lemma sign_updates_fail_fast : emits (sign_updates ext self) fail_fast.
Proof.
  unfold sign_updates.
  apply emits_bind; [apply emits_get|intros w0].
  destruct (environ w0 !! "MOZ_SIGNING_SERVERS") as [configured|]; [|apply emits_log].
  apply emits_bind; [apply emits_log|intros _].
  apply emits_bind; [apply emits_vcs_checkout|intros rev].
  apply emits_bind; [apply emits_set_buildbot_property|intros _].
  apply emits_bind; [apply emits_get|intros w1].
  apply emits_bind; [apply emits_lift|intros servers].
  apply emits_execute_checked.
  - apply emits_ret.
  - intros status w Hs. exists 2, "failed to sign complete update".
    split; [discriminate|]. apply Z.eqb_neq in Hs. rewrite Hs. reflexivity.
Qed.

Lemma make_updates_fail_fast : emits (make_updates ext self) fail_fast.
Proof.
  unfold make_updates.
  destruct (negb (query_is_nightly self)); [apply emits_log|].
  apply emits_bind; [apply emits_load_gecko_config|intros gc].
  apply emits_bind; [apply emits_write_to_file|intros _].
  assert (Hchecked : forall c,
    emits (bind (execute ext c)
             (fun retval =>
                bind (if negb (Z.eqb retval 0)
                      then fatal "failed to create complete update" 2 else ret tt)
                     (fun _ => sign_updates ext self))) fail_fast).
  { intros c. apply emits_execute_checked.
    - apply emits_bind; [apply emits_ret|intros _; apply sign_updates_fail_fast].
    - intros status w Hs. apply check_status_fatal; [exact Hs|discriminate]. }
  destruct (gc_mock_target gc) as [mock|].
  - apply emits_bind_assoc.
    apply emits_bind; [apply emits_lift|intros packages].
    apply emits_bind_assoc.
    apply emits_bind; [apply emits_called; reflexivity|intros _].
    apply Hchecked.
  - apply Hchecked.
Qed.

Lemma make_update_xml_fail_fast : emits (make_update_xml ext self) fail_fast.
Proof.
  unfold make_update_xml.
  destruct (negb (query_is_nightly self)); [apply emits_log|].
  destruct (update_config self) as [u|]; [|apply emits_log].
  apply emits_bind; [apply emits_called; reflexivity|intros _].
  apply emits_bind; [apply emits_query_buildid|intros suffix].
  apply emits_bind; [apply emits_lift|intros base_url].
  apply emits_bind; [apply emits_lift|intros mar_url].
  apply emits_bind; [apply emits_log|intros _].
  apply emits_bind; [apply emits_query_version|intros version].
  apply emits_bind; [apply emits_query_buildid|intros buildid].
  apply emits_create_update_xml_checked.
  - apply emits_bind; [apply emits_ret|intros _].
    apply emits_bind; [apply emits_called; reflexivity|intros _].
    apply emits_bind; [apply emits_called; reflexivity|intros _].
    apply emits_called; reflexivity.
  - intros w. exists default_exit_code, "Failed to generate update.xml".
    split; [discriminate|reflexivity].
Qed.

Lemma emits_fatal_on_failure (stage : script unit) (w : World) :
  emits stage fail_fast -> fatal_on_failure stage w.
Proof.
  intros H. destruct (H w) as (added & Ht & Hg).
  unfold fatal_on_failure, added_by. rewrite Ht, drop_app_length. exact Hg.
Qed.
End FailFast.

Section UploadUpdates.
Import Py Harness B2G Observe.
Variable ext : Collaborators.
Variable self : B2GBuild.

Lemma report_transfer_ok (retval : option Z) (w : World) :
  exists w', report_transfer retval w = (Ok tt, w')
    /\ trace w' = trace w ++ match retval with
                             | Some _ => [Log ERROR "failed to upload"]
                             | None => [Log INFO "Upload successful"]
                             end
    /\ return_code w' = match retval with Some _ => 2 | None => return_code w end
    /\ fs w' = fs w.
Proof.
  destruct retval; eexists; (split; [reflexivity|]); cbn; auto.
Qed.

Lemma updates_transfer_not_fatal u dir options (w : World) (c : Z) :
  fst (updates_transfer ext u dir options w) <> Fatal c.
Proof.
  unfold updates_transfer, bind, lift, getitem, rsync_upload_directory.
  destruct (u !! "ssh_key"); [|discriminate].
  destruct (u !! "ssh_user"); [|discriminate].
  destruct (u !! "upload_remote_host"); [|discriminate].
  destruct (u !! "upload_remote_basepath"); discriminate.
Qed.

Lemma upload_updates_never_fatal (w : World) (c : Z) :
  fst (upload_updates ext self w) <> Fatal c.
Proof.
  unfold upload_updates.
  destruct (negb (query_is_nightly self)); [discriminate|].
  destruct (update_config self) as [u|]; [|discriminate].
  unfold bind at 1.
  pose proof (updates_transfer_not_fatal u (abs_upload_dir (query_abs_dirs self) +:+ "-updates")
                (Some ["-azv"; "--exclude=update.xml"]) w) as H1.
  destruct (updates_transfer ext u _ _ w) as [[retval|c1|e1] w1]; cbn [fst] in H1.
  - unfold bind at 1.
    destruct (report_transfer_ok retval w1) as (w2 & -> & _).
    destruct (match u !! "autopublish" with Some v => truthy v | None => false end);
      [|discriminate].
    unfold bind.
    pose proof (updates_transfer_not_fatal u
                  (abs_upload_dir (query_abs_dirs self) +:+ "-updates") None w2) as H2.
    destruct (updates_transfer ext u _ _ w2) as [[retval2|c2|e2] w3]; cbn [fst] in H2.
    + destruct (report_transfer_ok retval2 w3) as (w4 & -> & _). discriminate.
    + exfalso. apply (H2 c2). reflexivity.
    + discriminate.
  - exfalso. apply (H1 c1). reflexivity.
  - discriminate.
Qed.

Lemma upload_updates_first_transfer_fails (w : World) u key user host basepath code :
  nightly_build self = true ->
  update_config self = Some u ->
  u !! "ssh_key" = Some key -> u !! "ssh_user" = Some user ->
  u !! "upload_remote_host" = Some host ->
  u !! "upload_remote_basepath" = Some basepath ->
  let first := dated_transfer self (Some ["-azv"; "--exclude=update.xml"])
                 key user host basepath in
  let second := dated_transfer self None key user host basepath in
  rsync_failure ext w first = Some code ->
  exists w',
    upload_updates ext self w = (Ok tt, w')
    /\ return_code w' = 2
    /\ exists rest,
         trace w' = trace w ++ Rsync first (Some code) :: Log ERROR "failed to upload" :: rest
         /\ (autopublish u = true ->
             exists failure rest', rest = Rsync second failure :: rest').
Proof.
  intros Hn Hu Hk Hus Hh Hb first second Hfail.
  subst first second. unfold dated_transfer, autopublish in *.
  unfold upload_updates, query_is_nightly. rewrite Hn, Hu. cbn [negb].
  unfold updates_transfer, bind, lift, getitem, rsync_upload_directory.
  rewrite Hk, Hus, Hh, Hb, Hfail.
  cbn [report_transfer bind error log set_return_code].
  destruct (match u !! "autopublish" with Some v => truthy v | None => false end).
  - match goal with |- context [rsync_failure ext ?w2 ?t2] =>
      lazymatch t2 with
      | {| rsync_options := None |} =>
          destruct (rsync_failure ext w2 t2) as [code2|] eqn:H2
      end
    end.
    + eexists. split; [reflexivity|]. split; [reflexivity|].
      eexists. split.
      * cbn. rewrite <- !app_assoc. reflexivity.
      * intros _. eexists _, _. reflexivity.
    + eexists. split; [reflexivity|]. split; [reflexivity|].
      eexists. split.
      * cbn. rewrite <- !app_assoc. reflexivity.
      * intros _. eexists _, _. reflexivity.
  - eexists. split; [reflexivity|]. split; [reflexivity|].
    exists []. split.
    + cbn. rewrite <- !app_assoc. reflexivity.
    + discriminate.
Qed.

(** C2, as the code has it.  In [make_updates], [sign_updates] and
    [make_update_xml] a failed invocation (a non-zero exit status, a
    manifest that could not be generated) ends the run in [fatal] with a
    non-zero exit code and nothing else of the workflow is invoked.  In
    [upload_updates] no failure is fatal: a transfer that reports
    non-success is logged as an error, the return code becomes 2 and the
    stage goes on (with [autopublish], to the second transfer). *)
Theorem update_workflow_failure_policy (w : World) :
  fatal_on_failure (make_updates ext self) w
  /\ fatal_on_failure (sign_updates ext self) w
  /\ fatal_on_failure (make_update_xml ext self) w
  /\ (forall c, fst (upload_updates ext self w) <> Fatal c)
  /\ (forall u key user host basepath code,
        nightly_build self = true ->
        update_config self = Some u ->
        u !! "ssh_key" = Some key -> u !! "ssh_user" = Some user ->
        u !! "upload_remote_host" = Some host ->
        u !! "upload_remote_basepath" = Some basepath ->
        let first := dated_transfer self (Some ["-azv"; "--exclude=update.xml"])
                       key user host basepath in
        let second := dated_transfer self None key user host basepath in
        rsync_failure ext w first = Some code ->
        exists w',
          upload_updates ext self w = (Ok tt, w')
          /\ return_code w' = 2
          /\ exists rest,
               trace w' = trace w ++ Rsync first (Some code)
                                     :: Log ERROR "failed to upload" :: rest
               /\ (autopublish u = true ->
                   exists failure rest', rest = Rsync second failure :: rest')).
Proof.
  split; [|split; [|split; [|split]]].
  - apply emits_fatal_on_failure, make_updates_fail_fast.
  - apply emits_fatal_on_failure, sign_updates_fail_fast.
  - apply emits_fatal_on_failure, make_update_xml_fail_fast.
  - apply upload_updates_never_fatal.
  - apply upload_updates_first_transfer_fails.
Qed.
End UploadUpdates.

Section UpdateWorkflowExamples.
Import Py Harness B2G Observe Example.

(** C2 as stated fails on [upload_updates]: with a transfer that reports
    non-success the stage is not fail-fast; it returns normally with the
    return code set to 2, after starting a second transfer. *)
Lemma upload_updates_transfer_failure_not_fatal :
  ~ fatal_on_failure (upload_updates failing nightly_script) fresh
  /\ fst (upload_updates failing nightly_script fresh) = Ok tt
  /\ return_code (snd (upload_updates failing nightly_script fresh)) = 2
  /\ invocations (added_by (upload_updates failing nightly_script) fresh) = 2%nat.
Proof.
  split; [|split; [|split]]; try (vm_compute; reflexivity).
  intros H. destruct H as [(c & _ & Hc) _]; [vm_compute; reflexivity|].
  vm_compute in Hc. discriminate.
Qed.

Lemma update_workflow_failure_policy_witness :
  existsb failed (added_by (make_updates failing nightly_script) fresh) = true
  /\ (exists c, c <> 0 /\ fst (make_updates failing nightly_script fresh) = Fatal c)
  /\ exists w', upload_updates failing nightly_script fresh = (Ok tt, w')
                /\ return_code w' = 2.
Proof.
  destruct (update_workflow_failure_policy failing nightly_script fresh)
    as (Hmake & _ & _ & _ & Hupload).
  assert (Hfailed : existsb failed (added_by (make_updates failing nightly_script) fresh)
                    = true) by (vm_compute; reflexivity).
  split; [exact Hfailed|]. split; [exact (proj1 (Hmake Hfailed))|].
  destruct (Hupload update_section (PyStr "~/.ssh/b2g") (PyStr "b2gbld")
              (PyStr "update.example.org") (PyStr "/data/update") 1)
    as (w' & Hrun & Hcode & _); try (vm_compute; reflexivity).
  exists w'. split; [exact Hrun|exact Hcode].
Defined.
End UpdateWorkflowExamples.

(** ** The stage pipeline *)

Section Pipeline.
Import Py Harness B2G Observe.

Lemma run_started_prefix (catalogue : list (string * script unit))
    (selected : list string) (w : World) :
  fst (run catalogue selected w) `prefix_of` filter (.∈ selected) catalogue.*1.
Proof.
  revert w. induction catalogue as [|[name action] rest IH]; intros w; [reflexivity|].
  cbn [run fmap list_fmap fst]. rewrite filter_cons. cbn [fst].
  case_bool_decide as Hsel.
  - rewrite decide_True by assumption.
    destruct (action w) as [[[]|c|e] w1].
    + specialize (IH w1). destruct (run rest selected w1) as [started outcome].
      cbn [fst] in *. apply prefix_cons, IH.
    + cbn [fst]. apply prefix_cons, prefix_nil.
    + cbn [fst]. apply prefix_cons, prefix_nil.
  - rewrite decide_False by assumption. apply IH.
Qed.

Lemma run_completed (catalogue : list (string * script unit))
    (selected : list string) (w : World) :
  fst (snd (run catalogue selected w)) = Ok tt ->
  fst (run catalogue selected w) = filter (.∈ selected) catalogue.*1.
Proof.
  revert w. induction catalogue as [|[name action] rest IH]; intros w; [reflexivity|].
  cbn [run fmap list_fmap fst]. rewrite filter_cons. cbn [fst].
  case_bool_decide as Hsel.
  - rewrite decide_True by assumption.
    destruct (action w) as [[[]|c|e] w1]; [|discriminate..].
    specialize (IH w1). destruct (run rest selected w1) as [started outcome].
    cbn [fst snd] in *. intros Hok. rewrite (IH Hok). reflexivity.
  - rewrite decide_False by assumption. apply IH.
Qed.

(** C8.  Whatever the catalogue and the selection, the stages are
    started in catalogue order: the stages started are a prefix of the
    catalogue restricted to the selection, all of it when the run
    completes, and that restriction is a subsequence of the catalogue.
    For the catalogue of the script itself the default selection, the
    full selection and the empty one give the default stages, all
    stages and no stage, each in catalogue order. *)
Theorem stage_order_is_catalogue_order (catalogue : list (string * script unit))
    (selected : list string) (w : World) :
  let started := fst (run catalogue selected w) in
  let scheduled := filter (.∈ selected) catalogue.*1 in
  started `prefix_of` scheduled
  /\ (fst (snd (run catalogue selected w)) = Ok tt -> started = scheduled)
  /\ scheduled `sublist_of` catalogue.*1
  /\ filter (.∈ default_actions) all_actions = default_actions
  /\ filter (.∈ all_actions) all_actions = all_actions
  /\ filter (.∈ []) all_actions = [].
Proof.
  intros started scheduled. split; [|split; [|split; [|split; [|split]]]].
  - apply run_started_prefix.
  - apply run_completed.
  - apply sublist_filter.
  - vm_compute. reflexivity.
  - vm_compute. reflexivity.
  - vm_compute. reflexivity.
Qed.
End Pipeline.


Section PipelineWitness.
Import Py Harness B2G Observe Example.

Lemma stage_order_is_catalogue_order_witness :
  fst (snd (run short_catalogue ["upload"; "unpack-gonk"] fresh)) = Ok tt
  /\ fst (run short_catalogue ["upload"; "unpack-gonk"] fresh) = ["unpack-gonk"; "upload"].
Proof.
  assert (Hok : fst (snd (run short_catalogue ["upload"; "unpack-gonk"] fresh)) = Ok tt)
    by (vm_compute; reflexivity).
  split; [exact Hok|].
  destruct (stage_order_is_catalogue_order short_catalogue ["upload"; "unpack-gonk"] fresh)
    as (_ & Hdone & _).
  rewrite (Hdone Hok). vm_compute. reflexivity.
Defined.
End PipelineWitness.

(** ** Config.py *)

Section PyConfigDictionaries.
Import Py PyConfig.
Import Harness (result, Ok, Fatal, Raise).

Lemma mapConfig_fold_lookup (config1 config2 : gmap string pyval) (key : string) :
  mapConfig config1 config2 !! key =
    match config2 !! key with
    | Some value => Some value
    | None => config1 !! key
    end.
Proof.
  unfold mapConfig.
  apply (map_fold_weak_ind
           (fun (r : gmap string pyval) (m : gmap string pyval) =>
              r !! key = match m !! key with Some v => Some v | None => config1 !! key end)).
  - rewrite lookup_empty. reflexivity.
  - intros i x m r Hi IH. destruct (decide (i = key)) as [->|Hne].
    + rewrite !lookup_insert_eq. reflexivity.
    + rewrite !lookup_insert_ne by assumption. exact IH.
Qed.

(** X1.  [mapConfig] gives a dictionary in which every key of the second
    argument has the second argument's value and every other key keeps
    the value of the first. *)
Theorem mapConfig_lookup (config1 config2 : gmap string pyval) :
  (forall key value, config2 !! key = Some value ->
     mapConfig config1 config2 !! key = Some value)
  /\ (forall key, config2 !! key = None ->
       mapConfig config1 config2 !! key = config1 !! key)
  /\ dom (mapConfig config1 config2) = dom config1 ∪ dom config2.
Proof.
  split; [|split].
  - intros key value H. rewrite mapConfig_fold_lookup, H. reflexivity.
  - intros key H. rewrite mapConfig_fold_lookup, H. reflexivity.
  - apply set_eq. intros key.
    rewrite elem_of_union, !elem_of_dom, mapConfig_fold_lookup.
    destruct (config2 !! key) as [v|].
    + split; [intros _; right; eauto|eauto].
    + split; [intros H; left; exact H|].
      intros [H|[x Hx]]; [exact H|discriminate].
Qed.

Lemma nonempty_false (d : gmap string pyval) : nonempty d = false -> d = ∅.
Proof. unfold nonempty. intros H%negb_false_iff. apply bool_decide_eq_true in H. exact H. Qed.

(** X2.  [BaseConfig.setConfig] never exits and prints nothing; after it a
    key of the new dictionary has the new value, and any other key keeps
    its old value unless [overwrite] is set, in which case it is gone. *)
Theorem setConfig_lookup (new : gmap string pyval) (overwrite : bool)
    (p : process BaseConfig) (key : string) :
  exists s',
    setConfig new overwrite p = (Ok tt, {| self := s'; printed := printed p |})
    /\ base_logObj s' = base_logObj (self p)
    /\ config s' !! key =
         match new !! key with
         | Some value => Some value
         | None => if overwrite then None else config (self p) !! key
         end.
Proof.
  unfold setConfig, mbind, get_self, set_self.
  destruct (nonempty (config (self p))) eqn:Hne; destruct overwrite; cbn [andb negb].
  - eexists. split; [reflexivity|]. split; [reflexivity|]. cbn.
    destruct (new !! key); reflexivity.
  - eexists. split; [reflexivity|]. split; [reflexivity|]. cbn.
    apply mapConfig_fold_lookup.
  - eexists. split; [reflexivity|]. split; [reflexivity|]. cbn.
    destruct (new !! key); reflexivity.
  - eexists. split; [reflexivity|]. split; [reflexivity|]. cbn.
    rewrite (nonempty_false _ Hne), lookup_empty. destruct (new !! key); reflexivity.
Qed.
End PyConfigDictionaries.

Section PyConfigLock.
Import Py PyConfig.
Import Harness (result, Ok, Fatal, Raise).


(** X3.  Once [lockConfig] has run, [setVar] and [setConfig] of a
    [ParanoidConfig] print the lock message and exit with code -1 without
    touching the stored configuration; [queryConfig] answers as before.
    On an unlocked object [setVar] stores the value, and [queryVar] gives
    it back for every name but the empty one, for which it returns the
    whole dictionary. *)
Theorem paranoid_lock (p : process ParanoidConfig) (key : string) (value : pyval)
    (new : gmap string pyval) (overwrite : bool) :
  let locked := snd (lockConfig p) in
  (paranoid_setVar key value locked =
     (Fatal (-1), {| self := self locked; printed := printed p ++ [locked_line] |})
   /\ paranoid_setConfig new overwrite locked =
        (Fatal (-1), {| self := self locked; printed := printed p ++ [locked_line] |})
   /\ _config (self locked) = _config (self p)
   /\ forall name, queryConfig (self locked) name = queryConfig (self p) name)
  /\ (_configLock (self p) = false ->
      exists s',
        paranoid_setVar key value p = (Ok tt, {| self := s'; printed := printed p |})
        /\ _configLock s' = false
        /\ (key <> "" -> queryConfig s' (Some key) = Item value)
        /\ (key = "" -> queryConfig s' (Some key) = Whole (<[key := value]> (_config (self p))))
        /\ forall other, other <> key -> _config s' !! other = _config (self p) !! other).
Proof.
  intros locked. split; [split; [|split; [|split]]|].
  - reflexivity.
  - reflexivity.
  - reflexivity.
  - intros name. reflexivity.
  - intros Hunlocked.
    unfold paranoid_setVar, _checkConfigLock, mbind, get_self, set_self, mret.
    rewrite Hunlocked. eexists. split; [reflexivity|].
    split; [exact Hunlocked|]. cbn. split; [|split].
    + intros Hk. apply String.eqb_neq in Hk. rewrite Hk, lookup_insert_eq. reflexivity.
    + intros ->. reflexivity.
    + intros other Hne. rewrite lookup_insert_ne by congruence. reflexivity.
Qed.
End PyConfigLock.

Section PyConfigLogging.
Import Py PyConfig.
Import Harness (result, Ok, Fatal, Raise).
Context {Self : Type} `{ConfigObject Self}.

Lemma log_plain (message level : string) (exitCode : Z) (p : process Self) :
  logObj (self p) = None ->
  log message level exitCode p =
    (if String.eqb level "info" then print stdout message
     else if String.eqb level "debug" then print stdout ("DEBUG: " +:+ message)
     else if (String.eqb level "warning" || String.eqb level "error"
              || String.eqb level "critical")%bool
     then print stderr (upper level +:+ ": " +:+ message)
     else if String.eqb level "fatal" then
       mbind (print stderr ("FATAL: " +:+ message)) (fun _ => sys_exit exitCode)
     else mret tt) p.
Proof. intros Hlog. unfold log, mbind at 1, get_self. rewrite Hlog. reflexivity. Qed.

(** X4.  Without a logger object, [log] ends the process exactly for the
    level [fatal], with the exit code it was given, after printing the
    message on the error stream; the levels [warning], [error] and
    [critical] print one line headed by the level in capitals; a level it
    does not know is dropped without a trace. *)
Theorem log_levels (message level : string) (exitCode : Z) (p : process Self) :
  logObj (self p) = None ->
  (forall c, fst (log message level exitCode p) = Fatal c
             <-> level = "fatal" /\ c = exitCode)
  /\ (level = "fatal" ->
      snd (log message level exitCode p) =
        {| self := self p; printed := printed p ++ [Print stderr ("FATAL: " +:+ message)] |})
  /\ (known_level level = false -> log message level exitCode p = (Ok tt, p))
  /\ warning message p =
       (Ok tt, {| self := self p;
                  printed := printed p ++ [Print stderr ("WARNING: " +:+ message)] |})
  /\ warn message p = warning message p
  /\ error message p =
       (Ok tt, {| self := self p;
                  printed := printed p ++ [Print stderr ("ERROR: " +:+ message)] |})
  /\ critical message p =
       (Ok tt, {| self := self p;
                  printed := printed p ++ [Print stderr ("CRITICAL: " +:+ message)] |}).
Proof.
  intros Hlog.
  split; [|split; [|split; [|split; [|split; [|split]]]]].
  - intros c. rewrite (log_plain _ _ _ _ Hlog).
    destruct (String.eqb_spec level "info") as [->|_]; [split; [discriminate|intros [[=] _]]|].
    destruct (String.eqb_spec level "debug") as [->|_]; [split; [discriminate|intros [[=] _]]|].
    destruct (String.eqb_spec level "warning") as [->|_]; [split; [discriminate|intros [[=] _]]|].
    destruct (String.eqb_spec level "error") as [->|_]; [split; [discriminate|intros [[=] _]]|].
    destruct (String.eqb_spec level "critical") as [->|_]; [split; [discriminate|intros [[=] _]]|].
    cbn [orb].
    destruct (String.eqb_spec level "fatal") as [->|Hne].
    + cbn. split; [intros [= <-]; auto|intros [_ ->]; reflexivity].
    + cbn. split; [discriminate|intros [Hl _]; contradiction].
  - intros ->. rewrite (log_plain _ _ _ _ Hlog). reflexivity.
  - intros Hk. rewrite (log_plain _ _ _ _ Hlog).
    unfold known_level in Hk. apply bool_decide_eq_false in Hk.
    assert (Hnot : forall l, l ∈ ["info"; "debug"; "warning"; "error"; "critical"; "fatal"] ->
                             String.eqb level l = false).
    { intros l Hl. apply String.eqb_neq. intros ->. contradiction. }
    rewrite !Hnot by (apply list_elem_of_In; simpl; tauto).
    reflexivity.
  - unfold warning. rewrite (log_plain _ _ _ _ Hlog). reflexivity.
  - reflexivity.
  - unfold error. rewrite (log_plain _ _ _ _ Hlog). reflexivity.
  - unfold critical. rewrite (log_plain _ _ _ _ Hlog). reflexivity.
Qed.
End PyConfigLogging.

Section PyConfigSetVar.
Import Py PyConfig.
Import Harness (result, Ok, Fatal, Raise).

(** X5.  [BaseConfig.setVar] always stores the value, and reports it with
    a [DEBUG] line exactly when the [logLevel] variable was ["debug"]
    before the assignment: switching debugging on is itself not
    reported, switching it off is. *)
Theorem setVar_reports_under_debug (name : string) (value : pyval) (p : process BaseConfig) :
  base_logObj (self p) = None ->
  let report := Print stdout ("DEBUG: Setting " +:+ name +:+ " to " +:+ str value) in
  exists s',
    setVar name value p =
      (Ok tt,
       {| self := s';
          printed := printed p ++
            (if decide (config (self p) !! "logLevel" = Some (PyStr "debug"))
             then [report] else []) |})
    /\ config s' = <[name := value]> (config (self p))
    /\ base_logObj s' = None.
Proof.
  intros Hlog report. destruct p as [s out]. cbn [self printed] in *.
  unfold setVar, debug, queryVar.
  unfold mbind, get_self, mret, set_self. cbn [self printed queryConfig BaseConfig_object query].
  cbn [String.eqb Ascii.eqb Bool.eqb].
  destruct (config s !! "logLevel") as [v|] eqn:Hv.
  - destruct v as [|b|n|lvl].
    + cbn. rewrite Hv. rewrite decide_False by discriminate.
      rewrite app_nil_r. eexists. split; [reflexivity|]. split; [reflexivity|exact Hlog].
    + destruct b; cbn; rewrite ?Hv; rewrite decide_False by discriminate;
        rewrite app_nil_r; eexists; (split; [reflexivity|]); (split; [reflexivity|exact Hlog]).
    + destruct (negb (n =? 0)%Z) eqn:Hn; cbn; rewrite Hn; cbn; rewrite ?Hv;
        rewrite decide_False by discriminate;
        rewrite app_nil_r; eexists; (split; [reflexivity|]); (split; [reflexivity|exact Hlog]).
    + destruct (String.eqb_spec lvl "debug") as [->|Hne].
      * rewrite decide_True by reflexivity. cbn.
        unfold log, mbind, get_self. cbn [self]. rewrite Hlog. cbn.
        eexists. split; [reflexivity|]. split; [reflexivity|exact Hlog].
      * rewrite decide_False by congruence. rewrite app_nil_r.
        assert (Hskip : forall (k : process BaseConfig -> result unit * process BaseConfig) q,
                  match lvl with
                  | "debug" => k
                  | _ => mret tt
                  end q = (Ok tt, q)).
        { intros k q. clear -Hne.
          repeat (destruct lvl as [|[[] [] [] [] [] [] [] []] lvl]; try reflexivity).
          contradiction. }
        destruct (truthy (PyStr lvl)); cbn; rewrite ?Hv; rewrite Hskip;
          eexists; (split; [reflexivity|]); (split; [reflexivity|exact Hlog]).
  - cbn. rewrite Hv. rewrite decide_False by discriminate. rewrite app_nil_r.
    eexists. split; [reflexivity|]. split; [reflexivity|exact Hlog].
Qed.
End PyConfigSetVar.

Section PyConfigParser.
Import Py PyConfig.



End PyConfigParser.

Section PyConfigLogger.
Import Py PyConfig.
Import Harness (result, Ok, Fatal, Raise).

Lemma override_fold_lookup (s : BaseConfig) (base : gmap string pyval)
    (keys : list string) (key : string) :
  key <> "" ->
  foldr (override_setting s) base keys !! key =
    if decide (key ∈ keys) then
      match config s !! key with
      | Some value => if truthy value then Some value else base !! key
      | None => base !! key
      end
    else base !! key.
Proof.
  intros Hkey. induction keys as [|k keys IH].
  - cbn. rewrite decide_False by apply not_elem_of_nil. reflexivity.
  - cbn [foldr]. unfold override_setting at 1. cbn [queryConfig BaseConfig_object query].
    destruct (String.eqb_spec k "") as [->|Hk].
    + rewrite IH. destruct (decide (key ∈ keys)) as [Hin|Hnin].
      * rewrite decide_True by (apply elem_of_cons; auto). reflexivity.
      * rewrite decide_False; [reflexivity|].
        intros [Heq|Hin]%elem_of_cons; [congruence|contradiction].
    + destruct (decide (k = key)) as [->|Hne].
      * rewrite decide_True by (apply elem_of_cons; auto).
        destruct (config s !! key) as [v|]; cbn [truthy].
        -- destruct (truthy v).
           ++ apply lookup_insert_eq.
           ++ rewrite IH. destruct (decide (key ∈ keys)); reflexivity.
        -- rewrite IH. destruct (decide (key ∈ keys)); reflexivity.
      * assert (Hrest : (match match config s !! k with
                               | Some v => Item v
                               | None => Item PyNone
                               end with
                         | Item value =>
                             if truthy value
                             then <[k := value]> (foldr (override_setting s) base keys)
                             else foldr (override_setting s) base keys
                         | Whole _ => foldr (override_setting s) base keys
                         end) !! key = foldr (override_setting s) base keys !! key).
        { destruct (config s !! k) as [v|]; cbn [truthy]; [|reflexivity].
          destruct (truthy v); [|reflexivity].
          apply lookup_insert_ne. exact Hne. }
        rewrite Hrest, IH.
        destruct (decide (key ∈ keys)) as [Hin|Hnin].
        -- rewrite decide_True by (apply elem_of_cons; auto). reflexivity.
        -- rewrite decide_False; [reflexivity|].
           intros [Heq|Hin]%elem_of_cons; [congruence|contradiction].
Qed.

(** X7.  [newLogObj] makes the logger from the five default settings: a
    setting takes the value of the configuration variable of the same
    name when that variable is set and true, keeps its default otherwise,
    and no variable adds a setting of its own.  The configuration itself
    is left as it was. *)
Theorem newLogObj_settings (p : process BaseConfig) :
  exists settings,
    newLogObj p =
      (Ok tt, {| self := {| config := config (self p); base_logObj := Some settings |};
                 printed := printed p |})
    /\ dom settings = dom log_defaults
    /\ forall key default,
         log_defaults !! key = Some default ->
         settings !! key =
           match config (self p) !! key with
           | Some value => if truthy value then Some value else Some default
           | None => Some default
           end.
Proof.
  assert (H0 : log_defaults !! "" = None) by (vm_compute; reflexivity).
  revert H0. lazy beta iota zeta delta [newLogObj mbind get_self set_self].
  generalize log_defaults. intros defaults H0.
  set (keys := map fst (map_to_list defaults)).
  exists (foldr (override_setting (self p)) defaults keys).
  split; [reflexivity|].
  assert (Hkeys : forall key, key ∈ keys <-> is_Some (defaults !! key)).
  { intros key. subst keys. rewrite list_elem_of_In, in_map_iff. split.
    - intros ([k v] & <- & Hin). apply list_elem_of_In, elem_of_map_to_list in Hin.
      cbn. eauto.
    - intros [v Hv]. exists (key, v). split; [reflexivity|].
      apply list_elem_of_In, elem_of_map_to_list. exact Hv. }
  assert (Hne : forall key, is_Some (defaults !! key) -> key <> "").
  { intros key [v Hv] ->. congruence. }
  assert (Hlookup : forall key,
            foldr (override_setting (self p)) defaults keys !! key =
              match defaults !! key with
              | Some default =>
                  match config (self p) !! key with
                  | Some value => if truthy value then Some value else Some default
                  | None => Some default
                  end
              | None => None
              end).
  { intros key. destruct (defaults !! key) as [default|] eqn:Hd.
    - rewrite override_fold_lookup by (apply Hne; eauto).
      rewrite decide_True by (apply Hkeys; eauto). rewrite Hd. reflexivity.
    - destruct (decide (key = "")) as [->|Hk].
      + (* the empty name is not a default and no turn of the loop stores it *)
        clear Hkeys. induction keys as [|k ks IH]; [exact Hd|].
        cbn [foldr]. unfold override_setting at 1.
        cbn [queryConfig BaseConfig_object query].
        destruct (String.eqb_spec k "") as [->|Hk0]; [exact IH|].
        destruct (config (self p) !! k) as [v|]; cbn [truthy]; [|exact IH].
        destruct (truthy v); [|exact IH].
        rewrite lookup_insert_ne by assumption. exact IH.
      + rewrite override_fold_lookup by assumption.
        rewrite decide_False; [exact Hd|].
        intros Hin%Hkeys. rewrite Hd in Hin. destruct Hin; discriminate. }
  split.
  - apply set_eq. intros key. rewrite !elem_of_dom. rewrite Hlookup.
    destruct (defaults !! key) as [default|].
    + split; [eauto|]. intros _.
      destruct (config (self p) !! key) as [v|]; [destruct (truthy v)|]; eauto.
    + reflexivity.
  - intros key default Hd. rewrite Hlookup, Hd. reflexivity.
Qed.
End PyConfigLogger.

Section PyConfigPlainFile.
Import Py PyConfig.
Import Harness (result, Ok, Fatal, Raise).













End PyConfigPlainFile.

Section PyConfigWitnesses.
Import Py PyConfig PyConfigExample.
Import Harness (result, Ok, Fatal, Raise).

Lemma mapConfig_lookup_witness :
  overrides !! "key2" = Some (PyStr "value2override")
  /\ mapConfig test_json overrides !! "key2" = Some (PyStr "value2override")
  /\ overrides !! "key1" = None
  /\ mapConfig test_json overrides !! "key1" = test_json !! "key1".
Proof.
  destruct (mapConfig_lookup test_json overrides) as (Hnew & Hold & _).
  assert (H2 : overrides !! "key2" = Some (PyStr "value2override"))
    by (vm_compute; reflexivity).
  assert (H1 : overrides !! "key1" = None) by (vm_compute; reflexivity).
  split; [exact H2|]. split; [exact (Hnew _ _ H2)|]. split; [exact H1|exact (Hold _ H1)].
Defined.

Lemma paranoid_lock_witness :
  _configLock (self (started paranoid_object)) = false
  /\ fst (paranoid_setVar "thisShouldFail" (PyStr "miserably")
            (snd (lockConfig (started paranoid_object)))) = Fatal (-1)
  /\ exists s',
       paranoid_setVar "key3" (PyStr "value3") (started paranoid_object)
         = (Ok tt, {| self := s'; printed := [] |})
       /\ queryConfig s' (Some "key3") = Item (PyStr "value3").
Proof.
  assert (Hu : _configLock (self (started paranoid_object)) = false) by reflexivity.
  destruct (paranoid_lock (started paranoid_object) "thisShouldFail" (PyStr "miserably")
              ∅ false) as ((Hset & _) & _).
  destruct (paranoid_lock (started paranoid_object) "key3" (PyStr "value3") ∅ false)
    as (_ & Hunlocked).
  destruct (Hunlocked Hu) as (s' & Hrun & _ & Hquery & _).
  split; [exact Hu|]. split; [rewrite Hset; reflexivity|].
  exists s'. split; [exact Hrun|]. apply Hquery. discriminate.
Defined.

Lemma log_levels_witness :
  logObj (self (started quiet_object)) = None
  /\ fst (log "exiting" "fatal" 3 (started quiet_object)) = Fatal 3
  /\ known_level "warn" = false
  /\ log "dropped" "warn" (-1) (started quiet_object) = (Ok tt, started quiet_object).
Proof.
  assert (Hlog : logObj (self (started quiet_object)) = None) by reflexivity.
  destruct (log_levels "exiting" "fatal" 3 (started quiet_object) Hlog) as (Hfatal & _).
  destruct (log_levels "dropped" "warn" (-1) (started quiet_object) Hlog)
    as (_ & _ & Hdrop & _).
  assert (Hk : known_level "warn" = false) by (vm_compute; reflexivity).
  split; [exact Hlog|]. split; [apply Hfatal; auto|]. split; [exact Hk|exact (Hdrop Hk)].
Defined.

Lemma setVar_reports_under_debug_witness :
  base_logObj (self (started quiet_object)) = None
  /\ printed (snd (setVar "logLevel" (PyStr "debug") (started quiet_object))) = []
  /\ printed (snd (setVar "logLevel" (PyStr "info") (started debugging_object)))
     = [Print stdout "DEBUG: Setting logLevel to info"].
Proof.
  assert (Hq : base_logObj (self (started quiet_object)) = None) by reflexivity.
  assert (Hd : base_logObj (self (started debugging_object)) = None) by reflexivity.
  destruct (setVar_reports_under_debug "logLevel" (PyStr "debug") (started quiet_object) Hq)
    as (s1 & Hrun1 & _).
  destruct (setVar_reports_under_debug "logLevel" (PyStr "info") (started debugging_object) Hd)
    as (s2 & Hrun2 & _).
  split; [exact Hq|]. rewrite Hrun1, Hrun2. split; vm_compute; reflexivity.
Defined.

Lemma newLogObj_settings_witness :
  log_defaults !! "logLevel" = Some (PyStr "info")
  /\ exists settings,
       base_logObj (self (snd (newLogObj (started debugging_object)))) = Some settings
       /\ settings !! "logLevel" = Some (PyStr "debug")
       /\ settings !! "key1" = None.
Proof.
  assert (Hdefault : log_defaults !! "logLevel" = Some (PyStr "info"))
    by (vm_compute; reflexivity).
  destruct (newLogObj_settings (started debugging_object)) as (settings & Hrun & Hdom & Hset).
  split; [exact Hdefault|]. exists settings. rewrite Hrun. split; [reflexivity|]. split.
  - rewrite (Hset _ _ Hdefault). vm_compute. reflexivity.
  - apply not_elem_of_dom. rewrite Hdom. vm_compute. intros H. 
    repeat match goal with H : _ \/ _ |- _ => destruct H end; discriminate.
Defined.

End PyConfigWitnesses.

(** ** More on the build script *)

Section SplitFacts.
Import Py Behaviour.

Lemma split_nonempty (sep : ascii) (s : string) : split sep s <> [].
Proof.
  destruct s as [|c r]; cbn [split]; [discriminate|].
  destruct (Ascii.eqb c sep); [discriminate|].
  destruct (split sep r); discriminate.
Qed.

Lemma length_split (sep : ascii) (s : string) :
  length (split sep s) = S (count_char sep s).
Proof.
  induction s as [|c r IH]; [reflexivity|].
  cbn [split count_char]. destruct (Ascii.eqb c sep).
  - cbn [length]. rewrite IH. reflexivity.
  - destruct (split sep r) as [|piece pieces] eqn:Hs.
    + exfalso. apply (split_nonempty sep r Hs).
    + cbn [length] in *. rewrite IH. reflexivity.
Qed.

Lemma split_pieces_no_sep (sep : ascii) (s : string) :
  Forall (fun piece => count_char sep piece = 0%nat) (split sep s).
Proof.
  induction s as [|c r IH]; [repeat constructor|].
  cbn [split]. destruct (Ascii.eqb c sep) eqn:Hc.
  - constructor; [reflexivity|exact IH].
  - destruct (split sep r) as [|piece pieces].
    + constructor; [|constructor]. cbn. rewrite Hc. reflexivity.
    + inversion IH as [|? ? Hp Hps]; subst. constructor; [|exact Hps].
      cbn. rewrite Hc. exact Hp.
Qed.

Lemma append_cons (c : ascii) (a b : string) : String c a +:+ b = String c (a +:+ b).
Proof. reflexivity. Qed.

(** The last piece of a split is what follows the last separator. *)
Lemma last_split_suffix (sep : ascii) (s : string) :
  exists before,
    s = before +:+ List.last (split sep s) EmptyString
    /\ (before = EmptyString \/ exists b, before = b +:+ String sep EmptyString).
Proof.
  induction s as [|c r IH]; [exists EmptyString; auto|].
  destruct IH as (before & Hs & Hb).
  cbn [split]. destruct (Ascii.eqb_spec c sep) as [->|Hc].
  - assert (Hlast : List.last (EmptyString :: split sep r) EmptyString
                    = List.last (split sep r) EmptyString).
    { pose proof (split_nonempty sep r). destruct (split sep r); [contradiction|reflexivity]. }
    rewrite Hlast. exists (String sep before). split.
    + rewrite append_cons. f_equal. exact Hs.
    + right. destruct Hb as [->|(b & ->)].
      * exists EmptyString. reflexivity.
      * exists (String sep b). reflexivity.
  - destruct (split sep r) as [|piece pieces] eqn:Hsplit.
    + exfalso. apply (split_nonempty sep r Hsplit).
    + destruct pieces as [|p ps].
      * cbn [List.last] in *. exists EmptyString. split; [|auto].
        destruct Hb as [->|(b & ->)].
        -- change (EmptyString +:+ ?x) with x in *. f_equal. exact Hs.
        -- (* a single piece: [r] holds no separator *)
           exfalso. pose proof (length_split sep r) as Hlen.
           rewrite Hsplit in Hlen. cbn [length] in Hlen.
           assert (Hzero : count_char sep r = 0%nat) by lia.
           assert (Hcount : forall a t, count_char sep (a +:+ String sep t) <> 0%nat).
           { intros a t. induction a as [|x a IHa].
             - change (EmptyString +:+ ?y) with y. cbn [count_char].
               rewrite Ascii.eqb_refl. discriminate.
             - rewrite append_cons. cbn [count_char].
               destruct (Ascii.eqb x sep); [discriminate|exact IHa]. }
           assert (Hassoc : forall a b c, (a +:+ b) +:+ c = a +:+ (b +:+ c)).
           { intros a b' c'. induction a as [|x a IHa]; [reflexivity|].
             rewrite !append_cons, IHa. reflexivity. }
           rewrite Hs, Hassoc, append_cons in Hzero.
           apply (Hcount _ _ Hzero).
      * change (List.last (String c piece :: p :: ps) EmptyString)
          with (List.last (p :: ps) EmptyString).
        change (List.last (piece :: p :: ps) EmptyString)
          with (List.last (p :: ps) EmptyString) in Hs.
        exists (String c before). split.
        -- rewrite append_cons. f_equal. exact Hs.
        -- right. destruct Hb as [->|(b & ->)].
           ++ (* [before] is empty only when there is a single piece *)
              exfalso. change (EmptyString +:+ ?x) with x in Hs.
              pose proof (length_split sep r) as Hlen. rewrite Hsplit in Hlen.
              pose proof (split_pieces_no_sep sep r) as Hno. rewrite Hsplit in Hno.
              assert (Hin : List.last (p :: ps) EmptyString ∈ piece :: p :: ps).
              { apply list_elem_of_In. right.
                clear. revert p. induction ps as [|q qs IHq]; intros p'; [left; reflexivity|].
                right. apply IHq. }
              rewrite Forall_forall in Hno. specialize (Hno _ Hin).
              rewrite <- Hs in Hno. rewrite Hno in Hlen. cbn in Hlen. lia.
           ++ exists (String c b). reflexivity.
Qed.
End SplitFacts.

Section QueryFacts.
Import Py Harness B2G Observe Behaviour.
Variable ext : Collaborators.
Variable self : B2GBuild.

(** X9.  Without scheduler properties the branch is the last path
    component of the configured repository: it holds no [/] and the
    repository is some prefix, empty or ending in [/], followed by it.
    With scheduler properties the repository is not consulted: a missing
    [branch] property raises [KeyError]. *)
Theorem query_branch_fallback :
  ((buildbot_config self = None
    \/ exists bc, buildbot_config self = Some bc /\ properties bc = None) ->
   exists branch before,
     query_branch self = Ok (PyStr branch)
     /\ repo (config self) = before +:+ branch
     /\ count_char "/" branch = 0%nat
     /\ (before = EmptyString \/ exists b, before = b +:+ "/"))
  /\ (forall bc props,
        buildbot_config self = Some bc -> properties bc = Some props ->
        query_branch self =
          match props !! "branch" with
          | Some v => Ok v
          | None => Raise KeyError
          end).
Proof.
  split.
  - intros Hno.
    assert (Hq : query_branch self = Ok (PyStr (Path.basename (repo (config self))))).
    { unfold query_branch, query_repo.
      destruct Hno as [->|(bc & -> & Hp)]; [reflexivity|].
      destruct bc as [props ss]. cbn in Hp. subst props. reflexivity. }
    destruct (last_split_suffix Path.sep (repo (config self))) as (before & Hs & Hb).
    exists (Path.basename (repo (config self))), before.
    split; [exact Hq|]. split; [exact Hs|]. split; [|exact Hb].
    unfold Path.basename.
    pose proof (split_pieces_no_sep Path.sep (repo (config self))) as Hall.
    pose proof (split_nonempty Path.sep (repo (config self))) as Hne.
    destruct (split Path.sep (repo (config self))) as [|p ps]; [contradiction|].
    rewrite Forall_forall in Hall. apply Hall. apply list_elem_of_In.
    clear. revert p. induction ps as [|q qs IH]; intros p; [left; reflexivity|].
    right. apply IH.
  - intros bc props Hbc Hp. unfold query_branch. rewrite Hbc.
    destruct bc as [props' ss]. cbn in Hp. subst props'. reflexivity.
Qed.

Lemma strip_prefix_Some (p s rest : string) :
  strip_prefix p s = Some rest -> s = p +:+ rest.
Proof.
  revert s. induction p as [|a p IH]; intros s H.
  - destruct s; injection H as <-; reflexivity.
  - destruct s as [|b s]; [discriminate|]. cbn [strip_prefix] in H.
    destruct (Ascii.eqb_spec a b) as [->|]; [|discriminate].
    rewrite append_cons. f_equal. apply IH, H.
Qed.

Lemma strip_prefix_app (p rest : string) : strip_prefix p (p +:+ rest) = Some rest.
Proof.
  induction p as [|a p IH]; [destruct rest; reflexivity|].
  rewrite append_cons. cbn [strip_prefix]. rewrite Ascii.eqb_refl. exact IH.
Qed.

Lemma first_match_Some {A} (f : string -> option A) (ls : list string) (a : A) :
  first_match f ls = Some a -> exists l, l ∈ ls /\ f l = Some a.
Proof.
  induction ls as [|l ls IH]; [discriminate|]. cbn [first_match].
  destruct (f l) as [a'|] eqn:Hl.
  - intros [= <-]. exists l. split; [apply elem_of_cons; auto|exact Hl].
  - intros H. destruct (IH H) as (l' & Hin & Hf). exists l'.
    split; [apply elem_of_cons; auto|exact Hf].
Qed.

Lemma first_match_None {A} (f : string -> option A) (ls : list string) :
  first_match f ls = None -> forall l, l ∈ ls -> f l = None.
Proof.
  induction ls as [|l ls IH]; intros H l' Hin; [apply elem_of_nil in Hin; contradiction|].
  cbn [first_match] in H. destruct (f l) eqn:Hl; [discriminate|].
  apply elem_of_cons in Hin as [->|Hin]; [exact Hl|apply IH; assumption].
Qed.

Lemma match_digits_line_Some (key line found : string) :
  match_digits_line key line = Some found ->
  line = key +:+ found /\ found <> EmptyString /\ all_digits found = true.
Proof.
  unfold match_digits_line. destruct (strip_prefix key line) as [rest|] eqn:Hp; [|discriminate].
  apply strip_prefix_Some in Hp. destruct rest as [|c r]; [discriminate|].
  destruct (all_digits (String c r)) eqn:Hd; [|discriminate].
  intros [= <-]. split; [exact Hp|]. split; [discriminate|exact Hd].
Qed.

Lemma match_digits_line_app (key found : string) :
  found <> EmptyString -> all_digits found = true ->
  match_digits_line key (key +:+ found) = Some found.
Proof.
  intros Hne Hd. unfold match_digits_line. rewrite strip_prefix_app.
  destruct found; [contradiction|]. rewrite Hd. reflexivity.
Qed.

(** X10.  [query_buildid] raises [TypeError] when [platform.ini] is not
    there.  Otherwise it returns a non-empty string of digits [b] only if
    [BuildID=b] is a whole line of the file, and [None] only if no line
    has that form; it changes nothing. *)
Theorem query_buildid_sound (w : World) :
  (files (fs w) !! platform_ini self = None ->
   query_buildid self w = (Raise TypeError, w))
  /\ (forall f,
        files (fs w) !! platform_ini self = Some f ->
        exists v,
          query_buildid self w = (Ok v, w)
          /\ ((exists b, v = PyStr b /\ b <> EmptyString /\ all_digits b = true
                         /\ ("BuildID=" +:+ b) ∈ split newline (data f))
              \/ (v = PyNone
                  /\ forall b, b <> EmptyString -> all_digits b = true ->
                               ("BuildID=" +:+ b) ∉ split newline (data f)))).
Proof.
  split.
  - intros Hf. unfold query_buildid, bind, read_from_file, search_in. rewrite Hf. reflexivity.
  - intros f Hf. unfold query_buildid, bind, read_from_file, search_in. rewrite Hf.
    cbn [fmap option_fmap option_map]. unfold ret, search_line.
    destruct (first_match (match_digits_line "BuildID=") (split newline (data f)))
      as [b|] eqn:Hm.
    + eexists. split; [reflexivity|]. left.
      destruct (first_match_Some _ _ _ Hm) as (l & Hin & Hl).
      apply match_digits_line_Some in Hl as (-> & Hne & Hd).
      exists b. auto.
    + eexists. split; [reflexivity|]. right. split; [reflexivity|].
      intros b Hne Hd Hin.
      pose proof (first_match_None _ _ Hm _ Hin) as Hnone.
      rewrite (match_digits_line_app "BuildID=" b Hne Hd) in Hnone. discriminate.
Qed.

(** X11.  [query_version] returns [s] only if [Version=s] is a whole line
    of [application.ini] with [s] not empty, so [s] holds no line break;
    it returns [None] only if the file has no such line, and raises
    [TypeError] when the file is not there. *)
Theorem query_version_sound (w : World) :
  (files (fs w) !! application_ini self = None ->
   query_version self w = (Raise TypeError, w))
  /\ (forall f,
        files (fs w) !! application_ini self = Some f ->
        exists v,
          query_version self w = (Ok v, w)
          /\ ((exists s, v = PyStr s /\ s <> EmptyString
                         /\ count_char newline s = 0%nat
                         /\ ("Version=" +:+ s) ∈ split newline (data f))
              \/ (v = PyNone
                  /\ forall s, s <> EmptyString ->
                               ("Version=" +:+ s) ∉ split newline (data f)))).
Proof.
  assert (Hcount : forall a b, count_char newline (a +:+ b) = 0%nat ->
                               count_char newline b = 0%nat).
  { intros a b. induction a as [|x a IH]; [auto|].
    rewrite append_cons. cbn [count_char]. intros H. apply IH. lia. }
  split.
  - intros Hf. unfold query_version, bind, read_from_file, search_in. rewrite Hf. reflexivity.
  - intros f Hf. unfold query_version, bind, read_from_file, search_in. rewrite Hf.
    cbn [fmap option_fmap option_map]. unfold ret, search_line.
    destruct (first_match (match_any_line "Version=") (split newline (data f)))
      as [s|] eqn:Hm.
    + eexists. split; [reflexivity|]. left.
      destruct (first_match_Some _ _ _ Hm) as (l & Hin & Hl).
      unfold match_any_line in Hl.
      destruct (strip_prefix "Version=" l) as [rest|] eqn:Hp; [|discriminate].
      apply strip_prefix_Some in Hp. destruct rest as [|c r]; [discriminate|].
      injection Hl as <-. subst l.
      exists (String c r). split; [reflexivity|]. split; [discriminate|]. split; [|exact Hin].
      pose proof (split_pieces_no_sep newline (data f)) as Hall.
      rewrite Forall_forall in Hall.
      apply (Hcount "Version="), (Hall _ Hin).
    + eexists. split; [reflexivity|]. right. split; [reflexivity|].
      intros s Hne Hin.
      pose proof (first_match_None _ _ Hm _ Hin) as Hnone.
      unfold match_any_line in Hnone. rewrite strip_prefix_app in Hnone.
      destruct s; [contradiction|discriminate].
Qed.
End QueryFacts.

Section UploadEdges.
Import Py Harness B2G Observe Behaviour.
Variable ext : Collaborators.
Variable self : B2GBuild.

(** X12.  Outside try mode, when [platform.ini] is there but has no
    [BuildID=<digits>] line, the upload is not stopped: the build
    identifier is formatted as ["None"], the destination is
    [basepath/branch-target/None] and the transfer towards it is
    started. *)
Theorem upload_without_buildid (w : World) (branch : pyval) (f : file) :
  enable_try_uploads (config self) = false ->
  query_branch self = Ok branch ->
  files (fs w) !! platform_ini self = Some f ->
  (forall b, b <> EmptyString -> all_digits b = true ->
             ("BuildID=" +:+ b) ∉ split newline (data f)) ->
  let path := str (upload_remote_basepath (config self)) +:+ "/"
              +:+ str branch +:+ "-" +:+ target (config self) +:+ "/None" in
  upload_path self w = (Ok path, w)
  /\ exists w' rest,
       upload ext self w = (Ok tt, w')
       /\ trace w' = trace w ++ Rsync (upload_transfer self path)
                                  (rsync_failure ext w (upload_transfer self path)) :: rest.
Proof.
  intros Ht Hb Hf Hnone path.
  assert (Hid : query_buildid self w = (Ok PyNone, w)).
  { unfold query_buildid, bind, read_from_file, search_in. rewrite Hf.
    cbn [fmap option_fmap option_map]. unfold ret, search_line.
    destruct (first_match (match_digits_line "BuildID=") (split newline (data f)))
      as [b|] eqn:Hm; [|reflexivity].
    exfalso. destruct (first_match_Some _ _ _ Hm) as (l & Hin & Hl).
    apply match_digits_line_Some in Hl as (-> & Hne & Hd).
    apply (Hnone b Hne Hd Hin). }
  assert (Hp : upload_path self w = (Ok path, w)).
  { unfold upload_path, bind, lift, ret. rewrite Ht, Hb, Hid. reflexivity. }
  split; [exact Hp|].
  apply upload_completes. rewrite Hp. reflexivity.
Qed.

(** X13.  The ["unknown"] fallback of a try upload covers [KeyError]
    only.  With an empty change list the submitter lookup raises
    [IndexError], without scheduler properties at all it raises
    [TypeError]; either way [upload] ends with that exception and
    nothing is logged or transferred. *)
Theorem upload_submitter_errors_not_caught (w : World) :
  enable_try_uploads (config self) = true ->
  (forall bc ss,
     buildbot_config self = Some bc -> sourcestamp bc = Some ss -> changes ss = Some [] ->
     upload ext self w = (Raise IndexError, w))
  /\ (buildbot_config self = None -> upload ext self w = (Raise TypeError, w)).
Proof.
  intros Ht. split.
  - intros bc ss Hbc Hss Hch.
    unfold upload, bind, upload_path, try_except, lift, changes_who.
    rewrite Ht, Hbc, Hss, Hch. reflexivity.
  - intros Hbc.
    unfold upload, bind, upload_path, try_except, lift, changes_who.
    rewrite Ht, Hbc. reflexivity.
Qed.
End UploadEdges.

Section UnpackEdges.
Import Py Harness B2G Observe Behaviour.
Variable ext : Collaborators.
Variable self : B2GBuild.

(** X14.  A snapshot that is not there makes [unpack_gonk] raise
    [OSError] before anything is run.  An extraction that fails ends the
    stage with exit code 2 right after the [tar] command: the
    fingerprint is not written, so the next run does not take the
    snapshot for unpacked on account of this one. *)
Theorem unpack_gonk_failures (w : World) :
  (files (fs w) !! snapshot_path self = None ->
   unpack_gonk ext self w = (Raise OSError, w))
  /\ (forall m,
        snapshot_mtime self w = Some m ->
        fingerprint self w <> Some m ->
        exit_status ext w (extraction self) <> 0 ->
        let tar := Exec (extraction self) (exit_status ext w (extraction self)) in
        exists w',
          unpack_gonk ext self w = (Fatal 2, w')
          /\ trace w' = trace w ++ [tar; Log FATAL "failed to unpack gonk"]
          /\ fs w' = fs_after ext w tar).
Proof.
  split.
  - intros Hs. unfold unpack_gonk, bind, getmtime. rewrite Hs. reflexivity.
  - intros m Hs Hf Hst tar.
    rewrite (unpack_gonk_proceed ext self w m Hs Hf).
    apply Z.eqb_neq in Hst. rewrite Hst. cbn [negb].
    eexists. split; [reflexivity|]. split.
    + unfold extracted. cbn. rewrite <- app_assoc. reflexivity.
    + reflexivity.
Qed.
End UnpackEdges.

Section SigningFacts.
Import Py Harness B2G Observe Behaviour.
Variable ext : Collaborators.
Variable self : B2GBuild.

Lemma flat_map_hosts_length (hosts : list string) :
  length (flat_map (fun h => ["-H"; h]) hosts) = (2 * length hosts)%nat.
Proof. induction hosts as [|h hs IH]; cbn [flat_map length app]; [reflexivity|]. rewrite IH. lia. Qed.

(** X15.  With [MOZ_SIGNING_SERVERS] set, [sign_updates] checks out the
    tools, records their revision as the [tools_revision] property and
    runs one signing command: the fixed [signtool.py] arguments, then
    [-H host] for each piece of the variable between commas, in order,
    then the update package.  There is one host more than there are
    commas, so an empty variable still names one (empty) host, and the
    package is the last argument.  The stage returns exactly when the
    command's status is 0 and is fatal with code 2 otherwise. *)
Theorem sign_updates_command (w : World) (servers : string) :
  environ w !! "MOZ_SIGNING_SERVERS" = Some servers ->
  let hosts := split "," servers in
  let cmd :=
    {| mock_target := None;
       argv := (signtool ext self ++ flat_map (fun h => ["-H"; h]) hosts) ++ [marfile self];
       cwd := None; env := None; error_list := None |} in
  exists rev status w',
    sign_updates ext self w = ((if Z.eqb status 0 then Ok tt else Fatal 2), w')
    /\ trace w' = trace w ++
         [ Log INFO "Checking out tools";
           VcsCheckout (tools_repo (config self))
             (Path.join (abs_work_dir (query_abs_dirs self)) "tools") "hgtool" rev;
           SetBuildbotProperty "tools_revision" rev;
           Exec cmd status ]
         ++ (if Z.eqb status 0 then [] else [Log FATAL "failed to sign complete update"])
    /\ buildbot_properties w' !! "tools_revision" = Some rev
    /\ length hosts = S (count_char "," servers)
    /\ Forall (fun h => count_char "," h = 0%nat) hosts
    /\ List.last (argv cmd) EmptyString = marfile self
    /\ length (argv cmd) = (length (signtool ext self) + 2 * length hosts + 1)%nat.
Proof.
  intros Henv hosts cmd.
  assert (Hfacts : length hosts = S (count_char "," servers)
                   /\ Forall (fun h => count_char "," h = 0%nat) hosts
                   /\ List.last (argv cmd) EmptyString = marfile self
                   /\ length (argv cmd)
                      = (length (signtool ext self) + 2 * length hosts + 1)%nat).
  { split; [apply length_split|]. split; [apply split_pieces_no_sep|]. split.
    - cbn [argv cmd]. apply last_last.
    - cbn [argv cmd]. rewrite !length_app, flat_map_hosts_length. cbn [length]. lia. }
  unfold sign_updates, bind, get, info, log, vcs_checkout, set_buildbot_property,
    lift, getitem, run_command, execute, fatal, ret.
  rewrite Henv. cbn [environ with_fs record_event]. rewrite Henv.
  change (Path.joins (abs_work_dir (query_abs_dirs self)) ["tools"; "release"; "signing"])
    with (Path.joins (abs_work_dir (query_abs_dirs self)) ["tools"; "release"; "signing"]).
  fold hosts.
  match goal with |- context [exit_status ext ?w3 ?c] =>
    change c with cmd; set (status := exit_status ext w3 cmd) end.
  match goal with |- context [checkout_rev ext ?w1 ?a ?b ?c] =>
    set (rev := checkout_rev ext w1 a b c) end.
  exists rev, status.
  destruct (Z.eqb status 0) eqn:Hst; cbn [negb].
  - eexists. split; [reflexivity|]. split; [|split; [|exact Hfacts]].
    + cbn [trace with_fs record_event]. rewrite <- !app_assoc. reflexivity.
    + cbn [buildbot_properties with_fs record_event]. apply lookup_insert_eq.
  - eexists. split; [reflexivity|]. split; [|split; [|exact Hfacts]].
    + cbn [trace with_fs record_event]. rewrite <- !app_assoc. reflexivity.
    + cbn [buildbot_properties with_fs record_event]. apply lookup_insert_eq.
Qed.

(** X16.  [make_updates] with a descriptor that names a [mock_target]
    but no [mock_packages] raises [KeyError]: the [.userconfig] file has
    been written by then, and no command has been run. *)
Theorem make_updates_without_mock_packages (w w1 : World) (gc : GeckoConfig) (mock : string) :
  nightly_build self = true ->
  load_gecko_config ext self w = (Ok gc, w1) ->
  gc_mock_target gc = Some mock ->
  mock_packages gc = None ->
  exists w',
    make_updates ext self w = (Raise KeyError, w')
    /\ trace w' = trace w ++
         [WriteToFile (Path.join (work_dir (query_abs_dirs self)) ".userconfig")
            (userconfig_contents self)]
    /\ invocations (trace w') = invocations (trace w).
Proof.
  intros Hn Hload Hmock Hpk.
  pose proof (load_gecko_config_trace ext self w) as Ht. rewrite Hload in Ht. cbn [snd] in Ht.
  unfold make_updates, query_is_nightly. rewrite Hn. cbn [negb].
  unfold bind at 1. rewrite Hload.
  unfold bind at 1. unfold write_to_file.
  unfold bind at 1. rewrite Hmock. unfold bind at 1. rewrite Hpk. cbn [field lift].
  eexists. split; [reflexivity|].
  cbn [trace with_fs record_event]. rewrite Ht. split; [reflexivity|].
  unfold invocations. rewrite filter_app, length_app.
  rewrite filter_cons_False by (cbn; congruence). rewrite filter_nil. cbn. lia.
Qed.
End SigningFacts.

Section StagingFacts.
Import Py Harness B2G Observe Behaviour.
Variable ext : Collaborators.
Variable self : B2GBuild.

(** X17.  [collect_files] returns the matches of the patterns in the
    order of the patterns, each pattern formatted first and globbed on
    the file system as it is; if a pattern does not format, its error is
    raised and no list is returned.  The world is left as it was. *)
Theorem collect_files_in_order (patterns : list string) (w : World) :
  collect_files ext self patterns w =
    (match format_all ext self patterns with
     | inr formatted => Ok (flat_map (glob ext (fs w)) formatted)
     | inl e => Raise e
     end, w).
Proof.
  induction patterns as [|p ps IH]; [reflexivity|].
  cbn [collect_files format_all].
  destruct (format_pattern ext p _ _ _) as [e|q]; [reflexivity|].
  unfold bind, get, ret. rewrite IH.
  destruct (format_all ext self ps) as [e|qs]; reflexivity.
Qed.

(** X18.  When there is something to bundle, [zip_up] makes a temporary
    directory and removes it again whatever happens in between: the
    removal is the last thing in the trace both when the archive was made
    and staged and when [zip] failed, in which case the stage is fatal
    with the default exit code and the archive is not staged.  With
    nothing to bundle it does nothing at all. *)
Theorem zip_up_cleans_up (file : string) (files : list string) (w : World) :
  zip_up ext self [] w = (Ok tt, w)
  /\ exists tmpdir middle r w',
       zip_up ext self (file :: files) w = (r, w')
       /\ trace w' = trace w
            ++ [Log INFO ("creating " +:+ zip_name self); Mkdtemp tmpdir]
            ++ middle
            ++ [Log DEBUG ("removing " +:+ tmpdir); Rmtree tmpdir]
       /\ ((r = Ok tt /\ staged middle = [zip_name self])
           \/ (r = Fatal default_exit_code /\ staged middle = [])).
Proof.
  split; [reflexivity|].
  unfold zip_up.
  unfold bind at 1. unfold info at 1, log at 1.
  unfold bind at 1. unfold tempfile_mkdtemp at 1.
  set (w0 := record_event (Log INFO ("creating " +:+ zip_name self)) w).
  set (tmpdir := mkdtemp ext w0).
  set (w1 := with_fs (fs_after ext w0 (Mkdtemp tmpdir)) (record_event (Mkdtemp tmpdir) w0)).
  set (zip_dir := Path.join tmpdir "b2g-distro").
  set (wm := with_fs (fs_after ext w1 (MkdirP zip_dir)) (record_event (MkdirP zip_dir) w1)).
  destruct (for_each_copyfile ext (file :: files)
              (fun f => Path.join zip_dir (Path.basename f)) wm)
    as (w2 & copies & Hcopy & Ht2 & Hs2).
  set (zip := {| mock_target := None;
                 argv := ["zip"; "-r"; "-9"; "-u"; zip_name self; "b2g-distro"];
                 cwd := Some tmpdir; env := None; error_list := None |}).
  set (status := exit_status ext w2 zip).
  assert (Hbody :
    (mkdir_p ext zip_dir ;;
     for_each (file :: files) (fun f => copyfile ext f (Path.join zip_dir (Path.basename f))) ;;
     status <- run_command ext ["zip"; "-r"; "-9"; "-u"; zip_name self; "b2g-distro"]
                 (Some tmpdir) None None ;;
     (if negb (Z.eqb status 0) then fatal "problem zipping up files" default_exit_code
      else ret tt) ;;
     copy_to_upload_dir ext (zip_name self) None)%script w1
    = let w3 := with_fs (fs_after ext w2 (Exec zip status)) (record_event (Exec zip status) w2) in
      if Z.eqb status 0
      then (Ok tt, with_fs (fs_after ext w3 (CopyToUploadDir (zip_name self) None))
                     (record_event (CopyToUploadDir (zip_name self) None) w3))
      else (Fatal default_exit_code, record_event (Log FATAL "problem zipping up files") w3)).
  { unfold bind at 1. unfold mkdir_p at 1, called at 1. fold wm.
    unfold bind at 1. rewrite Hcopy.
    unfold bind at 1. unfold run_command, execute. fold zip. fold status.
    destruct (Z.eqb status 0); reflexivity. }
  unfold try_finally. fold zip_dir. rewrite Hbody. cbv zeta.
  exists tmpdir.
  destruct (Z.eqb status 0).
  - exists ([MkdirP zip_dir] ++ copies ++ [Exec zip status; CopyToUploadDir (zip_name self) None]).
    eexists _, _. split; [reflexivity|]. split.
    + cbn [trace with_fs record_event debug log bind rmtree called snd fst].
      rewrite Ht2. subst wm w1 w0. cbn [trace with_fs record_event].
      rewrite <- !app_assoc. reflexivity.
    + left. split; [reflexivity|]. rewrite !staged_app, Hs2. reflexivity.
  - exists ([MkdirP zip_dir] ++ copies
            ++ [Exec zip status; Log FATAL "problem zipping up files"]).
    eexists _, _. split; [reflexivity|]. split.
    + cbn [trace with_fs record_event debug log bind rmtree called snd fst].
      rewrite Ht2. subst wm w1 w0. cbn [trace with_fs record_event].
      rewrite <- !app_assoc. reflexivity.
    + right. split; [reflexivity|]. rewrite !staged_app, Hs2. reflexivity.
Qed.
End StagingFacts.

Section UpdateFiles.
Import Py Harness B2G Observe Behaviour.
Variable ext : Collaborators.
Variable self : B2GBuild.

Lemma query_buildid_by_fs (w w' : World) :
  fs w' = fs w -> fst (query_buildid self w') = fst (query_buildid self w).
Proof.
  intros Hfs. unfold query_buildid, bind, read_from_file, search_in. rewrite Hfs.
  destruct (data <$> files (fs w) !! platform_ini self); reflexivity.
Qed.

Lemma query_version_reads (w : World) : snd (query_version self w) = w.
Proof.
  unfold query_version, bind, read_from_file, search_in.
  destruct (data <$> files (fs w) !! application_ini self); reflexivity.
Qed.

(** X19.  A [make_update_xml] that completes in a nightly build with an
    [update] section has, in this order, removed the updates directory,
    generated the manifest and staged three files in that directory: the
    package as [b2g_update_<id>.mar], [application.ini] as
    [application_<id>.ini] and the manifest as [update_<id>.xml].  The
    [<id>] of the names is the very build identifier handed to the
    manifest generator, and the URL in the manifest is [base_url]
    followed by the dated package name. *)
Theorem make_update_xml_dated_files (w w' : World) (u : gmap string pyval) :
  nightly_build self = true ->
  update_config self = Some u ->
  make_update_xml ext self w = (Ok tt, w') ->
  exists id version base,
    u !! "base_url" = Some (PyStr base)
    /\ let dir := updates_dir self in
       let url := base +:+ "b2g_update_" +:+ str id +:+ ".mar" in
       trace w' = trace w ++
         [ Rmtree dir;
           Log INFO ("Generating update.xml for " +:+ url);
           CreateUpdateXml (marfile self) version id url dir true;
           CopyToUploadDir (marfile self)
             (Some (Path.join dir ("b2g_update_" +:+ str id +:+ ".mar")));
           CopyToUploadDir (application_ini self)
             (Some (Path.join dir ("application_" +:+ str id +:+ ".ini")));
           CopyToUploadDir (Path.join dir "update.xml")
             (Some (Path.join dir ("update_" +:+ str id +:+ ".xml"))) ].
Proof.
  intros Hn Hu Hrun.
  unfold make_update_xml, query_is_nightly in Hrun. rewrite Hn, Hu in Hrun. cbn [negb] in Hrun.
  fold (updates_dir self) in Hrun.
  apply bind_ok_inv in Hrun as ([] & w1 & Hrm & Hrun).
  apply bind_ok_inv in Hrun as (id & w2 & Hid & Hrun).
  apply bind_ok_inv in Hrun as (base_url & w3 & Hbase & Hrun).
  apply bind_ok_inv in Hrun as (url & w4 & Hurl & Hrun).
  apply bind_ok_inv in Hrun as ([] & w5 & Hinfo & Hrun).
  apply bind_ok_inv in Hrun as (version & w6 & Hver & Hrun).
  apply bind_ok_inv in Hrun as (buildid & w7 & Hbid & Hrun).
  apply bind_ok_inv in Hrun as (ok & w8 & Hxml & Hrun).
  apply bind_ok_inv in Hrun as ([] & w9 & Hcheck & Hrun).
  apply bind_ok_inv in Hrun as ([] & w10 & Hc1 & Hrun).
  apply bind_ok_inv in Hrun as ([] & w11 & Hc2 & Hc3).
  (* the worlds in between *)
  pose proof (query_buildid_reads self w1) as E2. rewrite Hid in E2. cbn [snd] in E2. subst w2.
  unfold lift, getitem in Hbase. destruct (u !! "base_url") as [b|] eqn:Hb; [|discriminate].
  injection Hbase as <- <-.
  unfold lift, add_str in Hurl. destruct b as [| | |base]; try discriminate.
  injection Hurl as <- <-.
  injection Hinfo as <-.
  match type of Hver with
  | query_version _ ?x = _ => pose proof (query_version_reads x) as E6
  end.
  rewrite Hver in E6. cbn [snd] in E6. subst w6.
  match type of Hbid with
  | query_buildid _ ?x = _ =>
      pose proof (query_buildid_reads self x) as E8;
      pose proof (query_buildid_by_fs w1 x eq_refl) as Hsame
  end.
  rewrite Hbid in E8, Hsame. cbn [snd fst] in E8, Hsame. subst w7.
  rewrite Hid in Hsame. cbn [fst] in Hsame. injection Hsame as ->.
  unfold create_update_xml in Hxml. injection Hxml as Hok <-.
  destruct ok; [|discriminate]. injection Hcheck as <-.
  injection Hc1 as <-. injection Hc2 as <-. injection Hc3 as <-.
  injection Hrm as <-.
  exists id, version, base. split; [reflexivity|].
  cbv zeta. cbn [trace with_fs record_event].
  rewrite Hok. rewrite <- !app_assoc. reflexivity.
Qed.

(** X20.  In a nightly build [make_update_xml] and [upload_updates] do
    their work only with a non-empty [update] section in the
    configuration: when the section is absent or an empty dictionary,
    each logs that there are no updates and invokes nothing. *)
Theorem update_stages_need_update_section (w : World) :
  nightly_build self = true ->
  (update (config self) = None \/ update (config self) = Some ∅) ->
  let skipped := record_event (Log INFO "No updates. Skipping...") w in
  make_update_xml ext self w = (Ok tt, skipped)
  /\ upload_updates ext self w = (Ok tt, skipped)
  /\ invocations (trace skipped) = invocations (trace w).
Proof.
  intros Hn Hu skipped.
  assert (Hnone : update_config self = None).
  { unfold update_config. destruct Hu as [->| ->]; [reflexivity|].
    rewrite decide_True by reflexivity. reflexivity. }
  unfold make_update_xml, upload_updates, query_is_nightly. rewrite Hn, Hnone.
  split; [reflexivity|]. split; [reflexivity|]. apply invocations_log.
Qed.

(** X21.  When its transfers succeed [upload_updates] leaves the return
    code of the run alone.  Without [autopublish] it starts a single
    transfer, the one that excludes [update.xml]; with [autopublish] the
    transfer of everything follows it, to the same place. *)
Theorem upload_updates_succeeds (w : World) (u : gmap string pyval)
    (key user host basepath : pyval) :
  nightly_build self = true ->
  update_config self = Some u ->
  u !! "ssh_key" = Some key -> u !! "ssh_user" = Some user ->
  u !! "upload_remote_host" = Some host ->
  u !! "upload_remote_basepath" = Some basepath ->
  let first := dated_transfer self (Some ["-azv"; "--exclude=update.xml"])
                 key user host basepath in
  let second := dated_transfer self None key user host basepath in
  rsync_failure ext w first = None ->
  (autopublish u = false ->
   exists w',
     upload_updates ext self w = (Ok tt, w')
     /\ trace w' = trace w ++ [Rsync first None; Log INFO "Upload successful"]
     /\ return_code w' = return_code w)
  /\ (autopublish u = true ->
      exists w' failure,
        upload_updates ext self w = (Ok tt, w')
        /\ trace w' = trace w ++
             [ Rsync first None; Log INFO "Upload successful"; Rsync second failure;
               match failure with
               | Some _ => Log ERROR "failed to upload"
               | None => Log INFO "Upload successful"
               end ]
        /\ return_code w' = match failure with Some _ => 2 | None => return_code w end).
Proof.
  intros Hn Hu Hk Hus Hh Hb first second Hok.
  subst first second. unfold dated_transfer, autopublish in *.
  unfold upload_updates, query_is_nightly. rewrite Hn, Hu. cbn [negb].
  unfold updates_transfer, bind, lift, getitem, rsync_upload_directory.
  rewrite Hk, Hus, Hh, Hb, Hok.
  cbn [report_transfer info log].
  split.
  - intros ->. eexists. split; [reflexivity|]. split; [|reflexivity].
    cbn [trace with_fs record_event]. rewrite <- !app_assoc. reflexivity.
  - intros ->.
    match goal with |- context [rsync_failure ext ?w2 ?t2] =>
      lazymatch t2 with
      | {| rsync_options := None |} =>
          destruct (rsync_failure ext w2 t2) as [code2|] eqn:H2
      end
    end.
    + eexists _, (Some code2). split; [reflexivity|]. split; [|reflexivity].
      cbn. rewrite <- !app_assoc. reflexivity.
    + eexists _, None. split; [reflexivity|]. split; [|reflexivity].
      cbn. rewrite <- !app_assoc. reflexivity.
Qed.
End UpdateFiles.

Section MoreWitnesses.
Import Py Harness B2G Observe Behaviour Example Example2.

Lemma query_branch_fallback_witness :
  buildbot_config dep_script = None
  /\ query_branch dep_script = Ok (PyStr "main").
Proof.
  assert (Hbc : buildbot_config dep_script = None) by reflexivity.
  destruct (query_branch_fallback dep_script) as (Hfall & _).
  destruct (Hfall (or_introl Hbc)) as (branch & before & Hq & _).
  split; [exact Hbc|]. rewrite Hq. vm_compute in Hq. exact (eq_sym Hq).
Defined.

Lemma query_buildid_sound_witness :
  exists f,
    files (fs fresh) !! platform_ini dep_script = Some f
    /\ query_buildid dep_script fresh = (Ok (PyStr "20240101010101"), fresh).
Proof.
  destruct (query_buildid_sound dep_script fresh) as (_ & Hsome).
  eexists. split; [vm_compute; reflexivity|].
  destruct (Hsome _ ltac:(vm_compute; reflexivity)) as (v & Hq & _).
  rewrite Hq. vm_compute in Hq. injection Hq as <-. reflexivity.
Defined.

Lemma query_version_sound_witness :
  exists f,
    files (fs fresh) !! application_ini dep_script = Some f
    /\ query_version dep_script fresh = (Ok (PyStr "18.0"), fresh).
Proof.
  destruct (query_version_sound dep_script fresh) as (_ & Hsome).
  eexists. split; [vm_compute; reflexivity|].
  destruct (Hsome _ ltac:(vm_compute; reflexivity)) as (v & Hq & _).
  rewrite Hq. vm_compute in Hq. injection Hq as <-. reflexivity.
Defined.

Lemma upload_without_buildid_witness :
  enable_try_uploads (config dep_script) = false
  /\ upload_path dep_script no_buildid_world
     = (Ok "/pub/b2g/main-device-x/None", no_buildid_world)
  /\ fst (upload quiet dep_script no_buildid_world) = Ok tt.
Proof.
  assert (Ht : enable_try_uploads (config dep_script) = false) by reflexivity.
  assert (Hb : query_branch dep_script = Ok (PyStr "main")) by (vm_compute; reflexivity).
  assert (Hf : files (fs no_buildid_world) !! platform_ini dep_script
               = Some {| data := "[Build]" +:+ String newline "Milestone=18.0";
                         mtime := 1351608950 # 1 |}) by (vm_compute; reflexivity).
  assert (Hnone : forall b, b <> EmptyString -> all_digits b = true ->
            ("BuildID=" +:+ b) ∉ split newline ("[Build]" +:+ String newline "Milestone=18.0")).
  { intros b _ _ Hin. vm_compute in Hin.
    apply elem_of_cons in Hin as [Hin|Hin]; [discriminate|].
    apply elem_of_cons in Hin as [Hin|Hin]; [discriminate|].
    apply elem_of_nil in Hin. exact Hin. }
  destruct (upload_without_buildid quiet dep_script no_buildid_world _ _ Ht Hb Hf Hnone)
    as (Hpath & w' & rest & Hrun & _).
  split; [exact Ht|]. split; [exact Hpath|]. rewrite Hrun. reflexivity.
Defined.

Lemma upload_submitter_errors_not_caught_witness :
  enable_try_uploads (config empty_changes_script) = true
  /\ upload quiet empty_changes_script fresh = (Raise IndexError, fresh).
Proof.
  assert (Ht : enable_try_uploads (config empty_changes_script) = true) by reflexivity.
  destruct (upload_submitter_errors_not_caught quiet empty_changes_script fresh Ht)
    as (Hindex & _).
  split; [exact Ht|].
  apply (Hindex (try_push (Some [])) {| revision := Some (PyStr "abc123"); changes := Some [] |});
    reflexivity.
Defined.

Lemma unpack_gonk_failures_witness :
  snapshot_mtime nightly_script fresh = Some 1351608932
  /\ fingerprint nightly_script fresh <> Some 1351608932
  /\ exit_status failing fresh (extraction nightly_script) <> 0
  /\ exists w', unpack_gonk failing nightly_script fresh = (Fatal 2, w')
                /\ fs w' = fs fresh.
Proof.
  assert (Hs : snapshot_mtime nightly_script fresh = Some 1351608932)
    by (vm_compute; reflexivity).
  assert (Hf : fingerprint nightly_script fresh <> Some 1351608932)
    by (vm_compute; discriminate).
  assert (Hst : exit_status failing fresh (extraction nightly_script) <> 0)
    by (vm_compute; discriminate).
  destruct (unpack_gonk_failures failing nightly_script fresh) as (_ & Hfail).
  destruct (Hfail _ Hs Hf Hst) as (w' & Hrun & _ & Hfs).
  split; [exact Hs|]. split; [exact Hf|]. split; [exact Hst|].
  exists w'. split; [exact Hrun|]. rewrite Hfs. reflexivity.
Defined.

Lemma sign_updates_command_witness :
  environ signing_world !! "MOZ_SIGNING_SERVERS" = Some "sign1:9100,sign2:9100"
  /\ exists w', sign_updates quiet nightly_script signing_world = (Ok tt, w')
                /\ buildbot_properties w' !! "tools_revision" = Some (PyStr "0123abcd").
Proof.
  assert (Henv : environ signing_world !! "MOZ_SIGNING_SERVERS"
                 = Some "sign1:9100,sign2:9100") by (vm_compute; reflexivity).
  destruct (sign_updates_command quiet nightly_script signing_world _ Henv)
    as (rev & status & w' & Hrun & _ & Hprop & _).
  split; [exact Henv|]. exists w'.
  assert (Hcheck : sign_updates quiet nightly_script signing_world
                   = (Ok tt, snd (sign_updates quiet nightly_script signing_world)))
    by (vm_compute; reflexivity).
  rewrite Hrun in Hcheck. injection Hcheck as Hr.
  split; [rewrite Hrun, Hr; reflexivity|].
  rewrite Hprop. f_equal.
  assert (Hrev : buildbot_properties (snd (sign_updates quiet nightly_script signing_world))
                 !! "tools_revision" = Some (PyStr "0123abcd")) by (vm_compute; reflexivity).
  rewrite Hrun in Hrev. cbn [snd] in Hrev. rewrite Hprop in Hrev. injection Hrev as ->.
  reflexivity.
Defined.

Lemma make_updates_without_mock_packages_witness :
  nightly_build nightly_script = true
  /\ gc_mock_target mock_descriptor = Some "mozilla-centos6-i386"
  /\ mock_packages mock_descriptor = None
  /\ fst (make_updates mock_collaborators nightly_script fresh) = Raise KeyError.
Proof.
  assert (Hn : nightly_build nightly_script = true) by reflexivity.
  assert (Hload : load_gecko_config mock_collaborators nightly_script fresh
                  = (Ok mock_descriptor,
                     snd (load_gecko_config mock_collaborators nightly_script fresh)))
    by (vm_compute; reflexivity).
  destruct (make_updates_without_mock_packages mock_collaborators nightly_script fresh _
              mock_descriptor "mozilla-centos6-i386" Hn Hload eq_refl eq_refl)
    as (w' & Hrun & _).
  split; [exact Hn|]. split; [reflexivity|]. split; [reflexivity|].
  rewrite Hrun. reflexivity.
Defined.

Lemma make_update_xml_dated_files_witness :
  nightly_build nightly_script = true
  /\ update_config nightly_script = Some update_section
  /\ exists w',
       make_update_xml quiet nightly_script fresh = (Ok tt, w')
       /\ staged_as (trace w') =
            [ ("/builds/build/objdir-gecko/dist/b2g-update/b2g-gecko-update.mar",
               "/builds/build/upload-updates/b2g_update_20240101010101.mar");
              ("/builds/build/out/target/product/device-x/system/b2g/application.ini",
               "/builds/build/upload-updates/application_20240101010101.ini");
              ("/builds/build/upload-updates/update.xml",
               "/builds/build/upload-updates/update_20240101010101.xml") ].
Proof.
  assert (Hn : nightly_build nightly_script = true) by reflexivity.
  assert (Hu : update_config nightly_script = Some update_section)
    by (vm_compute; reflexivity).
  assert (Hrun : make_update_xml quiet nightly_script fresh
                 = (Ok tt, snd (make_update_xml quiet nightly_script fresh)))
    by (vm_compute; reflexivity).
  destruct (make_update_xml_dated_files quiet nightly_script fresh _ update_section Hn Hu Hrun)
    as (id & version & base & _ & Htrace).
  split; [exact Hn|]. split; [exact Hu|].
  eexists. split; [exact Hrun|]. vm_compute. reflexivity.
Defined.

Lemma update_stages_need_update_section_witness :
  nightly_build no_update_script = true
  /\ update (config no_update_script) = None
  /\ make_update_xml failing no_update_script fresh
     = (Ok tt, record_event (Log INFO "No updates. Skipping...") fresh).
Proof.
  assert (Hn : nightly_build no_update_script = true) by reflexivity.
  assert (Hu : update (config no_update_script) = None) by reflexivity.
  destruct (update_stages_need_update_section failing no_update_script fresh Hn
              (or_introl Hu)) as (Hxml & _).
  split; [exact Hn|]. split; [exact Hu|exact Hxml].
Defined.

Lemma upload_updates_succeeds_witness :
  nightly_build nightly_script = true
  /\ autopublish update_section = true
  /\ exists w', upload_updates quiet nightly_script fresh = (Ok tt, w')
                /\ return_code w' = 0.
Proof.
  assert (Hn : nightly_build nightly_script = true) by reflexivity.
  assert (Ha : autopublish update_section = true) by (vm_compute; reflexivity).
  destruct (upload_updates_succeeds quiet nightly_script fresh update_section
              (PyStr "~/.ssh/b2g") (PyStr "b2gbld") (PyStr "update.example.org")
              (PyStr "/data/update"))
    as (_ & Hpub); try (vm_compute; reflexivity).
  destruct (Hpub Ha) as (w' & failure & Hrun & _ & Hcode).
  split; [exact Hn|]. split; [exact Ha|]. exists w'. split; [exact Hrun|].
  assert (Hcheck : return_code (snd (upload_updates quiet nightly_script fresh)) = 0)
    by (vm_compute; reflexivity).
  rewrite Hrun in Hcheck. exact Hcheck.
Defined.
End MoreWitnesses.
